(** * ClimeCapsule: a shallow embedding of the ingestion and aggregation core

    The development embeds [src/weather/db.py] (class [WeatherDB]),
    [src/weather/clime_capsule.py] (class [ClimeCapsule] and the pydantic
    model [DailyObservation]) and the route handlers of [src/api.py],
    and proves properties of the embedded functions.

    Modelling conventions.
    - Python values are the JSON-shaped values the program handles:
      [None], numbers, strings, lists and dicts; a JSON boolean counts as
      the number it is in Python.  A number is given by its exact value,
      a rational ([Q]).  The numbers of the program are floats, binary64:
      a sum and a quotient are the exact result rounded to the nearest
      binary64 number, ties to even ([fl]), a comparison is exact, and
      [round(x, 2)] rounds the exact value of the float [x].  An int is
      taken for the float of its value, as a REAL column and the float
      operations do, which is exact below [2^53]; larger ints, and sums
      beyond the largest float, which Python makes [inf], are outside
      the model.  The arithmetic of the clock in the rate limiter is
      exact.  A dict is an association list whose first binding of a key
      is the live one.  Text is ASCII.
    - A Python exception is a value of [exn]; a pure function returns a
      [result], a function with effects is a state transformer over
      [World] which keeps the effects made before an exception.
    - The SQLite file, the remote provider, the clocks and the random
      jitter of the backoff library are fields of [World]; every HTTP
      request, every sleep and every database call is appended to the
      world's [trace].  The [print] calls of the source are not events.
    - [while] loops run on fuel; running out of it is the result
      [Raise OutOfFuel], which the theorems exclude for enough fuel.
    - Of SQLite, the storage classes NULL, number and text are modelled,
      with the UNIQUE index, AUTOINCREMENT and the order of [ORDER BY];
      the conversions of column affinity are not. *)

From Stdlib Require Import ZArith QArith Qround Qabs Qpower List String Ascii Bool.
From Stdlib Require Import Lia Lqa.
From Stdlib Require Import Permutation Sorted.
Import ListNotations.

Set Warnings "-register-all".
Local Open Scope string_scope.
Local Open Scope list_scope.
Local Open Scope Z_scope.

(* ================================================================== *)
(** * Python values, exceptions and results *)

Inductive pyval : Type :=
| PyNone
| PyNum (q : Q)
| PyStr (s : string)
| PyList (l : list pyval)
| PyDict (kv : list (string * pyval)).

Inductive exn : Type :=
| KeyError
| TypeError
| AttributeError
| IndexError
| ValueError
| OverflowError
| ValidationError
| IntegrityError
| OperationalError
| InterfaceError
| ConnectionError
| JSONDecodeError
| HTTPError (status : Z)
| ZeroDivisionError
| RateLimitException (period_remaining : Q)
| OutOfFuel.

Inductive result (A : Type) : Type :=
| Ok (a : A)
| Raise (e : exn).
Arguments Ok {A} a.
Arguments Raise {A} e.

Definition rbind {A B} (r : result A) (k : A -> result B) : result B :=
  match r with
  | Ok a => k a
  | Raise e => Raise e
  end.

Declare Scope py_scope.
Delimit Scope py_scope with py.
Notation "x <- c ;; k" := (rbind c (fun x => k))
  (at level 61, c at next level, right associativity) : py_scope.
Notation "c ;;; k" := (rbind c (fun _ => k))
  (at level 61, right associativity) : py_scope.

(** [d.get(k)] on the association list behind a dict. *)
Fixpoint assoc {A} (k : string) (kv : list (string * A)) : option A :=
  match kv with
  | [] => None
  | (k', v) :: rest => if String.eqb k k' then Some v else assoc k rest
  end.

(** [v[k]] with a string key. *)
Definition getitem (v : pyval) (k : string) : result pyval :=
  match v with
  | PyDict kv =>
      match assoc k kv with
      | Some x => Ok x
      | None => Raise KeyError
      end
  | _ => Raise TypeError
  end.

(** [v.get(k, default)]. *)
Definition dict_get (v : pyval) (k : string) (default : pyval)
  : result pyval :=
  match v with
  | PyDict kv =>
      match assoc k kv with
      | Some x => Ok x
      | None => Ok default
      end
  | _ => Raise AttributeError
  end.

(** [l[0]] and [l[-1]] on a Python list. *)
Definition first_item {A} (l : list A) : result A :=
  match l with
  | [] => Raise IndexError
  | x :: _ => Ok x
  end.

Fixpoint last_item {A} (l : list A) : result A :=
  match l with
  | [] => Raise IndexError
  | [x] => Ok x
  | _ :: rest => last_item rest
  end.

(** The items a [list.extend(v)] appends: the elements of a list, the
    keys of a dict, the characters of a string. *)
Fixpoint chars (s : string) : list pyval :=
  match s with
  | EmptyString => []
  | String c rest => PyStr (String c EmptyString) :: chars rest
  end.

Definition iter_items (v : pyval) : result (list pyval) :=
  match v with
  | PyList l => Ok l
  | PyDict kv => Ok (map (fun p => PyStr (fst p)) kv)
  | PyStr s => Ok (chars s)
  | _ => Raise TypeError
  end.

(** ** Floats.  A binary64 number has 53 significant bits; below
    [2^-1022] the numbers are [2^-1074] apart. *)

(** [round(x)] to the nearest integer, ties to the even one. *)
Definition round_half_even (x : Q) : Z :=
  let f := Qfloor x in
  match Qcompare (x - inject_Z f) (1 # 2) with
  | Lt => f
  | Gt => f + 1
  | Eq => if Z.even f then f else f + 1
  end.

(** For [x <> 0], the exponent [e] with [2^e <= |x| < 2^(e+1)]. *)
Definition binade (x : Q) : Z :=
  let e := Z.log2 (Z.abs (Qnum x)) - Z.log2 (Zpos (Qden x)) in
  if Qle_bool (2 ^ e) (Qabs x) then e else e - 1.

(** The distance between the binary64 numbers around [x]. *)
Definition ulp (x : Q) : Q := (2 ^ Z.max (binade x - 52) (-1074))%Q.

(** The binary64 number nearest to [x], ties to the even mantissa:
    what an operation on floats returns for the exact result [x], and
    what a decimal literal [x] is read as. *)
Definition fl (x : Q) : Q :=
  let y := Qred x in
  if Qeq_bool y 0 then 0%Q
  else Qred (inject_Z (round_half_even (y / ulp y)) * ulp y).

(** [a + b] and [a / b] on floats. *)
Definition float_add (a b : Q) : Q := fl (a + b).
Definition float_div (a b : Q) : Q := fl (a / b).

(** Number comparison and addition as the aggregation loop uses them: the
    right operand is always a number already. *)
Definition Qgtb (a b : Q) : bool := negb (Qle_bool a b).
Definition Qltb (a b : Q) : bool := negb (Qle_bool b a).

Definition py_gt (v : pyval) (acc : Q) : result bool :=
  match v with
  | PyNum q => Ok (Qgtb q acc)
  | _ => Raise TypeError
  end.

Definition py_lt (v : pyval) (acc : Q) : result bool :=
  match v with
  | PyNum q => Ok (Qltb q acc)
  | _ => Raise TypeError
  end.

Definition py_add (acc : Q) (v : pyval) : result Q :=
  match v with
  | PyNum q => Ok (float_add acc q)
  | _ => Raise TypeError
  end.

Definition as_num (v : pyval) : result Q :=
  match v with
  | PyNum q => Ok q
  | _ => Raise TypeError
  end.

(** [round(x, 2)] on the float [x]: the number of hundredths nearest
    to the exact value of [x], ties to the even one.  The float that
    [round] returns is the one nearest to this decimal and is printed
    as it; the decimal stands for it here. *)
Definition round2 (x : Q) : Q :=
  Qmake (round_half_even (x * inject_Z 100)) 100.

(* ================================================================== *)
(** * Dates: [datetime.strptime], [strftime], [timedelta(days=1)] *)

Record date : Type := mkdate { year : Z; month : Z; day : Z }.

Record datetime : Type :=
  mkdatetime { dt_date : date; hour : Z; minute : Z; second : Z }.

Definition MINYEAR : Z := 1.
Definition MAXYEAR : Z := 9999.

Definition is_leap (y : Z) : bool :=
  (y mod 4 =? 0) && (negb (y mod 100 =? 0) || (y mod 400 =? 0)).

Definition days_in_month (y m : Z) : Z :=
  match m with
  | 1 | 3 | 5 | 7 | 8 | 10 | 12 => 31
  | 4 | 6 | 9 | 11 => 30
  | 2 => if is_leap y then 29 else 28
  | _ => 0
  end.

Definition valid_date (d : date) : bool :=
  (MINYEAR <=? year d) && (year d <=? MAXYEAR)
  && (1 <=? month d) && (month d <=? 12)
  && (1 <=? day d) && (day d <=? days_in_month (year d) (month d)).

Definition valid_time (h m s : Z) : bool :=
  (0 <=? h) && (h <=? 23) && (0 <=? m) && (m <=? 59)
  && (0 <=? s) && (s <=? 59).

(** The constructor [datetime(y, m, d, H, M, S)]. *)
Definition make_datetime (y m d h mi s : Z) : result datetime :=
  if valid_date (mkdate y m d) && valid_time h mi s
  then Ok (mkdatetime (mkdate y m d) h mi s)
  else Raise ValueError.

(** The order of dates, and [a <= b]. *)
Definition date_compare (a b : date) : comparison :=
  match year a ?= year b with
  | Eq => match month a ?= month b with
          | Eq => day a ?= day b
          | c => c
          end
  | c => c
  end.

Definition date_leb (a b : date) : bool :=
  match date_compare a b with Gt => false | _ => true end.

(** [d + timedelta(days=1)]. *)
Definition next_day (d : date) : result date :=
  if day d <? days_in_month (year d) (month d)
  then Ok (mkdate (year d) (month d) (day d + 1))
  else if month d <? 12
  then Ok (mkdate (year d) (month d + 1) 1)
  else if year d <? MAXYEAR
  then Ok (mkdate (year d + 1) 1 1)
  else Raise OverflowError.

(** ** Parsing.  [_strptime] turns the format into a regular expression,
    takes the first match in the order of its alternatives and requires
    it to cover the whole string.  A parser returns its successes in that
    order. *)
Definition parser (A : Type) : Type := string -> list (A * string).

Definition p_ret {A} (a : A) : parser A := fun s => [(a, s)].

Definition p_bind {A B} (p : parser A) (k : A -> parser B) : parser B :=
  fun s => flat_map (fun r => k (fst r) (snd r)) (p s).

Definition p_alt {A} (p q : parser A) : parser A :=
  fun s => p s ++ q s.

Notation "x <~ p ;; k" := (p_bind p (fun x => k))
  (at level 61, p at next level, right associativity) : py_scope.

Definition digit_of (c : ascii) : option Z :=
  let n := Z.of_N (N_of_ascii c) in
  if (48 <=? n) && (n <=? 57) then Some (n - 48) else None.

(** One digit between [lo] and [hi]. *)
Definition p_digit (lo hi : Z) : parser Z :=
  fun s =>
    match s with
    | String c rest =>
        match digit_of c with
        | Some d => if (lo <=? d) && (d <=? hi) then [(d, rest)] else []
        | None => []
        end
    | EmptyString => []
    end.

Definition p_char (c : ascii) : parser unit :=
  fun s =>
    match s with
    | String c' rest => if Ascii.eqb c c' then [(tt, rest)] else []
    | EmptyString => []
    end.

(** Two digits, the first in [[a1, b1]] and the second in [[a2, b2]]. *)
Definition p_two (a1 b1 a2 b2 : Z) : parser Z :=
  (x <~ p_digit a1 b1 ;; y <~ p_digit a2 b2 ;; p_ret (10 * x + y))%py.

(** [\s] *)
Definition is_space (c : ascii) : bool :=
  let n := Z.of_N (N_of_ascii c) in
  ((9 <=? n) && (n <=? 13)) || ((28 <=? n) && (n <=? 32)).

(** [\s+], greedy: the longest run first. *)
Fixpoint p_spaces_star (s : string) : list (unit * string) :=
  match s with
  | String c rest =>
      if is_space c then p_spaces_star rest ++ [(tt, s)] else [(tt, s)]
  | EmptyString => [(tt, s)]
  end.

Definition p_spaces_plus : parser unit :=
  fun s =>
    match s with
    | String c rest => if is_space c then p_spaces_star rest else []
    | EmptyString => []
    end.

(** [%Y]: [\d\d\d\d] *)
Definition tok_Y : parser Z :=
  (a <~ p_digit 0 9 ;; b <~ p_digit 0 9 ;;
   c <~ p_digit 0 9 ;; d <~ p_digit 0 9 ;;
   p_ret (1000 * a + 100 * b + 10 * c + d))%py.

(** [%m]: [1[0-2]|0[1-9]|[1-9]] *)
Definition tok_m : parser Z :=
  p_alt (p_two 1 1 0 2) (p_alt (p_two 0 0 1 9) (p_digit 1 9)).

(** [%d]: [3[0-1]|[1-2]\d|0[1-9]|[1-9]| [1-9]] *)
Definition tok_d : parser Z :=
  p_alt (p_two 3 3 0 1)
    (p_alt (p_two 1 2 0 9)
       (p_alt (p_two 0 0 1 9)
          (p_alt (p_digit 1 9)
             (_ <~ p_char " " ;; p_digit 1 9)%py))).

(** [%H]: [2[0-3]|[0-1]\d|\d] *)
Definition tok_H : parser Z :=
  p_alt (p_two 2 2 0 3) (p_alt (p_two 0 1 0 9) (p_digit 0 9)).

(** [%M]: [[0-5]\d|\d] *)
Definition tok_M : parser Z :=
  p_alt (p_two 0 5 0 9) (p_digit 0 9).

(** [%S]: [6[0-1]|[0-5]\d|\d] *)
Definition tok_S : parser Z :=
  p_alt (p_two 6 6 0 1) (p_alt (p_two 0 5 0 9) (p_digit 0 9)).

(** The regular expression of ["%Y-%m-%d"]. *)
Definition re_date : parser (Z * Z * Z) :=
  (y <~ tok_Y ;; _ <~ p_char "-" ;; m <~ tok_m ;; _ <~ p_char "-" ;;
   d <~ tok_d ;; p_ret (y, m, d))%py.

(** The regular expression of ["%Y-%m-%d %H:%M:%S"]. *)
Definition re_datetime : parser (Z * Z * Z * (Z * Z * Z)) :=
  (y <~ tok_Y ;; _ <~ p_char "-" ;; m <~ tok_m ;; _ <~ p_char "-" ;;
   d <~ tok_d ;; _ <~ p_spaces_plus ;;
   h <~ tok_H ;; _ <~ p_char ":" ;; mi <~ tok_M ;; _ <~ p_char ":" ;;
   s <~ tok_S ;; p_ret (y, m, d, (h, mi, s)))%py.

(** The first match must leave nothing unconverted. *)
Definition full_match {A} (p : parser A) (s : string) : result A :=
  match p s with
  | [] => Raise ValueError
  | (a, EmptyString) :: _ => Ok a
  | (_, String _ _) :: _ => Raise ValueError
  end.

(** [datetime.strptime(s, "%Y-%m-%d")] *)
Definition strptime_date (s : string) : result datetime :=
  (f <- full_match re_date s ;;
   let '(y, m, d) := f in
   make_datetime y m d 0 0 0)%py.

(** [datetime.strptime(s, "%Y-%m-%d %H:%M:%S")] *)
Definition strptime_datetime (s : string) : result datetime :=
  (f <- full_match re_datetime s ;;
   let '(y, m, d, (h, mi, sec)) := f in
   make_datetime y m d h mi sec)%py.

(** [strptime] wants a [str]. *)
Definition py_strptime (p : string -> result datetime) (v : pyval)
  : result datetime :=
  match v with
  | PyStr s => p s
  | _ => Raise TypeError
  end.

(** ** Formatting *)
Definition digit_char (d : Z) : ascii := ascii_of_N (Z.to_N (48 + d mod 10)).

Definition pad2 (n : Z) : string :=
  String (digit_char (n / 10)) (String (digit_char n) EmptyString).

Definition pad4 (n : Z) : string :=
  String (digit_char (n / 1000))
    (String (digit_char (n / 100))
       (String (digit_char (n / 10)) (String (digit_char n) EmptyString))).

Definition month_name (m : Z) : string :=
  match m with
  | 1 => "January" | 2 => "February" | 3 => "March" | 4 => "April"
  | 5 => "May" | 6 => "June" | 7 => "July" | 8 => "August"
  | 9 => "September" | 10 => "October" | 11 => "November"
  | _ => "December"
  end.

(** [strftime("%Y-%m-%d")] *)
Definition strftime_iso (d : date) : string :=
  (pad4 (year d) ++ "-" ++ pad2 (month d) ++ "-" ++ pad2 (day d))%string.

(** [strftime("%Y%m%d")] *)
Definition strftime_compact (d : date) : string :=
  (pad4 (year d) ++ pad2 (month d) ++ pad2 (day d))%string.

(** [strftime("%Y-%m-%d 00:00:00")] *)
Definition strftime_midnight (d : date) : string :=
  (strftime_iso d ++ " 00:00:00")%string.

(** [strftime("%B %d, %Y")] *)
Definition strftime_friendly (d : date) : string :=
  (month_name (month d) ++ " " ++ pad2 (day d) ++ ", " ++ pad4 (year d))%string.

(** [strftime("%Y-%m-%d %H:%M:%S")], the form the provider sends. *)
Definition strftime_stamp (t : datetime) : string :=
  (strftime_iso (dt_date t) ++ " " ++ pad2 (hour t) ++ ":"
   ++ pad2 (minute t) ++ ":" ++ pad2 (second t))%string.

(* ================================================================== *)
(** * The pydantic model [DailyObservation] *)

Record DailyObservation : Type := mkDailyObservation {
  station_id : string;
  obs_time_local : string;
  friendly_date : string;
  temp_high : Q;
  temp_low : Q;
  temp_avg : Q;
  windspeed_high : Q;
  windspeed_low : Q;
  windspeed_avg : Q;
  wind_chill_high : Q;
  wind_chill_low : Q;
  wind_chill_avg : Q;
  precip_rate : Q;
  precip_avg : Q
}.

(** Validation of one keyword argument.  No field of the model declares a
    default, so each one is required; a [str] field takes a string and a
    [float] field a number. *)
Definition field_str (kwargs : list (string * pyval)) (k : string)
  : result string :=
  match assoc k kwargs with
  | Some (PyStr s) => Ok s
  | _ => Raise ValidationError
  end.

Definition field_float (kwargs : list (string * pyval)) (k : string)
  : result Q :=
  match assoc k kwargs with
  | Some (PyNum q) => Ok q
  | _ => Raise ValidationError
  end.

(** The constructor call [DailyObservation(...)] on keyword arguments. *)
Definition DailyObservation_new (kwargs : list (string * pyval))
  : result DailyObservation :=
  (f1 <- field_str kwargs "station_id" ;;
   f2 <- field_str kwargs "obs_time_local" ;;
   f3 <- field_str kwargs "friendly_date" ;;
   f4 <- field_float kwargs "temp_high" ;;
   f5 <- field_float kwargs "temp_low" ;;
   f6 <- field_float kwargs "temp_avg" ;;
   f7 <- field_float kwargs "windspeed_high" ;;
   f8 <- field_float kwargs "windspeed_low" ;;
   f9 <- field_float kwargs "windspeed_avg" ;;
   f10 <- field_float kwargs "wind_chill_high" ;;
   f11 <- field_float kwargs "wind_chill_low" ;;
   f12 <- field_float kwargs "wind_chill_avg" ;;
   f13 <- field_float kwargs "precip_rate" ;;
   f14 <- field_float kwargs "precip_avg" ;;
   Ok (mkDailyObservation f1 f2 f3 f4 f5 f6 f7 f8 f9 f10 f11 f12 f13 f14))%py.

(* ================================================================== *)
(** * SQLite: the table [weather_data] *)

Inductive sqlval : Type :=
| SqlNull
| SqlNum (q : Q)
| SqlText (s : string).

Module weather_data.

(** The fourteen columns an [INSERT] supplies and a [SELECT] returns. *)
Record values : Type := mkvalues {
  station_id : sqlval;
  obs_time_local : sqlval;
  temperature_high : sqlval;
  temperature_low : sqlval;
  temperature_average : sqlval;
  humidity : sqlval;
  wind_speed_high : sqlval;
  wind_speed_low : sqlval;
  wind_speed_average : sqlval;
  windchill_high : sqlval;
  windchill_low : sqlval;
  windchill_average : sqlval;
  precip_rate : sqlval;
  precip_total : sqlval
}.

(** A stored row: [id INTEGER PRIMARY KEY AUTOINCREMENT] and the rest. *)
Record row : Type := mkrow { id : Z; cols : values }.

(** The table with the counter AUTOINCREMENT keeps in
    [sqlite_sequence]. *)
Record table : Type := mktable { rows : list row; sqlite_sequence : Z }.

Definition empty : table := mktable [] 0.

End weather_data.

Import weather_data(values, row, table).

Inductive statement : Type :=
| CreateTableIfNotExists
| InsertInto (params : list pyval)
| SelectBetween (start_ts end_ts : string).

(** The database file named by [db_file]: absent, or a database that
    holds the table or not yet. *)
Inductive sqlite_file : Type :=
| NoFile
| DbFile (tbl : option table).

(** Equality of two column values as the UNIQUE index sees it: NULL is
    distinct from everything, also from NULL. *)
Definition sql_eqb (a b : sqlval) : bool :=
  match a, b with
  | SqlText s, SqlText t => String.eqb s t
  | SqlNum p, SqlNum q => Qeq_bool p q
  | _, _ => false
  end.

(** [col >= ?] and [col < ?] against a text parameter; a comparison with
    NULL is not true, a number sorts before every text. *)
Definition sql_ge_text (v : sqlval) (bound : string) : bool :=
  match v with
  | SqlText s => String.leb bound s
  | _ => false
  end.

Definition sql_lt_text (v : sqlval) (bound : string) : bool :=
  match v with
  | SqlText s => String.ltb s bound
  | SqlNum _ => true
  | SqlNull => false
  end.

(** The order of [ORDER BY ... ASC]: NULL, then numbers, then text. *)
Definition sql_leb (a b : sqlval) : bool :=
  match a, b with
  | SqlNull, _ => true
  | SqlNum _, SqlNull => false
  | SqlNum p, SqlNum q => Qle_bool p q
  | SqlNum _, SqlText _ => true
  | SqlText s, SqlText t => String.leb s t
  | SqlText _, _ => false
  end.

Fixpoint insert_sorted (v : values) (l : list values) : list values :=
  match l with
  | [] => [v]
  | x :: rest =>
      if sql_leb (weather_data.obs_time_local v) (weather_data.obs_time_local x)
      then v :: l
      else x :: insert_sorted v rest
  end.

Definition order_by_obs_time_local (l : list values) : list values :=
  fold_right insert_sorted [] l.

(** [WHERE obs_time_local >= ? AND obs_time_local < ?] *)
Definition in_range (start_ts end_ts : string) (v : values) : bool :=
  sql_ge_text (weather_data.obs_time_local v) start_ts
  && sql_lt_text (weather_data.obs_time_local v) end_ts.

Definition select_between (start_ts end_ts : string) (t : table)
  : list values :=
  order_by_obs_time_local
    (filter (in_range start_ts end_ts) (map weather_data.cols (weather_data.rows t))).

(** [obs_time_local TEXT UNIQUE] *)
Definition unique_violation (v : values) (t : table) : bool :=
  existsb
    (fun r => sql_eqb (weather_data.obs_time_local (weather_data.cols r))
                (weather_data.obs_time_local v))
    (weather_data.rows t).

(** One [INSERT] into the table. *)
Definition insert_row (v : values) (t : table) : result table :=
  if unique_violation v t then Raise IntegrityError
  else
    let i := weather_data.sqlite_sequence t + 1 in
    Ok (weather_data.mktable (weather_data.rows t ++ [weather_data.mkrow i v]) i).

(** A Python value bound to a statement parameter. *)
Definition bind_param (v : pyval) : result sqlval :=
  match v with
  | PyNone => Ok SqlNull
  | PyNum q => Ok (SqlNum q)
  | PyStr s => Ok (SqlText s)
  | PyList _ | PyDict _ => Raise InterfaceError
  end.

(** The fourteen parameters of the [INSERT], bound in order. *)
Definition bind_values (params : list pyval) : result values :=
  match params with
  | [p1; p2; p3; p4; p5; p6; p7; p8; p9; p10; p11; p12; p13; p14] =>
      (v1 <- bind_param p1 ;; v2 <- bind_param p2 ;; v3 <- bind_param p3 ;;
       v4 <- bind_param p4 ;; v5 <- bind_param p5 ;; v6 <- bind_param p6 ;;
       v7 <- bind_param p7 ;; v8 <- bind_param p8 ;; v9 <- bind_param p9 ;;
       v10 <- bind_param p10 ;; v11 <- bind_param p11 ;;
       v12 <- bind_param p12 ;; v13 <- bind_param p13 ;;
       v14 <- bind_param p14 ;;
       Ok (weather_data.mkvalues v1 v2 v3 v4 v5 v6 v7 v8 v9 v10 v11 v12
             v13 v14))%py
  | _ => Raise InterfaceError
  end.

(** A column value handed back to Python. *)
Definition py_of_sql (v : sqlval) : pyval :=
  match v with
  | SqlNull => PyNone
  | SqlNum q => PyNum q
  | SqlText s => PyStr s
  end.

(* ================================================================== *)
(** * The world and the monad of effects *)

Definition request : Type := (string * list (string * string))%type.

(** What [requests.get] meets: no connection, or a response with its
    status code and its body, [None] when the body is not JSON. *)
Inductive http_outcome : Type :=
| NoConnection
| Response (status_code : Z) (body : option pyval).

Inductive event : Type :=
| EvHttpGet (r : request)
| EvSleep (seconds : Q)
| EvConnect
| EvExecute (s : statement)
| EvCommit
| EvClose.

Record World : Type := mkWorld {
  disk : sqlite_file;
  trace : list event;
  (** [time.monotonic()]; it advances by sleeping *)
  monotonic : Q;
  (** [datetime.now()] *)
  now : datetime;
  (** the state of the [limits] decorator on [make_api_call] *)
  num_calls : Z;
  last_reset : Q;
  (** the provider, which sees the requests made so far *)
  provider : list request -> request -> http_outcome;
  (** the source of [random.uniform] and the number of draws so far *)
  entropy : nat -> Q;
  draws : nat
}.

Definition M (A : Type) : Type := World -> result A * World.

Definition ret {A} (a : A) : M A := fun w => (Ok a, w).

Definition raise {A} (e : exn) : M A := fun w => (Raise e, w).

Definition bind {A B} (c : M A) (k : A -> M B) : M B :=
  fun w =>
    match c w with
    | (Ok a, w') => k a w'
    | (Raise e, w') => (Raise e, w')
    end.

Definition lift {A} (r : result A) : M A := fun w => (r, w).

Declare Scope io_scope.
Delimit Scope io_scope with io.
Notation "x <- c ;; k" := (bind c (fun x => k))
  (at level 61, c at next level, right associativity) : io_scope.
Notation "c ;;; k" := (bind c (fun _ => k))
  (at level 61, right associativity) : io_scope.

Definition set_disk (d : sqlite_file) (w : World) : World :=
  mkWorld d (trace w) (monotonic w) (now w) (num_calls w) (last_reset w)
    (provider w) (entropy w) (draws w).

Definition log (e : event) (w : World) : World :=
  mkWorld (disk w) (trace w ++ [e]) (monotonic w) (now w) (num_calls w)
    (last_reset w) (provider w) (entropy w) (draws w).

Definition set_monotonic (t : Q) (w : World) : World :=
  mkWorld (disk w) (trace w) t (now w) (num_calls w) (last_reset w)
    (provider w) (entropy w) (draws w).

Definition set_limiter (n : Z) (reset : Q) (w : World) : World :=
  mkWorld (disk w) (trace w) (monotonic w) (now w) n reset
    (provider w) (entropy w) (draws w).

Definition set_draws (n : nat) (w : World) : World :=
  mkWorld (disk w) (trace w) (monotonic w) (now w) (num_calls w)
    (last_reset w) (provider w) (entropy w) n.

(** The requests among the events, oldest first. *)
Fixpoint requests_of (t : list event) : list request :=
  match t with
  | [] => []
  | EvHttpGet r :: rest => r :: requests_of rest
  | _ :: rest => requests_of rest
  end.

(** The database events among the events. *)
Definition is_db_event (e : event) : bool :=
  match e with
  | EvConnect | EvExecute _ | EvCommit | EvClose => true
  | _ => false
  end.

(** ** The [sqlite3] module.  A connection works on its own copy of the
    table; [commit] writes the copy back.  A connection dropped without
    [commit] leaves the file as it was. *)
Definition connection : Type := option table.

(** [sqlite3.connect(db_file)] creates the file when it is missing. *)
Definition connect : M connection :=
  fun w =>
    match disk w with
    | NoFile => (Ok None, log EvConnect (set_disk (DbFile None) w))
    | DbFile t => (Ok t, log EvConnect w)
    end.

(** [cursor.execute(sql, params)]: the connection after the statement and
    the rows fetched. *)
Definition execute (conn : connection) (s : statement)
  : M (connection * list values) :=
  fun w =>
    let w' := log (EvExecute s) w in
    match s, conn with
    | CreateTableIfNotExists, None =>
        (Ok (Some weather_data.empty, []),
         set_disk (DbFile (Some weather_data.empty)) w')
    | CreateTableIfNotExists, Some t => (Ok (Some t, []), w')
    | _, None => (Raise OperationalError, w')
    | InsertInto params, Some t =>
        match (v <- bind_values params ;; insert_row v t)%py with
        | Ok t' => (Ok (Some t', []), w')
        | Raise e => (Raise e, w')
        end
    | SelectBetween a b, Some t => (Ok (Some t, select_between a b t), w')
    end.

Definition commit (conn : connection) : M unit :=
  fun w => (Ok tt, log EvCommit (set_disk (DbFile conn) w)).

Definition close : M unit :=
  fun w => (Ok tt, log EvClose w).

(** [time.sleep(seconds)] *)
Definition sleep (seconds : Q) : M unit :=
  fun w =>
    if Qltb seconds 0 then (Raise ValueError, w)
    else (Ok tt, log (EvSleep seconds) (set_monotonic (monotonic w + seconds)%Q w)).

(** [random.uniform(0, v)] *)
Definition clamp01 (q : Q) : Q :=
  if Qltb q 0 then 0%Q else if Qltb 1 q then 1%Q else q.

Definition uniform (v : Q) : M Q :=
  fun w => (Ok (v * clamp01 (entropy w (draws w)))%Q, set_draws (S (draws w)) w).

(* ================================================================== *)
(** * [class WeatherDB] *)

Module WeatherDB.

Definition init_db : M unit :=
  (conn <- connect ;;
   r <- execute conn CreateTableIfNotExists ;;
   commit (fst r) ;;;
   close)%io.

(** [obs.get("imperial", {}).get(k, None)] *)
Definition imperial_get (obs : pyval) (k : string) : result pyval :=
  (i <- dict_get obs "imperial" (PyDict []) ;; dict_get i k PyNone)%py.

(** The parameter tuple of [insert_observations]. *)
Definition insert_tuple (obs : pyval) : result (list pyval) :=
  (p1 <- getitem obs "stationID" ;;
   p2 <- getitem obs "obsTimeLocal" ;;
   p3 <- imperial_get obs "tempHigh" ;;
   p4 <- imperial_get obs "tempLow" ;;
   p5 <- imperial_get obs "tempAvg" ;;
   p6 <- dict_get obs "humidityAvg" PyNone ;;
   p7 <- imperial_get obs "windspeedHigh" ;;
   p8 <- imperial_get obs "windspeedLow" ;;
   p9 <- imperial_get obs "windspeedAvg" ;;
   p10 <- imperial_get obs "windchillHigh" ;;
   p11 <- imperial_get obs "windchillLow" ;;
   p12 <- imperial_get obs "windchillAvg" ;;
   p13 <- imperial_get obs "precipRate" ;;
   p14 <- imperial_get obs "precipTotal" ;;
   Ok [p1; p2; p3; p4; p5; p6; p7; p8; p9; p10; p11; p12; p13; p14])%py.

(** The loop of [insert_observations]: [IntegrityError] is caught and
    the loop goes on, any other exception leaves the loop. *)
Fixpoint insert_each (conn : connection) (observations : list pyval)
  : M connection :=
  match observations with
  | [] => ret conn
  | obs :: rest =>
      fun w =>
        match (params <- lift (insert_tuple obs) ;;
               execute conn (InsertInto params))%io w with
        | (Ok (conn', _), w') => insert_each conn' rest w'
        | (Raise IntegrityError, w') => insert_each conn rest w'
        | (Raise e, w') => (Raise e, w')
        end
  end.

Definition insert_observations (observations : list pyval) : M unit :=
  (conn <- connect ;;
   conn' <- insert_each conn observations ;;
   commit conn' ;;;
   close)%io.

(** The dict [query_by_date] builds from a fetched row. *)
Definition observation_of_row (v : values) : pyval :=
  PyDict
    [("stationID", py_of_sql (weather_data.station_id v));
     ("obsTimeLocal", py_of_sql (weather_data.obs_time_local v));
     ("imperial",
      PyDict
        [("tempHigh", py_of_sql (weather_data.temperature_high v));
         ("tempLow", py_of_sql (weather_data.temperature_low v));
         ("tempAvg", py_of_sql (weather_data.temperature_average v));
         ("humidity", py_of_sql (weather_data.humidity v));
         ("windspeedHigh", py_of_sql (weather_data.wind_speed_high v));
         ("windspeedLow", py_of_sql (weather_data.wind_speed_low v));
         ("windspeedAverage", py_of_sql (weather_data.wind_speed_average v));
         ("windchillHigh", py_of_sql (weather_data.windchill_high v));
         ("windchillLow", py_of_sql (weather_data.windchill_low v));
         ("windchillAverage", py_of_sql (weather_data.windchill_average v));
         ("precipRate", py_of_sql (weather_data.precip_rate v));
         ("precipAverage", py_of_sql (weather_data.precip_total v))])].

Definition query_by_date (date_str : string) : M (list pyval) :=
  (conn <- connect ;;
   dt <- lift (strptime_date date_str) ;;
   let start_ts := strftime_midnight (dt_date dt) in
   next <- lift (next_day (dt_date dt)) ;;
   let end_ts := strftime_midnight next in
   r <- execute conn (SelectBetween start_ts end_ts) ;;
   close ;;;
   ret (map observation_of_row (snd r)))%io.

(** The parameter tuple of [insert_current_observations]: the one
    current value fills the high, low and average columns. *)
Definition current_tuple (obs : pyval) : result (list pyval) :=
  (p1 <- getitem obs "stationID" ;;
   p2 <- getitem obs "obsTimeLocal" ;;
   p3 <- imperial_get obs "temp" ;;
   p4 <- imperial_get obs "temp" ;;
   p5 <- imperial_get obs "temp" ;;
   p6 <- dict_get obs "humidity" PyNone ;;
   p7 <- imperial_get obs "windSpeed" ;;
   p8 <- imperial_get obs "windSpeed" ;;
   p9 <- imperial_get obs "windSpeed" ;;
   p10 <- imperial_get obs "windChill" ;;
   p11 <- imperial_get obs "windChill" ;;
   p12 <- imperial_get obs "windChill" ;;
   p13 <- imperial_get obs "precipRate" ;;
   p14 <- imperial_get obs "precipTotal" ;;
   Ok [p1; p2; p3; p4; p5; p6; p7; p8; p9; p10; p11; p12; p13; p14])%py.

(** The loop of [insert_current_observations], with the same handler. *)
Fixpoint insert_current_each (conn : connection) (observations : list pyval)
  : M connection :=
  match observations with
  | [] => ret conn
  | obs :: rest =>
      fun w =>
        match (params <- lift (current_tuple obs) ;;
               execute conn (InsertInto params))%io w with
        | (Ok (conn', _), w') => insert_current_each conn' rest w'
        | (Raise IntegrityError, w') => insert_current_each conn rest w'
        | (Raise e, w') => (Raise e, w')
        end
  end.

Definition insert_current_observations (observations : list pyval)
  : M unit :=
  (conn <- connect ;;
   conn' <- insert_current_each conn observations ;;
   commit conn' ;;;
   close)%io.

End WeatherDB.

(* ================================================================== *)
(** * The decorators of [make_api_call] *)

(** [@limits(calls, period)] of the ratelimit package: a call beyond the
    allowance of the running period raises [RateLimitException] with the
    time that remains; a period that has run out starts anew. *)
Definition limits {A} (calls : Z) (period : Q) (func : M A) : M A :=
  fun w =>
    let period_remaining := (period - (monotonic w - last_reset w))%Q in
    let w1 :=
      if Qle_bool period_remaining 0
      then set_limiter 0 (monotonic w) w
      else w in
    let w2 := set_limiter (num_calls w1 + 1) (last_reset w1) w1 in
    if calls <? num_calls w2
    then (Raise (RateLimitException period_remaining), w2)
    else func w2.

(** [@on_exception(expo, RateLimitException, max_tries)] of the backoff
    package: [left] tries remain after this one, the [n]-th wait is drawn
    from [[0, 2^n]]. *)
Fixpoint on_exception_from {A} (left : nat) (n : Z) (target : M A) : M A :=
  fun w =>
    match target w with
    | (Raise (RateLimitException p), w1) =>
        match left with
        | O => (Raise (RateLimitException p), w1)
        | S left' =>
            (seconds <- uniform (inject_Z (2 ^ n)) ;;
             sleep seconds ;;;
             on_exception_from left' (n + 1) target)%io w1
        end
    | other => other
    end.

Definition on_exception {A} (max_tries : nat) (target : M A) : M A :=
  on_exception_from (Nat.pred max_tries) 0 target.

(** [@sleep_and_retry] of the ratelimit package: [while True], with the
    number of passes bounded by [fuel]. *)
Fixpoint sleep_and_retry {A} (fuel : nat) (func : M A) : M A :=
  match fuel with
  | O => raise OutOfFuel
  | S fuel' =>
      fun w =>
        match func w with
        | (Raise (RateLimitException p), w1) =>
            (sleep p ;;; sleep_and_retry fuel' func)%io w1
        | other => other
        end
  end.

(* ================================================================== *)
(** * [class ClimeCapsule] *)

Module ClimeCapsule.

(** The attributes [__init__] reads from [config.ini]. *)
Record self : Type := mkself {
  base_url : string;
  wu_api_key : string;
  wu_station_id : string;
  earliest_observation : string;
  db_name : string
}.

(** [requests.get(url, params=params)] *)
Definition requests_get (url : string) (params : list (string * string))
  : M http_outcome :=
  fun w =>
    let out := provider w (requests_of (trace w)) (url, params) in
    match out with
    | NoConnection => (Raise ConnectionError, log (EvHttpGet (url, params)) w)
    | _ => (Ok out, log (EvHttpGet (url, params)) w)
    end.

(** [resp.raise_for_status()] *)
Definition raise_for_status (resp : http_outcome) : result unit :=
  match resp with
  | Response status _ =>
      if (400 <=? status) && (status <? 600)
      then Raise (HTTPError status) else Ok tt
  | NoConnection => Raise ConnectionError
  end.

(** [resp.json()] *)
Definition json (resp : http_outcome) : result pyval :=
  match resp with
  | Response _ (Some data) => Ok data
  | _ => Raise JSONDecodeError
  end.

(** The body of [make_api_call], under its decorators. *)
Definition make_api_call_body (url : string)
  (params : list (string * string)) : M pyval :=
  (resp <- requests_get url params ;;
   lift (raise_for_status resp) ;;;
   data <- lift (json resp) ;;
   lift (dict_get data "observations" (PyList [])))%io.

Definition make_api_call (fuel : nat) (url : string)
  (params : list (string * string)) : M pyval :=
  sleep_and_retry fuel
    (on_exception 3
       (limits 30 60 (make_api_call_body url params))).

(** The local variables of the aggregation loop. *)
Record accumulators : Type := mkacc {
  high_temp : Q;
  low_temp : Q;
  total_avg_temp : Q;
  high_windspeed : Q;
  low_windspeed : Q;
  total_avg_windspeed : Q;
  high_wind_chill : Q;
  low_wind_chill : Q;
  total_avg_windchill : Q;
  high_precip_rate : Q;
  precip_rate_avg : Q;
  observation_count : Z
}.

(** [obs["imperial"][k]] *)
Definition imperial (obs : pyval) (k : string) : result pyval :=
  (i <- getitem obs "imperial" ;; getitem i k)%py.

(** [if obs["imperial"][k] > cur: cur = obs["imperial"][k]] *)
Definition keep_high (obs : pyval) (k : string) (cur : Q) : result Q :=
  (v <- imperial obs k ;;
   b <- py_gt v cur ;;
   if b : bool then as_num v else Ok cur)%py.

(** [if obs["imperial"][k] < cur: cur = obs["imperial"][k]] *)
Definition keep_low (obs : pyval) (k : string) (cur : Q) : result Q :=
  (v <- imperial obs k ;;
   b <- py_lt v cur ;;
   if b : bool then as_num v else Ok cur)%py.

(** [total += obs["imperial"][k]] *)
Definition add_to (obs : pyval) (k : string) (total : Q) : result Q :=
  (v <- imperial obs k ;; py_add total v)%py.

(** One pass of [for obs in observations]. *)
Definition loop_body (a : accumulators) (obs : pyval) : result accumulators :=
  (t_hi <- keep_high obs "tempHigh" (high_temp a) ;;
   t_lo <- keep_low obs "tempLow" (low_temp a) ;;
   t_sum <- add_to obs "tempAvg" (total_avg_temp a) ;;
   w_hi <- keep_high obs "windspeedHigh" (high_windspeed a) ;;
   w_lo <- keep_low obs "windspeedLow" (low_windspeed a) ;;
   w_sum <- add_to obs "windspeedAverage" (total_avg_windspeed a) ;;
   c_hi <- keep_high obs "windchillHigh" (high_wind_chill a) ;;
   c_lo <- keep_low obs "windchillLow" (low_wind_chill a) ;;
   c_sum <- add_to obs "windchillAverage" (total_avg_windchill a) ;;
   p_hi <- keep_high obs "precipRate" (high_precip_rate a) ;;
   p_sum <- add_to obs "precipAverage" (precip_rate_avg a) ;;
   Ok (mkacc t_hi t_lo t_sum w_hi w_lo w_sum c_hi c_lo c_sum p_hi p_sum
         (observation_count a + 1)))%py.

Fixpoint for_each (a : accumulators) (observations : list pyval)
  : result accumulators :=
  match observations with
  | [] => Ok a
  | obs :: rest => (a' <- loop_body a obs ;; for_each a' rest)%py
  end.

(** [round(total / count, 2)]: the quotient of the float [total] by
    the int [count] is a float, and [round] rounds that float. *)
Definition rounded_mean (total : Q) (count : Z) : result pyval :=
  if count =? 0 then Raise ZeroDivisionError
  else Ok (PyNum (round2 (float_div total (inject_Z count)))).

Definition initial_accumulators : accumulators :=
  mkacc 0 150 0 0 150 0 0 150 0 0 0 0.

Definition compile_daily_data (observations : list pyval)
  : result DailyObservation :=
  let a0 := initial_accumulators in
  if negb (Nat.eqb (List.length observations) 0) then
    (last <- last_item observations ;;
     stamp <- getitem last "obsTimeLocal" ;;
     dt <- py_strptime strptime_datetime stamp ;;
     let date_str := strftime_iso (dt_date dt) in
     first <- first_item observations ;;
     station <- getitem first "stationID" ;;
     a <- for_each a0 observations ;;
     avg_t <- rounded_mean (total_avg_temp a) (observation_count a) ;;
     avg_w <- rounded_mean (total_avg_windspeed a) (observation_count a) ;;
     avg_c <- rounded_mean (total_avg_windchill a) (observation_count a) ;;
     avg_p <- rounded_mean (precip_rate_avg a) (observation_count a) ;;
     DailyObservation_new
       [("station_id", station);
        ("obs_time_local", PyStr date_str);
        ("friendly_date", PyStr (strftime_friendly (dt_date dt)));
        ("temp_high", PyNum (high_temp a));
        ("temp_low", PyNum (low_temp a));
        ("temp_avg", avg_t);
        ("windspeed_high", PyNum (high_windspeed a));
        ("windspeed_low", PyNum (low_windspeed a));
        ("windspeed_avg", avg_w);
        ("wind_chill_high", PyNum (high_wind_chill a));
        ("wind_chill_low", PyNum (low_wind_chill a));
        ("wind_chill_avg", avg_c);
        ("precip_rate", PyNum (high_precip_rate a));
        ("precip_avg", avg_p)])%py
  else DailyObservation_new [].

(** A date argument: a string, or a date already. *)
Inductive date_arg : Type :=
| ArgStr (s : string)
| ArgDate (d : date).

Definition hourly_params (me : self) (d : date) : list (string * string) :=
  [("apiKey", wu_api_key me);
   ("stationId", wu_station_id me);
   ("format", "json");
   ("units", "e");
   ("date", strftime_compact d)].

Definition hourly_url (me : self) : string :=
  (base_url me ++ "/history/hourly")%string.

(** [while start_date <= end_date], at most [fuel] passes. *)
Fixpoint walk (me : self) (fuel : nat) (start_date end_date : date)
  (observations : list pyval) : M (list pyval) :=
  if date_leb start_date end_date then
    match fuel with
    | O => raise OutOfFuel
    | S fuel' =>
        (data <- make_api_call fuel (hourly_url me)
                   (hourly_params me start_date) ;;
         items <- lift (iter_items data) ;;
         next <- lift (next_day start_date) ;;
         walk me fuel' next end_date (observations ++ items))%io
    end
  else ret observations.

Definition fetch_historical_hourly_data (me : self) (fuel : nat)
  (start_date : date_arg) (end_date : option date_arg)
  : M (list pyval) :=
  (start <- match start_date with
            | ArgStr s => lift (dt <- strptime_date s ;; Ok (dt_date dt))%py
            | ArgDate d => ret d
            end ;;
   stop <- match end_date with
           | None => ret start
           | Some (ArgStr s) => lift (dt <- strptime_date s ;; Ok (dt_date dt))%py
           | Some (ArgDate d) => ret d
           end ;;
   walk me fuel start stop [])%io.

(** [os.path.exists(self.db_name)] *)
Definition path_exists : M bool :=
  fun w => (Ok (match disk w with NoFile => false | DbFile _ => true end), w).

Definition today : M datetime := fun w => (Ok (now w), w).

Definition init_db (me : self) (fuel : nat) : M unit :=
  (there <- path_exists ;;
   if negb there then
     (WeatherDB.init_db ;;;
      t <- today ;;
      let start := earliest_observation me in
      let stop := strftime_iso (dt_date t) in
      observations <- fetch_historical_hourly_data me fuel
                        (ArgStr start) (Some (ArgStr stop)) ;;
      WeatherDB.insert_observations observations)
   else ret tt)%io.

(** [s.replace(c, "")] for a one-character [c]. *)
Fixpoint remove_all (c : ascii) (s : string) : string :=
  match s with
  | EmptyString => EmptyString
  | String x rest =>
      if Ascii.eqb x c then remove_all c rest
      else String x (remove_all c rest)
  end.

Definition current_hourly_params (me : self) (t : datetime)
  : list (string * string) :=
  [("apiKey", wu_api_key me);
   ("stationId", wu_station_id me);
   ("format", "json");
   ("units", "e");
   ("date", remove_all "-" (strftime_iso (dt_date t)))].

Definition fetch_current_hourly_data (me : self) (fuel : nat)
  : M (list pyval) :=
  (t <- today ;;
   data <- make_api_call fuel (hourly_url me) (current_hourly_params me t) ;;
   items <- lift (iter_items data) ;;
   ret ([] ++ items))%io.

Definition current_url (me : self) : string :=
  (base_url me ++ "/observations/current")%string.

Definition current_params (me : self) : list (string * string) :=
  [("apiKey", wu_api_key me);
   ("stationId", wu_station_id me);
   ("format", "json");
   ("units", "e")].

Definition fetch_current_data (me : self) (fuel : nat) : M (list pyval) :=
  (data <- make_api_call fuel (current_url me) (current_params me) ;;
   items <- lift (iter_items data) ;;
   ret ([] ++ items))%io.

End ClimeCapsule.

(* ================================================================== *)
(** * [src/api.py]: the route handlers *)

Module api.

(** What a handler gives the framework: a value to render, an
    [HTTPException] with its status code, or any other exception. *)
Inductive response (A : Type) : Type :=
| Returned (a : A)
| HTTPException (status_code : Z)
| Unhandled (e : exn).
Arguments Returned {A} a.
Arguments HTTPException {A} status_code.
Arguments Unhandled {A} e.

Definition handler (A : Type) : Type := World -> response A * World.

(** A call into the controller or the store from a handler. *)
Definition call {A} (c : M A) : handler A :=
  fun w =>
    match c w with
    | (Ok a, w') => (Returned a, w')
    | (Raise e, w') => (Unhandled e, w')
    end.

Definition returned {A} (a : A) : handler A := fun w => (Returned a, w).

Definition http_exception {A} (status_code : Z) : handler A :=
  fun w => (HTTPException status_code, w).

Definition hbind {A B} (h : handler A) (k : A -> handler B) : handler B :=
  fun w =>
    match h w with
    | (Returned a, w') => k a w'
    | (HTTPException s, w') => (HTTPException s, w')
    | (Unhandled e, w') => (Unhandled e, w')
    end.

Declare Scope api_scope.
Delimit Scope api_scope with api.
Notation "x <- c ;; k" := (hbind c (fun x => k))
  (at level 61, c at next level, right associativity) : api_scope.
Notation "c ;;; k" := (hbind c (fun _ => k))
  (at level 61, right associativity) : api_scope.

(** [GET /historical/{date_str}] *)
Definition historical (date_str : string)
  : handler (string * DailyObservation) :=
  match strptime_date date_str with
  | Raise ValueError => http_exception 400
  | Raise e => call (raise e)
  | Ok _ =>
      (observations <- call (WeatherDB.query_by_date date_str) ;;
       match observations with
       | [] => http_exception 404
       | _ :: _ =>
           daily_observation <-
             call (lift (ClimeCapsule.compile_daily_data observations)) ;;
           returned (date_str, daily_observation)
       end)%api
  end.

(** [GET /current] *)
Definition current (me : ClimeCapsule.self) (fuel : nat)
  : handler (string * list pyval) :=
  (t <- call ClimeCapsule.today ;;
   let today_str := strftime_iso (dt_date t) in
   observations <- call (ClimeCapsule.fetch_current_data me fuel) ;;
   call (WeatherDB.insert_observations observations) ;;;
   returned (today_str, observations))%api.

(** A call of [compile_daily_data], whose one parameter is
    [observations], with further positional arguments or with keyword
    arguments it does not have. *)
Definition call_compile_daily_data (observations : list pyval)
  (more_positional : nat) (keywords : list string)
  : result DailyObservation :=
  match more_positional, keywords with
  | O, [] => ClimeCapsule.compile_daily_data observations
  | _, _ => Raise TypeError
  end.

(** [today.replace(year=past_year)], and on [ValueError]
    [today.replace(year=past_year, day=28)]. *)
Definition past_date (today : datetime) (i : Z) : result datetime :=
  let past_year := year (dt_date today) - i in
  match make_datetime past_year (month (dt_date today)) (day (dt_date today))
          (hour today) (minute today) (second today) with
  | Raise ValueError =>
      make_datetime past_year (month (dt_date today)) 28
        (hour today) (minute today) (second today)
  | other => other
  end.

(** The loop [for i in range(1, years_back + 1)], from [i] on for
    [count] passes. *)
Fixpoint historical_summaries (today : datetime) (i : Z) (count : nat)
  (summaries : list DailyObservation) : handler (list DailyObservation) :=
  match count with
  | O => returned summaries
  | S count' =>
      (past <- call (lift (past_date today i)) ;;
       let past_date_str := strftime_iso (dt_date past) in
       observations <- call (WeatherDB.query_by_date past_date_str) ;;
       summary <- call (lift (call_compile_daily_data observations 0
                                ["through"])) ;;
       historical_summaries today (i + 1) count' (summaries ++ [summary]))%api
  end.

(** [GET /today_plus_history] *)
Definition today_plus_history (me : ClimeCapsule.self) (fuel : nat)
  (years_back : Z)
  : handler (string * DailyObservation * list DailyObservation) :=
  (t <- call ClimeCapsule.today ;;
   let today_str := strftime_iso (dt_date t) in
   current <- call (ClimeCapsule.fetch_current_data me fuel) ;;
   match current with
   | [] => http_exception 404
   | _ :: _ =>
       call (WeatherDB.insert_current_observations current) ;;;
       observations <- call (WeatherDB.query_by_date today_str) ;;
       current_observation <-
         call (lift (call_compile_daily_data observations 1 [])) ;;
       summaries <- historical_summaries t 1 (Z.to_nat years_back) [] ;;
       returned (today_str, current_observation, summaries)
   end)%api.

End api.

(* ================================================================== *)
(** * The vocabulary of the properties *)

(** The eleven numbers [compile_daily_data] reads from one observation,
    named by their keys under ["imperial"]. *)
Record hourly : Type := mkhourly {
  tempHigh : Q;
  tempLow : Q;
  tempAvg : Q;
  windspeedHigh : Q;
  windspeedLow : Q;
  windspeedAverage : Q;
  windchillHigh : Q;
  windchillLow : Q;
  windchillAverage : Q;
  precipRate : Q;
  precipAverage : Q
}.

Definition read_keys : list string :=
  ["tempHigh"; "tempLow"; "tempAvg"; "windspeedHigh"; "windspeedLow";
   "windspeedAverage"; "windchillHigh"; "windchillLow"; "windchillAverage";
   "precipRate"; "precipAverage"].

(** The observation carries the numbers [h]. *)
Definition reads (obs : pyval) (h : hourly) : Prop :=
  ClimeCapsule.imperial obs "tempHigh" = Ok (PyNum (tempHigh h))
  /\ ClimeCapsule.imperial obs "tempLow" = Ok (PyNum (tempLow h))
  /\ ClimeCapsule.imperial obs "tempAvg" = Ok (PyNum (tempAvg h))
  /\ ClimeCapsule.imperial obs "windspeedHigh" = Ok (PyNum (windspeedHigh h))
  /\ ClimeCapsule.imperial obs "windspeedLow" = Ok (PyNum (windspeedLow h))
  /\ ClimeCapsule.imperial obs "windspeedAverage"
     = Ok (PyNum (windspeedAverage h))
  /\ ClimeCapsule.imperial obs "windchillHigh" = Ok (PyNum (windchillHigh h))
  /\ ClimeCapsule.imperial obs "windchillLow" = Ok (PyNum (windchillLow h))
  /\ ClimeCapsule.imperial obs "windchillAverage"
     = Ok (PyNum (windchillAverage h))
  /\ ClimeCapsule.imperial obs "precipRate" = Ok (PyNum (precipRate h))
  /\ ClimeCapsule.imperial obs "precipAverage" = Ok (PyNum (precipAverage h)).

(** A day as [compile_daily_data] can summarise it: at least one
    observation, every observation numeric in the fields read, a station
    name on the first and a timestamp on the last. *)
Definition full_day (observations : list pyval) (hs : list hourly) : Prop :=
  observations <> []
  /\ Forall2 reads observations hs
  /\ (exists first sid,
        first_item observations = Ok first
        /\ getitem first "stationID" = Ok (PyStr sid))
  /\ (exists last ts t,
        last_item observations = Ok last
        /\ getitem last "obsTimeLocal" = Ok (PyStr ts)
        /\ strptime_datetime ts = Ok t).

(** The field is null or cannot be reached at all. *)
Definition null_or_missing (obs : pyval) (k : string) : Prop :=
  ClimeCapsule.imperial obs k = Ok PyNone
  \/ exists e, ClimeCapsule.imperial obs k = Raise e.

Definition is_maximum (m : Q) (l : list Q) : Prop :=
  In m l /\ Forall (fun x => (x <= m)%Q) l.

Definition is_minimum (m : Q) (l : list Q) : Prop :=
  In m l /\ Forall (fun x => (m <= x)%Q) l.

Definition Qsum (l : list Q) : Q := fold_right Qplus 0%Q l.

(** The arithmetic mean. *)
Definition mean (l : list Q) : Q :=
  (Qsum l / inject_Z (Z.of_nat (List.length l)))%Q.

(** [q] is a binary64 number. *)
Definition binary64 (q : Q) : Prop := (fl q == q)%Q.

(** The float a decimal literal is read as. *)
Definition f64 (q : Q) : Q := fl q.

(** The sum of floats as a loop computes it: from 0 and from left to
    right, every partial sum rounded; and the mean on floats, that sum
    divided by the number of terms. *)
Definition fsum (l : list Q) : Q := fold_left float_add l 0%Q.

Definition fmean (l : list Q) : Q :=
  float_div (fsum l) (inject_Z (Z.of_nat (List.length l))).

(** For up to 1024 numbers of magnitude up to [2^20], the average is
    the arithmetic mean up to the rounding of the floats and of
    [round]: within [0.005 + 2^-21] of it. *)
Definition near_mean (avg : Q) (l : list Q) : Prop :=
  (List.length l <= 1024)%nat ->
  Forall (fun x => (Qabs x <= 1048576)%Q) l ->
  (Qabs (avg - mean l) <= (1 # 200) + (1 # 2097152))%Q.

(** The aggregation loop on the numbers alone. *)
Definition higher (x cur : Q) : Q := if Qgtb x cur then x else cur.
Definition lower (x cur : Q) : Q := if Qltb x cur then x else cur.

Definition pure_body (a : ClimeCapsule.accumulators) (h : hourly)
  : ClimeCapsule.accumulators :=
  ClimeCapsule.mkacc
    (higher (tempHigh h) (ClimeCapsule.high_temp a))
    (lower (tempLow h) (ClimeCapsule.low_temp a))
    (float_add (ClimeCapsule.total_avg_temp a) (tempAvg h))
    (higher (windspeedHigh h) (ClimeCapsule.high_windspeed a))
    (lower (windspeedLow h) (ClimeCapsule.low_windspeed a))
    (float_add (ClimeCapsule.total_avg_windspeed a) (windspeedAverage h))
    (higher (windchillHigh h) (ClimeCapsule.high_wind_chill a))
    (lower (windchillLow h) (ClimeCapsule.low_wind_chill a))
    (float_add (ClimeCapsule.total_avg_windchill a) (windchillAverage h))
    (higher (precipRate h) (ClimeCapsule.high_precip_rate a))
    (float_add (ClimeCapsule.precip_rate_avg a) (precipAverage h))
    (ClimeCapsule.observation_count a + 1).

Definition running_high (f : hourly -> Q) (hs : list hourly) (init : Q) : Q :=
  fold_left (fun cur h => higher (f h) cur) hs init.

Definition running_low (f : hourly -> Q) (hs : list hourly) (init : Q) : Q :=
  fold_left (fun cur h => lower (f h) cur) hs init.

Definition running_total (f : hourly -> Q) (hs : list hourly) (init : Q) : Q :=
  fold_left (fun cur h => float_add cur (f h)) hs init.

(** The sentinel of a running high, or of a running low, is what the
    summary shows, and no observation has that value. *)
Definition leaks_high (f : hourly -> Q) (hs : list hourly) (v : Q) : Prop :=
  Forall (fun h => (f h < 0)%Q) hs ->
  v = 0%Q /\ forall m, is_maximum m (map f hs) -> ~ (m == v)%Q.

Definition leaks_low (f : hourly -> Q) (hs : list hourly) (v : Q) : Prop :=
  Forall (fun h => (150 < f h)%Q) hs ->
  v = 150%Q /\ forall m, is_minimum m (map f hs) -> ~ (m == v)%Q.

(** ** Sample data *)

(** A stored row of station KCODENVE1 with the numbers [h]. *)
Definition reading (ts : string) (h : hourly) : values :=
  weather_data.mkvalues (SqlText "KCODENVE1") (SqlText ts)
    (SqlNum (tempHigh h)) (SqlNum (tempLow h)) (SqlNum (tempAvg h))
    SqlNull
    (SqlNum (windspeedHigh h)) (SqlNum (windspeedLow h))
    (SqlNum (windspeedAverage h))
    (SqlNum (windchillHigh h)) (SqlNum (windchillLow h))
    (SqlNum (windchillAverage h))
    (SqlNum (precipRate h)) (SqlNum (precipAverage h)).

(** Three hours with temperature highs 70, 75, 68 and lows 60, 55, 58;
    the decimals are the floats they are read as. *)
Definition synthetic_hours : list hourly :=
  [mkhourly 70 60 65 8 2 5 70 60 65 0 0;
   mkhourly 75 55 (f64 (661 # 10)) 12 3 7 75 55 (f64 (661 # 10))
     (f64 (12 # 100)) (f64 (3 # 100));
   mkhourly 68 58 63 6 0 3 68 58 63 (f64 (5 # 100)) (f64 (4 # 100))].

Definition synthetic_day : list pyval :=
  map WeatherDB.observation_of_row
    [reading "2024-03-04 00:00:00" (mkhourly 70 60 65 8 2 5 70 60 65 0 0);
     reading "2024-03-04 01:00:00"
       (mkhourly 75 55 (f64 (661 # 10)) 12 3 7 75 55 (f64 (661 # 10))
          (f64 (12 # 100)) (f64 (3 # 100)));
     reading "2024-03-04 02:00:00"
       (mkhourly 68 58 63 6 0 3 68 58 63 (f64 (5 # 100)) (f64 (4 # 100)))].

(** Four hours whose average temperatures are 58.0, 38.7, 64.6 and
    60.4, and two hours with rain totals 0.01 and 0.02. *)
Definition uneven_hours : list hourly :=
  [mkhourly 60 56 58 8 2 5 60 56 58 0 0;
   mkhourly 40 37 (f64 (387 # 10)) 8 2 5 40 37 (f64 (387 # 10)) 0 0;
   mkhourly 66 63 (f64 (646 # 10)) 8 2 5 66 63 (f64 (646 # 10)) 0 0;
   mkhourly 62 59 (f64 (604 # 10)) 8 2 5 62 59 (f64 (604 # 10)) 0 0].

Definition uneven_day : list pyval :=
  map WeatherDB.observation_of_row
    [reading "2024-03-04 00:00:00" (mkhourly 60 56 58 8 2 5 60 56 58 0 0);
     reading "2024-03-04 01:00:00"
       (mkhourly 40 37 (f64 (387 # 10)) 8 2 5 40 37 (f64 (387 # 10)) 0 0);
     reading "2024-03-04 02:00:00"
       (mkhourly 66 63 (f64 (646 # 10)) 8 2 5 66 63 (f64 (646 # 10)) 0 0);
     reading "2024-03-04 03:00:00"
       (mkhourly 62 59 (f64 (604 # 10)) 8 2 5 62 59 (f64 (604 # 10)) 0 0)].

Definition drizzle_hours : list hourly :=
  [mkhourly 50 46 48 8 2 5 50 46 48 (f64 (1 # 100)) (f64 (1 # 100));
   mkhourly 50 46 48 8 2 5 50 46 48 (f64 (1 # 100)) (f64 (2 # 100))].

Definition drizzle_day : list pyval :=
  map WeatherDB.observation_of_row
    [reading "2024-03-04 00:00:00"
       (mkhourly 50 46 48 8 2 5 50 46 48 (f64 (1 # 100)) (f64 (1 # 100)));
     reading "2024-03-04 01:00:00"
       (mkhourly 50 46 48 8 2 5 50 46 48 (f64 (1 # 100)) (f64 (2 # 100)))].

(** One hour of a cold day: every temperature below zero. *)
Definition cold_hours : list hourly :=
  [mkhourly (-5) (-10) (-7) 4 1 2 (-15) (-22) (-18) 0 0].

Definition cold_day : list pyval :=
  map WeatherDB.observation_of_row
    [reading "2024-01-15 06:00:00"
       (mkhourly (-5) (-10) (-7) 4 1 2 (-15) (-22) (-18) 0 0)].

(** One hour whose rain gauge reports a negative rate. *)
Definition faulty_gauge_hours : list hourly :=
  [mkhourly 40 30 35 4 1 2 40 30 35 (-1) 0].

Definition faulty_gauge_day : list pyval :=
  map WeatherDB.observation_of_row
    [reading "2024-01-15 06:00:00" (mkhourly 40 30 35 4 1 2 40 30 35 (-1) 0)].

(** One hour with every high below zero and every low above 150. *)
Definition extreme_hours : list hourly :=
  [mkhourly (-5) 151 0 (-1) 160 0 (-15) 155 0 (-1) 0].

Definition extreme_day : list pyval :=
  map WeatherDB.observation_of_row
    [reading "2024-01-15 06:00:00"
       (mkhourly (-5) 151 0 (-1) 160 0 (-15) 155 0 (-1) 0)].

(** A provider that has nothing to say, and a world whose database holds
    the empty table. *)
Definition silent_provider (_ : list request) (_ : request) : http_outcome :=
  NoConnection.

Definition empty_store : World :=
  mkWorld (DbFile (Some weather_data.empty)) [] 0
    (mkdatetime (mkdate 2024 3 4) 12 0 0) 0 0 silent_provider
    (fun _ => 0%Q) 0.

(** An hourly observation as the provider sends it, without [tempHigh]. *)
Definition partial_observation : pyval :=
  PyDict
    [("stationID", PyStr "KCODENVE1");
     ("obsTimeLocal", PyStr "2024-03-04 09:00:00");
     ("imperial",
      PyDict
        [("tempLow", PyNum 41); ("tempAvg", PyNum 43);
         ("windspeedHigh", PyNum 9); ("windspeedLow", PyNum 0);
         ("windspeedAvg", PyNum 4); ("windchillHigh", PyNum 45);
         ("windchillLow", PyNum 41); ("windchillAvg", PyNum 43);
         ("precipRate", PyNum 0); ("precipTotal", PyNum 0)])].

(** What [query_by_date] returns after the partial observation was
    inserted into the empty table. *)
Definition partial_day : list pyval :=
  match
    (WeatherDB.insert_observations [partial_observation] ;;;
     WeatherDB.query_by_date "2024-03-04")%io empty_store
  with
  | (Ok l, _) => l
  | (Raise _, _) => []
  end.

(** ** Raw observations and the store *)

(** A value the provider may leave out: null or a number. *)
Definition scalar (v : pyval) : Prop := v = PyNone \/ exists q, v = PyNum q.

Definition api_keys : list string :=
  ["tempHigh"; "tempLow"; "tempAvg"; "windspeedHigh"; "windspeedLow";
   "windspeedAvg"; "windchillHigh"; "windchillLow"; "windchillAvg";
   "precipRate"; "precipTotal"].

(** A raw observation of the data model: a station name, a timestamp,
    and numeric fields of which any may be absent. *)
Definition valid_raw (obs : pyval) : Prop :=
  (exists sid, getitem obs "stationID" = Ok (PyStr sid))
  /\ (exists ts, getitem obs "obsTimeLocal" = Ok (PyStr ts))
  /\ (exists x, dict_get obs "humidityAvg" PyNone = Ok x /\ scalar x)
  /\ Forall (fun k => exists x, WeatherDB.imperial_get obs k = Ok x /\ scalar x)
       api_keys.

(** The column values an observation is stored with. *)
Definition row_of (obs : pyval) : result values :=
  (params <- WeatherDB.insert_tuple obs ;; bind_values params)%py.

(** The spec's batch insert on the table alone: each item is inserted
    under its unique key, an item whose key collides is skipped and the
    remainder goes on. *)
Fixpoint store_each (t : table) (vs : list values) : table :=
  match vs with
  | [] => t
  | v :: rest =>
      match insert_row v t with
      | Ok t' => store_each t' rest
      | Raise _ => store_each t rest
      end
  end.

(** The table has a row with this timestamp. *)
Definition has_stamp (ts : string) (t : table) : Prop :=
  exists r,
    In r (weather_data.rows t)
    /\ weather_data.obs_time_local (weather_data.cols r) = SqlText ts.

(** [obs_time_local] is unique among the rows that have one. *)
Fixpoint unique_stamps (rows : list row) : Prop :=
  match rows with
  | [] => True
  | r :: rest =>
      unique_violation (weather_data.cols r) (weather_data.mktable rest 0) = false
      /\ unique_stamps rest
  end.

(** A batch with the same timestamp twice, and a world whose table holds
    one of its hours already. *)
Definition sample_batch : list pyval :=
  [PyDict [("stationID", PyStr "KCODENVE1");
           ("obsTimeLocal", PyStr "2024-03-04 09:00:00");
           ("imperial", PyDict [("tempHigh", PyNum 50); ("tempLow", PyNum 41)]);
           ("humidityAvg", PyNum 30)];
   PyDict [("stationID", PyStr "KCODENVE1");
           ("obsTimeLocal", PyStr "2024-03-04 10:00:00")];
   PyDict [("stationID", PyStr "KCODENVE1");
           ("obsTimeLocal", PyStr "2024-03-04 09:00:00");
           ("imperial", PyDict [("tempHigh", PyNum 99)])]].

Definition stocked_table : table :=
  weather_data.mktable
    [weather_data.mkrow 1
       (reading "2024-03-04 10:00:00" (mkhourly 52 44 48 9 0 4 52 44 48 0 0))]
    1.

Definition stocked_store : World :=
  mkWorld (DbFile (Some stocked_table)) [] 0
    (mkdatetime (mkdate 2024 3 4) 12 0 0) 0 0 silent_provider
    (fun _ => 0%Q) 0.

(** ** Timestamps *)

Definition time_compare (a b : datetime) : comparison :=
  match date_compare (dt_date a) (dt_date b) with
  | Eq =>
      match hour a ?= hour b with
      | Eq =>
          match minute a ?= minute b with
          | Eq => second a ?= second b
          | c => c
          end
      | c => c
      end
  | c => c
  end.

Definition valid_datetime (t : datetime) : bool :=
  valid_date (dt_date t) && valid_time (hour t) (minute t) (second t).

(** [d 00:00:00] *)
Definition midnight (d : date) : datetime := mkdatetime d 0 0 0.

(** [t] lies in the half-open interval from [lo] to [hi]. *)
Definition between (lo hi t : datetime) : Prop :=
  time_compare lo t <> Gt /\ time_compare t hi = Lt.

(** The row's timestamp is the moment [t], written as the provider
    writes it. *)
Definition stamped (v : values) (t : datetime) : Prop :=
  valid_datetime t = true
  /\ weather_data.obs_time_local v = SqlText (strftime_stamp t).

(** The order of [ORDER BY obs_time_local ASC] on rows. *)
Definition stamp_le (a b : values) : Prop :=
  sql_leb (weather_data.obs_time_local a) (weather_data.obs_time_local b)
  = true.

(** The order of the moments behind two timestamps. *)
Definition not_later (a b : values) : Prop :=
  forall ta tb, stamped a ta -> stamped b tb -> time_compare ta tb <> Gt.

(** A table with two hours of 4 March 2024, stored out of order, one
    hour of the day after and a row without a timestamp. *)
Definition march_table : table :=
  weather_data.mktable
    [weather_data.mkrow 1
       (reading "2024-03-04 13:00:00" (mkhourly 52 44 48 9 0 4 52 44 48 0 0));
     weather_data.mkrow 2
       (reading "2024-03-05 00:00:00" (mkhourly 40 38 39 9 0 4 40 38 39 0 0));
     weather_data.mkrow 3
       (reading "2024-03-04 00:00:00" (mkhourly 45 41 43 5 0 2 45 41 43 0 0));
     weather_data.mkrow 4
       (weather_data.mkvalues (SqlText "KCODENVE1") SqlNull SqlNull SqlNull
          SqlNull SqlNull SqlNull SqlNull SqlNull SqlNull SqlNull SqlNull
          SqlNull SqlNull)]
    4.

Definition march_store : World :=
  mkWorld (DbFile (Some march_table)) [] 0
    (mkdatetime (mkdate 2024 3 6) 12 0 0) 0 0 silent_provider
    (fun _ => 0%Q) 0.

(** ** The provider and the rate limiter *)

(** What [make_api_call] makes of the provider's answer. *)
Definition decode (out : http_outcome) : result pyval :=
  (ClimeCapsule.raise_for_status out ;;;
   data <- ClimeCapsule.json out ;;
   dict_get data "observations" (PyList []))%py.

(** The answer is a failure of the transport or of HTTP, and [e] is the
    exception it raises. *)
Definition http_failure (out : http_outcome) (e : exn) : Prop :=
  (out = NoConnection /\ e = ConnectionError)
  \/ exists status body,
       out = Response status body
       /\ 400 <= status < 600
       /\ e = HTTPError status.

(** The time left in the limiter's running period. *)
Definition period_remaining (w : World) : Q :=
  (60 - (monotonic w - last_reset w))%Q.

(** [w'] is [w] after sleeping [sleeps], with nothing else done. *)
Definition waited (w w' : World) (sleeps : list Q) : Prop :=
  disk w' = disk w
  /\ provider w' = provider w
  /\ now w' = now w
  /\ trace w' = trace w ++ map EvSleep sleeps.

(** The decorated function never raises the limiter's exception itself. *)
Definition no_rate_limit_exception {A} (f : M A) : Prop :=
  forall w p w', f w <> (Raise (RateLimitException p), w').

(** The decorator stack of [make_api_call] around any function. *)
Definition decorated {A} (fuel : nat) (f : M A) : M A :=
  sleep_and_retry fuel (on_exception 3 (limits 30 60 f)).

(** A provider that rejects the first request with 429 and answers
    every later one. *)
Definition throttling_provider (history : list request) (_ : request)
  : http_outcome :=
  match history with
  | [] => Response 429 None
  | _ => Response 200 (Some (PyDict [("observations", PyList [])]))
  end.

(** A first run: no database file, the limiter fresh. *)
Definition first_run (p : list request -> request -> http_outcome) : World :=
  mkWorld NoFile [] 0 (mkdatetime (mkdate 2024 1 3) 8 30 0) 0 0 p
    (fun _ => (1 # 2)%Q) 0.

(** A world whose limiter has used its thirty calls, ten seconds into
    the period. *)
Definition exhausted (p : list request -> request -> http_outcome) : World :=
  mkWorld NoFile [] 10 (mkdatetime (mkdate 2024 1 3) 8 30 0) 30 0 p
    (fun _ => (1 # 2)%Q) 0.

(** ** The days of a range *)

Definition date_lt (a b : date) : Prop := date_compare a b = Lt.
Definition date_le (a b : date) : Prop := date_compare a b <> Gt.

(** A number that grows with the date (months of 31 days, years of 12
    months): it bounds the passes of the walk. *)
Definition date_key (d : date) : Z := year d * 372 + month d * 31 + day d.

Fixpoint date_range (fuel : nat) (start stop : date) : list date :=
  if date_leb start stop then
    match fuel with
    | O => []
    | S k =>
        start :: match next_day start with
                 | Ok next => date_range k next stop
                 | Raise _ => []
                 end
    end
  else [].

(** The days from [start] to [stop], both included, in order. *)
Definition days_between (start stop : date) : list date :=
  date_range (Z.to_nat (date_key stop + 1 - date_key start)) start stop.

(** The text consists of decimal digits. *)
Fixpoint all_digits (s : string) : bool :=
  match s with
  | EmptyString => true
  | String c rest =>
      match digit_of c with
      | Some _ => all_digits rest
      | None => false
      end
  end.

(** The request of the backfill for one day. *)
Definition hourly_request (me : ClimeCapsule.self) (d : date) : request :=
  (ClimeCapsule.hourly_url me, ClimeCapsule.hourly_params me d).

(** The provider's answers to a sequence of requests made after
    [history]. *)
Fixpoint replay (p : list request -> request -> http_outcome)
  (history reqs : list request) : list http_outcome :=
  match reqs with
  | [] => []
  | r :: rest => p history r :: replay p (history ++ [r]) rest
  end.

(** Every request is answered with a list of observations. *)
Definition answered (p : list request -> request -> http_outcome)
  (history reqs : list request) (payloads : list (list pyval)) : Prop :=
  Forall2
    (fun out items =>
       exists data, decode out = Ok data /\ iter_items data = Ok items)
    (replay p history reqs) payloads.

(** A provider with two hours for every day asked for. *)
Definition hour_of (d : string) (hh : string) (t : Q) : pyval :=
  PyDict
    [("stationID", PyStr "KCODENVE1");
     ("obsTimeLocal", PyStr (d ++ " " ++ hh ++ ":00:00")%string);
     ("imperial", PyDict [("tempHigh", PyNum t); ("tempLow", PyNum (t - 4))])].

Definition hourly_provider (_ : list request) (r : request) : http_outcome :=
  match assoc "date" (snd r) with
  | Some d =>
      Response 200
        (Some (PyDict [("observations",
                        PyList [hour_of d "00" 40; hour_of d "01" 39])]))
  | None => Response 400 None
  end.

Definition kcodenve1 : ClimeCapsule.self :=
  ClimeCapsule.mkself "https://api.weather.com/v2/pws" "secret" "KCODENVE1"
    "2024-01-01" "weather.db".

(** The kind of an event, for reading a trace. *)
Definition event_kind (e : event) : string :=
  match e with
  | EvHttpGet _ => "GET"
  | EvSleep _ => "sleep"
  | EvConnect => "connect"
  | EvExecute CreateTableIfNotExists => "CREATE"
  | EvExecute (InsertInto _) => "INSERT"
  | EvExecute (SelectBetween _ _) => "SELECT"
  | EvCommit => "commit"
  | EvClose => "close"
  end.

(* ================================================================== *)
(** * Further vocabulary: the store and the routes *)

(** The table a database file holds, the empty one when it holds none. *)
Definition table_of (d : sqlite_file) : table :=
  match d with
  | DbFile (Some t) => t
  | _ => weather_data.empty
  end.

(** An [INSERT] sent over a connection. *)
Definition is_insert_attempt (e : event) : bool :=
  match e with
  | EvExecute (InsertInto _) => true
  | _ => false
  end.

(** A batch whose second item has no station: the first is complete. *)
Definition broken_batch : list pyval :=
  [PyDict [("stationID", PyStr "KCODENVE1");
           ("obsTimeLocal", PyStr "2024-03-04 09:00:00")];
   PyDict [("obsTimeLocal", PyStr "2024-03-04 10:00:00")]].

(** The same hour reported by two stations. *)
Definition other_station_batch : list pyval :=
  [PyDict [("stationID", PyStr "KCODENVE1");
           ("obsTimeLocal", PyStr "2024-03-04 09:00:00");
           ("imperial", PyDict [("tempHigh", PyNum 50)])];
   PyDict [("stationID", PyStr "KCOBOULD2");
           ("obsTimeLocal", PyStr "2024-03-04 09:00:00");
           ("imperial", PyDict [("tempHigh", PyNum 47)])]].

(** An observation whose timestamp is null. *)
Definition unstamped_observation : pyval :=
  PyDict [("stationID", PyStr "KCODENVE1"); ("obsTimeLocal", PyNone);
          ("imperial", PyDict [("tempHigh", PyNum 50)])].

(** A moment of a leap day. *)
Definition leap_day_2024 : datetime := mkdatetime (mkdate 2024 2 29) 17 45 0.

(** The computation leaves the database file alone. *)
Definition keeps_disk {A} (c : M A) : Prop :=
  forall w, disk (snd (c w)) = disk w.

(** A first run on the third of January whose provider is silent. *)
Definition offline_first_run : World := first_run silent_provider.

(** ** From the provider to the summary *)

(** The column values a current observation is stored with. *)
Definition current_row_of (obs : pyval) : result values :=
  (params <- WeatherDB.current_tuple obs ;; bind_values params)%py.

(** The provider's hourly observation carries the numbers [h], under
    the provider's keys. *)
Definition sends (obs : pyval) (h : hourly) : Prop :=
  WeatherDB.imperial_get obs "tempHigh" = Ok (PyNum (tempHigh h))
  /\ WeatherDB.imperial_get obs "tempLow" = Ok (PyNum (tempLow h))
  /\ WeatherDB.imperial_get obs "tempAvg" = Ok (PyNum (tempAvg h))
  /\ WeatherDB.imperial_get obs "windspeedHigh" = Ok (PyNum (windspeedHigh h))
  /\ WeatherDB.imperial_get obs "windspeedLow" = Ok (PyNum (windspeedLow h))
  /\ WeatherDB.imperial_get obs "windspeedAvg"
     = Ok (PyNum (windspeedAverage h))
  /\ WeatherDB.imperial_get obs "windchillHigh" = Ok (PyNum (windchillHigh h))
  /\ WeatherDB.imperial_get obs "windchillLow" = Ok (PyNum (windchillLow h))
  /\ WeatherDB.imperial_get obs "windchillAvg"
     = Ok (PyNum (windchillAverage h))
  /\ WeatherDB.imperial_get obs "precipRate" = Ok (PyNum (precipRate h))
  /\ WeatherDB.imperial_get obs "precipTotal" = Ok (PyNum (precipAverage h)).

(** The numbers of the current conditions. *)
Record conditions : Type := mkconditions {
  temp : Q;
  windSpeed : Q;
  windChill : Q;
  rate : Q;
  total : Q
}.

(** The provider's current observation carries the numbers [c]. *)
Definition reports (obs : pyval) (c : conditions) : Prop :=
  WeatherDB.imperial_get obs "temp" = Ok (PyNum (temp c))
  /\ WeatherDB.imperial_get obs "windSpeed" = Ok (PyNum (windSpeed c))
  /\ WeatherDB.imperial_get obs "windChill" = Ok (PyNum (windChill c))
  /\ WeatherDB.imperial_get obs "precipRate" = Ok (PyNum (rate c))
  /\ WeatherDB.imperial_get obs "precipTotal" = Ok (PyNum (total c)).

(** The one hour the current conditions stand for. *)
Definition hour_of_conditions (c : conditions) : hourly :=
  mkhourly (temp c) (temp c) (temp c)
    (windSpeed c) (windSpeed c) (windSpeed c)
    (windChill c) (windChill c) (windChill c)
    (rate c) (total c).

(** An hourly observation as the provider sends it, complete. *)
Definition nine_o_clock : pyval :=
  PyDict
    [("stationID", PyStr "KCODENVE1");
     ("obsTimeLocal", PyStr "2024-03-04 09:00:00");
     ("humidityAvg", PyNum 30);
     ("imperial",
      PyDict
        [("tempHigh", PyNum 50); ("tempLow", PyNum 41); ("tempAvg", PyNum 43);
         ("windspeedHigh", PyNum 9); ("windspeedLow", PyNum 0);
         ("windspeedAvg", PyNum 4); ("windchillHigh", PyNum 45);
         ("windchillLow", PyNum 41); ("windchillAvg", PyNum 43);
         ("precipRate", PyNum 0); ("precipTotal", PyNum (f64 (12 # 100)))])].

Definition nine_o_clock_numbers : hourly :=
  mkhourly 50 41 43 9 0 4 45 41 43 0 (f64 (12 # 100)).

(** The current conditions as the provider sends them. *)
Definition current_conditions : pyval :=
  PyDict
    [("stationID", PyStr "KCODENVE1");
     ("obsTimeLocal", PyStr "2024-03-04 12:10:27");
     ("humidity", PyNum 30);
     ("imperial",
      PyDict
        [("temp", PyNum 52); ("windSpeed", PyNum 7); ("windChill", PyNum 52);
         ("precipRate", PyNum 0); ("precipTotal", PyNum (f64 (12 # 100)))])].

(** A provider that always answers with the current conditions. *)
Definition current_provider (_ : list request) (_ : request) : http_outcome :=
  Response 200 (Some (PyDict [("observations", PyList [current_conditions])])).

(** A world on 4 March 2024 with the empty table and that provider. *)
Definition noon_store : World :=
  mkWorld (DbFile (Some weather_data.empty)) [] 0
    (mkdatetime (mkdate 2024 3 4) 12 10 30) 0 0 current_provider
    (fun _ => 0%Q) 0.

(** Two hours of two stations on two days. *)
Definition two_stations_two_days : list pyval :=
  [WeatherDB.observation_of_row
     (reading "2024-03-04 23:00:00" (mkhourly 52 44 48 9 0 4 52 44 48 0 0));
   WeatherDB.observation_of_row
     (weather_data.mkvalues (SqlText "KCOBOULD2")
        (SqlText "2024-03-05 00:00:00") (SqlNum 40) (SqlNum 38) (SqlNum 39)
        SqlNull (SqlNum 9) (SqlNum 0) (SqlNum 4) (SqlNum 40) (SqlNum 38)
        (SqlNum 39) (SqlNum 0) (SqlNum 0))].

(** Two hours of a day, and the same two in the other order. *)
Definition morning : list pyval :=
  map WeatherDB.observation_of_row
    [reading "2024-03-04 08:00:00" (mkhourly 52 44 48 9 0 4 52 44 48 0 0);
     reading "2024-03-04 09:00:00" (mkhourly 55 47 51 6 1 3 55 47 51 1 2)].

Definition morning_reversed : list pyval :=
  map WeatherDB.observation_of_row
    [reading "2024-03-04 09:00:00" (mkhourly 55 47 51 6 1 3 55 47 51 1 2);
     reading "2024-03-04 08:00:00" (mkhourly 52 44 48 9 0 4 52 44 48 0 0)].

(** The provider's answer makes the walk fail with [e]: in
    [make_api_call], or when the list is extended with what came. *)
Definition fails_with (out : http_outcome) (e : exn) : Prop :=
  decode out = Raise e
  \/ exists data, decode out = Ok data /\ iter_items data = Raise e.

(** A provider that answers the first request and fails from then on. *)
Definition flaky_provider (history : list request) (r : request)
  : http_outcome :=
  match history with
  | [] => hourly_provider history r
  | _ => Response 500 None
  end.

(** A provider whose station has nothing to report. *)
Definition quiet_provider (_ : list request) (_ : request) : http_outcome :=
  Response 200 (Some (PyDict [])).

(** [w'] differs from [w] in the database and its events only. *)
Definition same_but_db (w w' : World) : Prop :=
  provider w' = provider w
  /\ now w' = now w
  /\ monotonic w' = monotonic w
  /\ num_calls w' = num_calls w
  /\ last_reset w' = last_reset w
  /\ requests_of (trace w') = requests_of (trace w).

(* ================================================================== *)
(** * Results *)

Lemma rbind_ok {A B} (r : result A) (k : A -> result B) b :
  rbind r k = Ok b -> exists a, r = Ok a /\ k a = Ok b.
Proof.
  destruct r as [a|e]; cbn; [|discriminate]. intro H. exists a. auto.
Qed.

(* ================================================================== *)
(** * Tactics *)

(** Evaluate the left-hand side of the equation [H]. *)
Ltac run_lhs H :=
  match type of H with
  | ?l = _ => let l' := eval vm_compute in l in change l with l' in H
  end.

(** From [rbind r k = Ok b] to the value of [r] and the rest. *)
Ltac bind_ok H x Hx :=
  apply rbind_ok in H; destruct H as (x & Hx & H).

(* ================================================================== *)
(** * Numbers *)

Lemma Qgtb_true (a b : Q) : Qgtb a b = true <-> (b < a)%Q.
Proof.
  unfold Qgtb. rewrite negb_true_iff.
  split; intro H.
  - apply Qnot_le_lt. intro L. apply Qle_bool_iff in L. congruence.
  - destruct (Qle_bool a b) eqn:E; auto.
    apply Qle_bool_iff in E. exfalso. apply (Qlt_not_le _ _ H E).
Qed.

Lemma Qgtb_false (a b : Q) : Qgtb a b = false <-> (a <= b)%Q.
Proof.
  unfold Qgtb. rewrite negb_false_iff. apply Qle_bool_iff.
Qed.

Lemma Qltb_true (a b : Q) : Qltb a b = true <-> (a < b)%Q.
Proof. unfold Qltb. apply (Qgtb_true b a). Qed.

Lemma Qltb_false (a b : Q) : Qltb a b = false <-> (b <= a)%Q.
Proof. unfold Qltb. apply (Qgtb_false b a). Qed.

Lemma round_half_even_compat (x y : Q) :
  (x == y)%Q -> round_half_even x = round_half_even y.
Proof.
  intro E. unfold round_half_even.
  rewrite (Qfloor_comp _ _ E).
  assert (C : ((x - inject_Z (Qfloor y)) ?= (1 # 2))%Q
              = ((y - inject_Z (Qfloor y)) ?= (1 # 2))%Q).
  { apply Qcompare_comp; [rewrite E|]; reflexivity. }
  rewrite C. reflexivity.
Qed.

Lemma round2_compat (x y : Q) : (x == y)%Q -> round2 x = round2 y.
Proof.
  intro E. unfold round2. f_equal.
  apply round_half_even_compat. rewrite E. reflexivity.
Qed.

(* ================================================================== *)
(** * The aggregation loop *)

Lemma keep_high_reads obs k q cur :
  ClimeCapsule.imperial obs k = Ok (PyNum q) ->
  ClimeCapsule.keep_high obs k cur = Ok (higher q cur).
Proof.
  intro H. unfold ClimeCapsule.keep_high, higher. rewrite H. simpl.
  destruct (Qgtb q cur); reflexivity.
Qed.

Lemma keep_low_reads obs k q cur :
  ClimeCapsule.imperial obs k = Ok (PyNum q) ->
  ClimeCapsule.keep_low obs k cur = Ok (lower q cur).
Proof.
  intro H. unfold ClimeCapsule.keep_low, lower. rewrite H. simpl.
  destruct (Qltb q cur); reflexivity.
Qed.

Lemma add_to_reads obs k q total :
  ClimeCapsule.imperial obs k = Ok (PyNum q) ->
  ClimeCapsule.add_to obs k total = Ok (float_add total q).
Proof.
  intro H. unfold ClimeCapsule.add_to. rewrite H. reflexivity.
Qed.

Lemma loop_body_reads a obs h :
  reads obs h -> ClimeCapsule.loop_body a obs = Ok (pure_body a h).
Proof.
  intros (H1 & H2 & H3 & H4 & H5 & H6 & H7 & H8 & H9 & H10 & H11).
  unfold ClimeCapsule.loop_body.
  rewrite (keep_high_reads _ _ _ _ H1), (keep_low_reads _ _ _ _ H2),
    (add_to_reads _ _ _ _ H3), (keep_high_reads _ _ _ _ H4),
    (keep_low_reads _ _ _ _ H5), (add_to_reads _ _ _ _ H6),
    (keep_high_reads _ _ _ _ H7), (keep_low_reads _ _ _ _ H8),
    (add_to_reads _ _ _ _ H9), (keep_high_reads _ _ _ _ H10),
    (add_to_reads _ _ _ _ H11).
  reflexivity.
Qed.

Lemma for_each_reads observations : forall hs a,
  Forall2 reads observations hs ->
  ClimeCapsule.for_each a observations = Ok (fold_left pure_body hs a).
Proof.
  induction observations as [|obs rest IH]; intros hs a F; inversion F; subst.
  - reflexivity.
  - simpl. rewrite (loop_body_reads a obs _ H1). simpl. apply IH. assumption.
Qed.

Lemma fold_pure_body hs : forall a,
  fold_left pure_body hs a
  = ClimeCapsule.mkacc
      (running_high tempHigh hs (ClimeCapsule.high_temp a))
      (running_low tempLow hs (ClimeCapsule.low_temp a))
      (running_total tempAvg hs (ClimeCapsule.total_avg_temp a))
      (running_high windspeedHigh hs (ClimeCapsule.high_windspeed a))
      (running_low windspeedLow hs (ClimeCapsule.low_windspeed a))
      (running_total windspeedAverage hs (ClimeCapsule.total_avg_windspeed a))
      (running_high windchillHigh hs (ClimeCapsule.high_wind_chill a))
      (running_low windchillLow hs (ClimeCapsule.low_wind_chill a))
      (running_total windchillAverage hs (ClimeCapsule.total_avg_windchill a))
      (running_high precipRate hs (ClimeCapsule.high_precip_rate a))
      (running_total precipAverage hs (ClimeCapsule.precip_rate_avg a))
      (ClimeCapsule.observation_count a + Z.of_nat (List.length hs)).
Proof.
  induction hs as [|h hs IH]; intro a.
  - destruct a; simpl. f_equal. lia.
  - cbn [fold_left]. rewrite IH. unfold pure_body at 1. cbn.
    f_equal. lia.
Qed.

Lemma running_high_max f hs : forall init,
  is_maximum (running_high f hs init) (init :: map f hs).
Proof.
  unfold is_maximum.
  induction hs as [|h hs IH]; intro init; cbn.
  - split; [left; reflexivity|]. constructor; [apply Qle_refl|constructor].
  - destruct (IH (higher (f h) init)) as [I A]. clear IH.
    fold (running_high f hs (higher (f h) init)).
    inversion A as [|? ? A1 A2]; subst.
    assert (Hi : (init <= higher (f h) init)%Q /\ (f h <= higher (f h) init)%Q
                 /\ (higher (f h) init = init \/ higher (f h) init = f h)).
    { unfold higher. destruct (Qgtb (f h) init) eqn:E.
      - apply Qgtb_true in E. repeat split; auto using Qle_refl, Qlt_le_weak.
      - apply Qgtb_false in E. repeat split; auto using Qle_refl. }
    destruct Hi as (L1 & L2 & C). split.
    + destruct I as [I|I].
      * destruct C as [C|C]; [left|right; left];
          (etransitivity; [symmetry; exact C|exact I]).
      * right; right; exact I.
    + constructor; [eapply Qle_trans; eauto|].
      constructor; [eapply Qle_trans; eauto|assumption].
Qed.

Lemma running_low_min f hs : forall init,
  is_minimum (running_low f hs init) (init :: map f hs).
Proof.
  unfold is_minimum.
  induction hs as [|h hs IH]; intro init; cbn.
  - split; [left; reflexivity|]. constructor; [apply Qle_refl|constructor].
  - destruct (IH (lower (f h) init)) as [I A]. clear IH.
    fold (running_low f hs (lower (f h) init)).
    inversion A as [|? ? A1 A2]; subst.
    assert (Hi : (lower (f h) init <= init)%Q /\ (lower (f h) init <= f h)%Q
                 /\ (lower (f h) init = init \/ lower (f h) init = f h)).
    { unfold lower. destruct (Qltb (f h) init) eqn:E.
      - apply Qltb_true in E. repeat split; auto using Qle_refl, Qlt_le_weak.
      - apply Qltb_false in E. repeat split; auto using Qle_refl. }
    destruct Hi as (L1 & L2 & C). split.
    + destruct I as [I|I].
      * destruct C as [C|C]; [left|right; left];
          (etransitivity; [symmetry; exact C|exact I]).
      * right; right; exact I.
    + constructor; [eapply Qle_trans; eauto|].
      constructor; [eapply Qle_trans; eauto|assumption].
Qed.

Lemma running_total_fsum f hs : forall init,
  running_total f hs init = fold_left float_add (map f hs) init.
Proof.
  unfold running_total.
  induction hs as [|h hs IH]; intro init; cbn [fold_left map].
  - reflexivity.
  - apply IH.
Qed.

Lemma rounded_mean_total f hs :
  hs <> [] ->
  ClimeCapsule.rounded_mean (running_total f hs 0) (0 + Z.of_nat (List.length hs))
  = Ok (PyNum (round2 (fmean (map f hs)))).
Proof.
  intro NE. unfold ClimeCapsule.rounded_mean.
  destruct (0 + Z.of_nat (List.length hs) =? 0) eqn:E.
  - apply Z.eqb_eq in E. destruct hs; [congruence|]. cbn in E. lia.
  - unfold fmean, fsum. rewrite running_total_fsum, length_map.
    reflexivity.
Qed.

(** What [compile_daily_data] returns on a day, field by field. *)
Lemma compile_daily_data_full_day observations hs :
  full_day observations hs ->
  exists sid t,
    ClimeCapsule.compile_daily_data observations
    = Ok (mkDailyObservation sid
            (strftime_iso (dt_date t)) (strftime_friendly (dt_date t))
            (running_high tempHigh hs 0) (running_low tempLow hs 150)
            (round2 (fmean (map tempAvg hs)))
            (running_high windspeedHigh hs 0)
            (running_low windspeedLow hs 150)
            (round2 (fmean (map windspeedAverage hs)))
            (running_high windchillHigh hs 0)
            (running_low windchillLow hs 150)
            (round2 (fmean (map windchillAverage hs)))
            (running_high precipRate hs 0)
            (round2 (fmean (map precipAverage hs)))).
Proof.
  intros (NE & F & (first & sid & Hf & Hs) & (last & ts & t & Hl & Hts & Ht)).
  exists sid, t.
  assert (NEh : hs <> []).
  { intro E. subst hs. inversion F. subst. congruence. }
  unfold ClimeCapsule.compile_daily_data.
  destruct observations as [|o rest]; [congruence|].
  cbn [List.length Nat.eqb negb].
  rewrite Hl. cbn [rbind]. rewrite Hts. cbn [rbind py_strptime].
  rewrite Ht. cbn [rbind]. rewrite Hf. cbn [rbind]. rewrite Hs. cbn [rbind].
  rewrite (for_each_reads _ _ _ F). cbn [rbind].
  rewrite fold_pure_body.
  cbn [ClimeCapsule.initial_accumulators ClimeCapsule.high_temp
       ClimeCapsule.low_temp ClimeCapsule.total_avg_temp
       ClimeCapsule.high_windspeed ClimeCapsule.low_windspeed
       ClimeCapsule.total_avg_windspeed ClimeCapsule.high_wind_chill
       ClimeCapsule.low_wind_chill ClimeCapsule.total_avg_windchill
       ClimeCapsule.high_precip_rate ClimeCapsule.precip_rate_avg
       ClimeCapsule.observation_count].
  rewrite !(rounded_mean_total _ _ NEh). cbn [rbind].
  reflexivity.
Qed.

Lemma sentinel_high f hs :
  Forall (fun h => (f h < 0)%Q) hs -> running_high f hs 0 = 0%Q.
Proof.
  unfold running_high.
  induction hs as [|h hs IH]; intro A; inversion A; subst; cbn [fold_left].
  - reflexivity.
  - unfold higher at 2.
    assert (E : Qgtb (f h) 0 = false).
    { apply Qgtb_false. apply Qlt_le_weak. assumption. }
    rewrite E. apply IH. assumption.
Qed.

Lemma sentinel_low f hs :
  Forall (fun h => (150 < f h)%Q) hs -> running_low f hs 150 = 150%Q.
Proof.
  unfold running_low.
  induction hs as [|h hs IH]; intro A; inversion A; subst; cbn [fold_left].
  - reflexivity.
  - unfold lower at 2.
    assert (E : Qltb (f h) 150 = false).
    { apply Qltb_false. apply Qlt_le_weak. assumption. }
    rewrite E. apply IH. assumption.
Qed.

Lemma not_among_negative f (hs : list hourly) :
  Forall (fun h => (f h < 0)%Q) hs ->
  forall m, In m (map f hs) -> ~ (m == 0)%Q.
Proof.
  intros A m I E. apply in_map_iff in I. destruct I as (h & <- & I).
  rewrite Forall_forall in A. specialize (A h I). rewrite E in A.
  apply (Qlt_irrefl 0). assumption.
Qed.

Lemma not_among_above f (hs : list hourly) :
  Forall (fun h => (150 < f h)%Q) hs ->
  forall m, In m (map f hs) -> ~ (m == 150)%Q.
Proof.
  intros A m I E. apply in_map_iff in I. destruct I as (h & <- & I).
  rewrite Forall_forall in A. specialize (A h I). rewrite E in A.
  apply (Qlt_irrefl 150). assumption.
Qed.

(** An observation the loop gets past is numeric in every field read. *)
Lemma keep_high_ok obs k cur x :
  ClimeCapsule.keep_high obs k cur = Ok x ->
  exists q, ClimeCapsule.imperial obs k = Ok (PyNum q).
Proof.
  unfold ClimeCapsule.keep_high.
  destruct (ClimeCapsule.imperial obs k) as [[| q | | |]|]; cbn;
    try discriminate.
  intros _. exists q. reflexivity.
Qed.

Lemma keep_low_ok obs k cur x :
  ClimeCapsule.keep_low obs k cur = Ok x ->
  exists q, ClimeCapsule.imperial obs k = Ok (PyNum q).
Proof.
  unfold ClimeCapsule.keep_low.
  destruct (ClimeCapsule.imperial obs k) as [[| q | | |]|]; cbn;
    try discriminate.
  intros _. exists q. reflexivity.
Qed.

Lemma add_to_ok obs k total x :
  ClimeCapsule.add_to obs k total = Ok x ->
  exists q, ClimeCapsule.imperial obs k = Ok (PyNum q).
Proof.
  unfold ClimeCapsule.add_to.
  destruct (ClimeCapsule.imperial obs k) as [[| q | | |]|]; cbn;
    try discriminate.
  intros _. exists q. reflexivity.
Qed.

Lemma loop_body_ok a obs a' :
  ClimeCapsule.loop_body a obs = Ok a' ->
  forall k, In k read_keys ->
  exists q, ClimeCapsule.imperial obs k = Ok (PyNum q).
Proof.
  unfold ClimeCapsule.loop_body. intro H.
  bind_ok H x1 H1.
  bind_ok H x2 H2.
  bind_ok H x3 H3.
  bind_ok H x4 H4.
  bind_ok H x5 H5.
  bind_ok H x6 H6.
  bind_ok H x7 H7.
  bind_ok H x8 H8.
  bind_ok H x9 H9.
  bind_ok H x10 H10.
  bind_ok H x11 H11.
  intros k I. unfold read_keys in I. cbn [In] in I.
  repeat (destruct I as [<-|I];
          [eauto using keep_high_ok, keep_low_ok, add_to_ok|]).
  contradiction.
Qed.

Lemma for_each_ok observations : forall a a',
  ClimeCapsule.for_each a observations = Ok a' ->
  forall obs k, In obs observations -> In k read_keys ->
  exists q, ClimeCapsule.imperial obs k = Ok (PyNum q).
Proof.
  induction observations as [|o rest IH]; intros a a' H obs k I K.
  - contradiction.
  - cbn in H. bind_ok H a1 H1.
    destruct I as [<-|I].
    + eapply loop_body_ok; eauto.
    + eapply IH; eauto.
Qed.

Lemma compile_daily_data_ok observations s :
  ClimeCapsule.compile_daily_data observations = Ok s ->
  forall obs k, In obs observations -> In k read_keys ->
  exists q, ClimeCapsule.imperial obs k = Ok (PyNum q).
Proof.
  unfold ClimeCapsule.compile_daily_data.
  destruct (negb (Nat.eqb (List.length observations) 0)).
  - intro H.
    bind_ok H x1 H1.
    bind_ok H x2 H2.
    bind_ok H x3 H3.
    bind_ok H x4 H4.
    bind_ok H x5 H5.
    bind_ok H a Ha.
    intros obs k. eapply for_each_ok. eassumption.
  - cbn. discriminate.
Qed.

(* ================================================================== *)
(** * Floats: the error of rounding *)

Lemma fl_compat x y : (x == y)%Q -> fl x = fl y.
Proof. intro E. unfold fl. rewrite (Qred_complete _ _ E). reflexivity. Qed.

Lemma round_half_even_error z :
  (Qabs (inject_Z (round_half_even z) - z) <= 1 # 2)%Q.
Proof.
  unfold round_half_even.
  pose proof (Qfloor_le z) as L. pose proof (Qlt_floor z) as U.
  rewrite inject_Z_plus in U. change (inject_Z 1) with 1%Q in U.
  set (f := Qfloor z) in *.
  apply Qabs_Qle_condition.
  destruct (Qcompare (z - inject_Z f) (1 # 2)) eqn:C.
  - apply Qeq_alt in C.
    destruct (Z.even f); rewrite ?inject_Z_plus;
      change (inject_Z 1) with 1%Q; split; lra.
  - apply Qlt_alt in C. split; lra.
  - apply Qgt_alt in C. rewrite inject_Z_plus.
    change (inject_Z 1) with 1%Q. split; lra.
Qed.

Lemma Qpower_2_Z k : (0 <= k)%Z -> (2 ^ k == inject_Z (2 ^ k))%Q.
Proof. intro H. rewrite Zpower_Qpower by assumption. reflexivity. Qed.

(** The power of two that [binade] names is below [|x|]. *)
Lemma binade_lower x : ~ (x == 0)%Q -> (2 ^ binade x <= Qabs x)%Q.
Proof.
  intro NZ. unfold binade.
  set (n := Z.abs (Qnum x)). set (d := Zpos (Qden x)).
  set (e := (Z.log2 n - Z.log2 d)%Z).
  destruct (Qle_bool (2 ^ e) (Qabs x)) eqn:T.
  - apply Qle_bool_iff in T. exact T.
  - clear T.
    assert (Hn : (0 < n)%Z).
    { unfold n. destruct x as [p q]. unfold Qeq in NZ. cbn in *. lia. }
    assert (Hd : (0 < d)%Z) by (unfold d; lia).
    destruct (Z.log2_spec n Hn) as (An & _).
    destruct (Z.log2_spec d Hd) as (_ & Bd).
    pose proof (Z.log2_nonneg n) as Nn. pose proof (Z.log2_nonneg d) as Nd.
    assert (E : (2 ^ (e - 1) == 2 ^ Z.log2 n / 2 ^ Z.succ (Z.log2 d))%Q).
    { replace (e - 1)%Z with (Z.log2 n - Z.succ (Z.log2 d))%Z
        by (unfold e; lia).
      apply Qpower_minus. discriminate. }
    rewrite E, !Qpower_2_Z by lia.
    assert (P : (0 < 2 ^ Z.succ (Z.log2 d))%Z) by lia.
    apply Qle_shift_div_r.
    { change 0%Q with (inject_Z 0). rewrite <- Zlt_Qlt. exact P. }
    destruct x as [p q]. unfold n, d in *. cbn [Qnum Qden Qabs] in *.
    unfold Qle. cbn [Qnum Qden Qmult inject_Z]. rewrite Pos.mul_1_r.
    nia.
Qed.

Lemma ulp_pos x : (0 < ulp x)%Q.
Proof. unfold ulp. apply Qpower_0_lt. reflexivity. Qed.

(** A float is at most half the distance of the floats away. *)
Lemma fl_error x : (Qabs (fl x - x) <= ulp (Qred x) * (1 # 2))%Q.
Proof.
  unfold fl. pose proof (Qred_correct x) as R.
  pose proof (ulp_pos (Qred x)) as P.
  set (y := Qred x) in *. set (u := ulp y) in *.
  destruct (Qeq_bool y 0) eqn:Z0.
  - apply Qeq_bool_iff in Z0.
    assert (E : (0 - x == 0)%Q) by (rewrite <- R, Z0; reflexivity).
    rewrite E. cbn. lra.
  - rewrite Qred_correct.
    pose proof (round_half_even_error (y / u)) as H.
    set (m := inject_Z (round_half_even (y / u))) in *.
    assert (E : (m * u - x == (m - y / u) * u)%Q).
    { rewrite <- R. field. lra. }
    rewrite E, Qabs_Qmult, (Qabs_pos u) by lra.
    rewrite (Qmult_comm u (1 # 2)).
    apply Qmult_le_compat_r; [exact H|lra].
Qed.

(** The error of rounding a number of magnitude up to [2^k]. *)
Lemma fl_error_bound x k :
  (-1022 <= k)%Z ->
  (Qabs x <= 2 ^ k)%Q ->
  (Qabs (fl x - x) <= 2 ^ (k - 53))%Q.
Proof.
  intros K B.
  destruct (Qeq_dec x 0) as [Z0|NZ].
  - rewrite (fl_compat x 0 Z0), Z0.
    apply Qlt_le_weak. change (Qabs (fl 0 - 0)) with 0%Q.
    apply Qpower_0_lt. reflexivity.
  - eapply Qle_trans; [apply fl_error|].
    assert (NZ' : ~ (Qred x == 0)%Q) by (rewrite Qred_correct; exact NZ).
    pose proof (binade_lower (Qred x) NZ') as L.
    rewrite (Qabs_wd _ _ (Qred_correct x)) in L.
    assert (Bk : (binade (Qred x) <= k)%Z).
    { apply (Qpower_le_compat_l_inv 2); [|reflexivity].
      eapply Qle_trans; eassumption. }
    unfold ulp.
    assert (H : (2 ^ Z.max (binade (Qred x) - 52) (-1074) <= 2 ^ (k - 52))%Q).
    { apply Qpower_le_compat_l; [lia|discriminate]. }
    assert (E : (2 ^ (k - 52) == 2 ^ (k - 53) * 2)%Q).
    { replace (k - 52)%Z with (k - 53 + 1)%Z by lia.
      rewrite Qpower_plus by discriminate. reflexivity. }
    rewrite E in H. lra.
Qed.

(** Rounding a number of magnitude up to [2^31] moves it by [2^-22] at
    most. *)
Lemma fl_near x :
  (Qabs x <= 2147483648)%Q -> (Qabs (fl x - x) <= 1 # 4194304)%Q.
Proof.
  intro B.
  assert (E1 : (2 ^ 31 == 2147483648)%Q) by reflexivity.
  assert (E2 : (2 ^ (31 - 53) == 1 # 4194304)%Q) by reflexivity.
  rewrite <- E2. apply fl_error_bound; [lia|]. rewrite E1. exact B.
Qed.

Lemma inject_of_nat_S j :
  (inject_Z (Z.of_nat (S j)) == inject_Z (Z.of_nat j) + 1)%Q.
Proof.
  rewrite Nat2Z.inj_succ. unfold Z.succ. rewrite inject_Z_plus. reflexivity.
Qed.

Lemma inject_of_nat_bounds j n :
  (j <= n)%nat ->
  (0 <= inject_Z (Z.of_nat j) <= inject_Z (Z.of_nat n))%Q.
Proof.
  intro H. split.
  - change 0%Q with (inject_Z 0). rewrite <- Zle_Qle. lia.
  - rewrite <- Zle_Qle. lia.
Qed.

(** The error of the float sum: one rounding per term. *)
Lemma fold_float_add_error l : forall acc e j,
  Forall (fun x => (Qabs x <= 1048576)%Q) l ->
  (j + List.length l <= 1024)%nat ->
  (Qabs (acc - e) <= inject_Z (Z.of_nat j) * (1 # 4194304))%Q ->
  (Qabs e <= inject_Z (Z.of_nat j) * 1048576)%Q ->
  (Qabs (fold_left float_add l acc - (e + Qsum l))
   <= inject_Z (Z.of_nat (j + List.length l)) * (1 # 4194304))%Q.
Proof.
  induction l as [|x l IH]; intros acc e j F Len A E.
  - cbn [fold_left Qsum fold_right List.length]. rewrite Nat.add_0_r.
    assert (X : (acc - (e + 0) == acc - e)%Q) by ring.
    rewrite X. exact A.
  - inversion F as [|? ? Fx Fl]; subst. cbn [List.length] in Len.
    cbn [fold_left List.length]. unfold float_add at 2.
    pose proof (inject_of_nat_bounds j 1023 ltac:(lia)) as (J0 & J1).
    change (inject_Z (Z.of_nat 1023)) with 1023%Q in J1.
    pose proof (inject_of_nat_S j) as JS.
    apply Qabs_Qle_condition in A. apply Qabs_Qle_condition in E.
    apply Qabs_Qle_condition in Fx.
    assert (N : (Qabs (fl (acc + x) - (acc + x)) <= 1 # 4194304)%Q).
    { apply fl_near. apply Qabs_Qle_condition. split; lra. }
    apply Qabs_Qle_condition in N.
    assert (S1 : (e + Qsum (x :: l) == (e + x) + Qsum l)%Q).
    { unfold Qsum. cbn [fold_right]. ring. }
    rewrite S1.
    replace (j + S (List.length l))%nat with (S j + List.length l)%nat by lia.
    apply IH; [exact Fl|lia| |].
    + apply Qabs_Qle_condition. rewrite JS. split; lra.
    + apply Qabs_Qle_condition. rewrite JS. split; lra.
Qed.

Lemma Qsum_bound l :
  Forall (fun x => (Qabs x <= 1048576)%Q) l ->
  (Qabs (Qsum l) <= inject_Z (Z.of_nat (List.length l)) * 1048576)%Q.
Proof.
  induction 1 as [|x l Fx Fl IH].
  - apply Qabs_Qle_condition. cbn [List.length Z.of_nat].
    change (inject_Z 0) with 0%Q. change (Qsum []) with 0%Q. split; lra.
  - cbn [List.length]. rewrite inject_of_nat_S.
    unfold Qsum in *. cbn [fold_right].
    apply Qabs_Qle_condition in IH. apply Qabs_Qle_condition in Fx.
    apply Qabs_Qle_condition. split; lra.
Qed.

Lemma fsum_error l :
  Forall (fun x => (Qabs x <= 1048576)%Q) l ->
  (List.length l <= 1024)%nat ->
  (Qabs (fsum l - Qsum l)
   <= inject_Z (Z.of_nat (List.length l)) * (1 # 4194304))%Q.
Proof.
  intros F Len.
  pose proof (fold_float_add_error l 0 0 0%nat F Len) as H.
  cbn [Nat.add Z.of_nat] in H.
  assert (X : (fsum l - Qsum l == fold_left float_add l 0 - (0 + Qsum l))%Q)
    by (unfold fsum; ring).
  rewrite X.
  apply H; apply Qabs_Qle_condition; change (inject_Z 0) with 0%Q;
    split; lra.
Qed.

(** The quotient by the number of terms. *)
Lemma Qabs_div_le a n b :
  (1 <= n)%Q -> (Qabs a <= n * b)%Q -> (Qabs (a / n) <= b)%Q.
Proof.
  intros N H. apply Qabs_Qle_condition in H. apply Qabs_Qle_condition.
  destruct H as (H1 & H2).
  split.
  - apply Qle_shift_div_l; [lra|]. lra.
  - apply Qle_shift_div_r; [lra|]. lra.
Qed.

(** The float mean of up to 1024 numbers of magnitude up to [2^20] is
    within [2^-21] of their mean. *)
Lemma fmean_close l :
  l <> [] ->
  (List.length l <= 1024)%nat ->
  Forall (fun x => (Qabs x <= 1048576)%Q) l ->
  (Qabs (fmean l - mean l) <= 1 # 2097152)%Q.
Proof.
  intros NE Len F.
  pose proof (fsum_error l F Len) as Es.
  pose proof (Qsum_bound l F) as Bs.
  assert (L1 : (1 <= List.length l)%nat).
  { destruct l; [congruence|cbn; lia]. }
  pose proof (inject_of_nat_bounds 1 _ L1) as (_ & N1).
  change (inject_Z (Z.of_nat 1)) with 1%Q in N1.
  pose proof (inject_of_nat_bounds _ 1024 Len) as (_ & N2).
  change (inject_Z (Z.of_nat 1024)) with 1024%Q in N2.
  set (n := inject_Z (Z.of_nat (List.length l))) in *.
  unfold fmean, mean, float_div. fold n.
  assert (D : (Qabs (fsum l / n - Qsum l / n) <= 1 # 4194304)%Q).
  { assert (X : (fsum l / n - Qsum l / n == (fsum l - Qsum l) / n)%Q)
      by (field; lra).
    rewrite X. apply Qabs_div_le; assumption. }
  assert (Q1 : (Qabs (fsum l / n) <= 2147483648)%Q).
  { assert (Bq : (Qabs (Qsum l / n) <= 1048576)%Q)
      by (apply Qabs_div_le; assumption).
    apply Qabs_Qle_condition in Bq. apply Qabs_Qle_condition in D.
    apply Qabs_Qle_condition. split; lra. }
  pose proof (fl_near _ Q1) as E.
  apply Qabs_Qle_condition in E. apply Qabs_Qle_condition in D.
  apply Qabs_Qle_condition. split; lra.
Qed.

Lemma round2_error x : (Qabs (round2 x - x) <= 1 # 200)%Q.
Proof.
  pose proof (round_half_even_error (x * inject_Z 100)) as H.
  unfold round2. set (k := round_half_even (x * inject_Z 100)) in *.
  assert (E : (k # 100 == inject_Z k / 100)%Q) by apply Qmake_Qdiv.
  rewrite E. change (inject_Z 100) with 100%Q in H.
  apply Qabs_Qle_condition in H. apply Qabs_Qle_condition.
  destruct H as (H1 & H2). split.
  - assert (X : (inject_Z k / 100 - x == (inject_Z k - x * 100) / 100)%Q)
      by field.
    rewrite X. apply Qle_shift_div_l; lra.
  - assert (X : (inject_Z k / 100 - x == (inject_Z k - x * 100) / 100)%Q)
      by field.
    rewrite X. apply Qle_shift_div_r; lra.
Qed.

(** The rounded float mean and the mean. *)
Lemma round2_fmean_close l :
  l <> [] ->
  (List.length l <= 1024)%nat ->
  Forall (fun x => (Qabs x <= 1048576)%Q) l ->
  (Qabs (round2 (fmean l) - mean l) <= (1 # 200) + (1 # 2097152))%Q.
Proof.
  intros NE Len F.
  pose proof (fmean_close l NE Len F) as A.
  pose proof (round2_error (fmean l)) as B.
  apply Qabs_Qle_condition in A. apply Qabs_Qle_condition in B.
  apply Qabs_Qle_condition. split; lra.
Qed.

(** The mean of one float is that float. *)
Lemma fmean_single x : binary64 x -> (fmean [x] == x)%Q.
Proof.
  unfold binary64. intro B.
  unfold fmean, fsum, float_div, float_add.
  cbn [fold_left List.length Z.of_nat Pos.of_succ_nat].
  rewrite (fl_compat (0 + x) x) by ring.
  rewrite (fl_compat (fl x / inject_Z 1) x); [exact B|].
  rewrite B. field.
Qed.

Lemma mean_single x : (mean [x] == x)%Q.
Proof. unfold mean, Qsum. cbn. field. Qed.

Lemma round2_fmean_single x :
  binary64 x -> round2 (fmean [x]) = round2 (mean [x]).
Proof.
  intro B. apply round2_compat.
  rewrite (fmean_single x B), mean_single. reflexivity.
Qed.

(* ================================================================== *)
(** * Properties of [compile_daily_data] *)

Lemma reads_reading ts h : reads (WeatherDB.observation_of_row (reading ts h)) h.
Proof. repeat split. Qed.

(** C1.  The claim asks for an empty, zero-valued summary on the empty
    list.  The code calls [DailyObservation()] without arguments, and
    since every field of the model is required the call raises a
    validation error. *)
Theorem compile_daily_data_empty_raises :
  ClimeCapsule.compile_daily_data [] = Raise ValidationError.
Proof. reflexivity. Qed.

(** C4, as amended.  On a day whose observations are numeric in the
    fields read, the summary's high of temperature, wind speed and wind
    chill is the maximum of 0 and the observations' highs, its low is the
    minimum of 150 and the observations' lows, and its average is the
    mean as floats give it, rounded to two decimal places: the
    observations' averages are added from left to right, every partial
    sum rounded to a float, the sum is divided by their number, and the
    float quotient is rounded.  For up to 1024 observations with
    averages of magnitude up to [2^20] this is within [0.005 + 2^-21]
    of the arithmetic mean. *)
Theorem compile_daily_data_extremes_and_means observations hs :
  full_day observations hs ->
  exists s,
    ClimeCapsule.compile_daily_data observations = Ok s
    /\ is_maximum (temp_high s) (0%Q :: map tempHigh hs)
    /\ is_minimum (temp_low s) (150%Q :: map tempLow hs)
    /\ temp_avg s = round2 (fmean (map tempAvg hs))
    /\ is_maximum (windspeed_high s) (0%Q :: map windspeedHigh hs)
    /\ is_minimum (windspeed_low s) (150%Q :: map windspeedLow hs)
    /\ windspeed_avg s = round2 (fmean (map windspeedAverage hs))
    /\ is_maximum (wind_chill_high s) (0%Q :: map windchillHigh hs)
    /\ is_minimum (wind_chill_low s) (150%Q :: map windchillLow hs)
    /\ wind_chill_avg s = round2 (fmean (map windchillAverage hs))
    /\ near_mean (temp_avg s) (map tempAvg hs)
    /\ near_mean (windspeed_avg s) (map windspeedAverage hs)
    /\ near_mean (wind_chill_avg s) (map windchillAverage hs).
Proof.
  intro D. destruct (compile_daily_data_full_day _ _ D) as (sid & t & E).
  assert (NE : forall f : hourly -> Q, map f hs <> []).
  { destruct D as (NE & F & _). intros f M.
    apply map_eq_nil in M. subst hs. inversion F. subst. congruence. }
  eexists. split; [exact E|].
  cbn [temp_high temp_low temp_avg windspeed_high windspeed_low
       windspeed_avg wind_chill_high wind_chill_low wind_chill_avg].
  repeat match goal with
         | |- near_mean _ _ =>
             intros Len B; apply round2_fmean_close; auto
         | |- _ /\ near_mean _ _ => split
         | |- _ /\ _ => split
         end;
    try reflexivity;
    first [ apply (proj1 (running_high_max _ _ _))
          | apply (proj2 (running_high_max _ _ _))
          | apply (proj1 (running_low_min _ _ _))
          | apply (proj2 (running_low_min _ _ _))
          | apply running_high_max
          | apply running_low_min ].
Qed.

Lemma synthetic_day_full : full_day synthetic_day synthetic_hours.
Proof.
  split; [discriminate|]. split.
  - repeat constructor.
  - split.
    + eexists. eexists. split; reflexivity.
    + eexists. eexists. eexists. repeat split; reflexivity.
Defined.

Lemma uneven_day_full : full_day uneven_day uneven_hours.
Proof.
  split; [discriminate|]. split.
  - repeat constructor.
  - split.
    + eexists. eexists. split; reflexivity.
    + eexists. eexists. eexists. repeat split; reflexivity.
Defined.

(** The three-hour day of the claim: highs 70, 75, 68 and lows 60, 55,
    58 give 75 and 55, and the averages 65, 66.1 and 63 give 64.7.  On
    the day with the averages 58.0, 38.7, 64.6 and 60.4 the float sum is
    221.70000000000002 and the summary shows 55.43, where the mean of
    the four numbers rounds to 55.42. *)
Lemma compile_daily_data_synthetic_day :
  (exists s,
      ClimeCapsule.compile_daily_data synthetic_day = Ok s
      /\ temp_high s = 75%Q
      /\ temp_low s = 55%Q
      /\ temp_avg s = round2 (fmean [65%Q; f64 (661 # 10); 63%Q])
      /\ temp_avg s = (6470 # 100)%Q)
  /\ (exists s,
         ClimeCapsule.compile_daily_data uneven_day = Ok s
         /\ temp_avg s = (5543 # 100)%Q
         /\ round2 (mean (map tempAvg uneven_hours)) = (5542 # 100)%Q
         /\ round2 (mean [58%Q; (387 # 10)%Q; (646 # 10)%Q; (604 # 10)%Q])
            = (5542 # 100)%Q).
Proof.
  split.
  - destruct (compile_daily_data_extremes_and_means
                synthetic_day synthetic_hours synthetic_day_full)
      as (s & E & _ & _ & A & _).
    exists s. split; [exact E|].
    vm_compute in E. injection E as <-.
    repeat split; vm_compute; reflexivity.
  - destruct (compile_daily_data_extremes_and_means
                uneven_day uneven_hours uneven_day_full)
      as (s & E & _ & _ & A & _).
    exists s. split; [exact E|].
    split; [rewrite A; vm_compute; reflexivity|].
    split; vm_compute; reflexivity.
Defined.

(** C4 as stated fails: on the cold day the summary's temperature high
    is 0, which is not the maximum of the observations' highs. *)
Lemma compile_daily_data_cold_day :
  full_day cold_day cold_hours
  /\ exists s,
       ClimeCapsule.compile_daily_data cold_day = Ok s
       /\ ~ is_maximum (temp_high s) (map tempHigh cold_hours).
Proof.
  split.
  - split; [discriminate|]. split; [repeat constructor|]. split.
    + eexists. eexists. split; reflexivity.
    + eexists. eexists. eexists. repeat split; reflexivity.
  - eexists. split; [reflexivity|].
    intros [I _]. cbn in I. destruct I as [I|[]]. discriminate I.
Qed.

(** C5.  The running highs start at 0 and the running lows at 150: when
    all of a day's values of a high field are negative the summary shows
    0 for it, when all values of a low field are above 150 it shows 150,
    and in both cases the value shown is not the true extreme. *)
Theorem compile_daily_data_sentinels_leak observations hs :
  full_day observations hs ->
  exists s,
    ClimeCapsule.compile_daily_data observations = Ok s
    /\ leaks_high tempHigh hs (temp_high s)
    /\ leaks_low tempLow hs (temp_low s)
    /\ leaks_high windspeedHigh hs (windspeed_high s)
    /\ leaks_low windspeedLow hs (windspeed_low s)
    /\ leaks_high windchillHigh hs (wind_chill_high s)
    /\ leaks_low windchillLow hs (wind_chill_low s)
    /\ leaks_high precipRate hs (precip_rate s).
Proof.
  intro D. destruct (compile_daily_data_full_day _ _ D) as (sid & t & E).
  eexists. split; [exact E|]. cbn.
  unfold leaks_high, leaks_low.
  repeat split;
    first [ apply sentinel_high; assumption
          | apply sentinel_low; assumption
          | idtac ];
    intros m [I _] Q;
    first [ rewrite sentinel_high in Q by assumption;
            eapply not_among_negative; eassumption
          | rewrite sentinel_low in Q by assumption;
            eapply not_among_above; eassumption ].
Qed.

Lemma extreme_day_full : full_day extreme_day extreme_hours.
Proof.
  split; [discriminate|]. split; [repeat constructor|]. split.
  - eexists. eexists. split; reflexivity.
  - eexists. eexists. eexists. repeat split; reflexivity.
Defined.

(** A day below zero and above 150 throughout: the summary shows the two
    sentinels. *)
Lemma compile_daily_data_extreme_day :
  exists s,
    ClimeCapsule.compile_daily_data extreme_day = Ok s
    /\ temp_high s = 0%Q /\ temp_low s = 150%Q
    /\ wind_chill_high s = 0%Q /\ wind_chill_low s = 150%Q.
Proof.
  destruct (compile_daily_data_sentinels_leak
              extreme_day extreme_hours extreme_day_full)
    as (s & E & H1 & L1 & _ & _ & H3 & L3 & _).
  exists s. split; [exact E|].
  repeat split.
  - apply H1. repeat constructor.
  - apply L1. repeat constructor.
  - apply H3. repeat constructor.
  - apply L3. repeat constructor.
Defined.

(** C6, as amended.  On a day whose observations are numeric in the
    fields read, the summary's precipitation rate is the maximum of 0 and
    the observations' rates, and its precipitation average is the mean
    as floats give it, rounded to two decimal places, of the values under
    ["precipAverage"]: they are added from left to right, every partial
    sum rounded to a float, and the float quotient by their number is
    rounded; for up to 1024 observations with values of magnitude up to
    [2^20] this is within [0.005 + 2^-21] of the arithmetic mean.  For
    observations returned by [query_by_date] these values are the
    stored precipitation totals. *)
Theorem compile_daily_data_precipitation observations hs :
  full_day observations hs ->
  exists s,
    ClimeCapsule.compile_daily_data observations = Ok s
    /\ is_maximum (precip_rate s) (0%Q :: map precipRate hs)
    /\ precip_avg s = round2 (fmean (map precipAverage hs))
    /\ near_mean (precip_avg s) (map precipAverage hs)
    /\ forall rows,
         observations = map WeatherDB.observation_of_row rows ->
         Forall2
           (fun v h =>
              weather_data.precip_rate v = SqlNum (precipRate h)
              /\ weather_data.precip_total v = SqlNum (precipAverage h))
           rows hs.
Proof.
  intro D. destruct (compile_daily_data_full_day _ _ D) as (sid & t & E).
  assert (NE : map precipAverage hs <> []).
  { destruct D as (NE & F & _). intro M.
    apply map_eq_nil in M. subst hs. inversion F. subst. congruence. }
  eexists. split; [exact E|]. cbn [precip_rate precip_avg].
  split; [apply running_high_max|]. split; [reflexivity|].
  split; [intros Len B; apply round2_fmean_close; auto|].
  intros rows ->. destruct D as (_ & F & _). clear E NE.
  revert hs F. induction rows as [|v rows IH]; intros hs F;
    inversion F as [|? h ? hs' R F']; subst; constructor.
  - destruct R as (_ & _ & _ & _ & _ & _ & _ & _ & _ & R1 & R2).
    cbn in R1, R2. split.
    + destruct (weather_data.precip_rate v); cbn in R1; congruence.
    + destruct (weather_data.precip_total v); cbn in R2; congruence.
  - apply IH. assumption.
Qed.

Lemma drizzle_day_full : full_day drizzle_day drizzle_hours.
Proof.
  split; [discriminate|]. split.
  - repeat constructor.
  - split.
    + eexists. eexists. split; reflexivity.
    + eexists. eexists. eexists. repeat split; reflexivity.
Defined.

(** The three hours with rates 0, 0.12 and 0.05 and totals 0, 0.03 and
    0.04: the rate is 0.12 and the average 0.02.  On the two hours with
    the totals 0.01 and 0.02 the float quotient is just below 0.015 and
    the summary shows 0.01, where the mean of the two numbers rounds to
    0.02. *)
Lemma compile_daily_data_synthetic_precipitation :
  (exists s,
      ClimeCapsule.compile_daily_data synthetic_day = Ok s
      /\ precip_rate s = f64 (12 # 100)
      /\ precip_avg s
         = round2 (fmean [0%Q; f64 (3 # 100); f64 (4 # 100)])
      /\ precip_avg s = (2 # 100)%Q)
  /\ (exists s,
         ClimeCapsule.compile_daily_data drizzle_day = Ok s
         /\ precip_avg s = (1 # 100)%Q
         /\ round2 (mean (map precipAverage drizzle_hours)) = (2 # 100)%Q
         /\ round2 (mean [(1 # 100)%Q; (2 # 100)%Q]) = (2 # 100)%Q).
Proof.
  split.
  - destruct (compile_daily_data_precipitation
                synthetic_day synthetic_hours synthetic_day_full)
      as (s & E & _ & A & _).
    exists s. split; [exact E|].
    vm_compute in E. injection E as <-.
    repeat split; vm_compute; reflexivity.
  - destruct (compile_daily_data_precipitation
                drizzle_day drizzle_hours drizzle_day_full)
      as (s & E & _ & A & _).
    exists s. split; [exact E|].
    split; [rewrite A; vm_compute; reflexivity|].
    split; vm_compute; reflexivity.
Defined.

(** C6 as stated fails: with a negative rate reported the summary's
    precipitation rate is 0, not the maximum of the observations'
    rates. *)
Lemma compile_daily_data_negative_rate :
  full_day faulty_gauge_day faulty_gauge_hours
  /\ exists s,
       ClimeCapsule.compile_daily_data faulty_gauge_day = Ok s
       /\ ~ is_maximum (precip_rate s) (map precipRate faulty_gauge_hours).
Proof.
  split.
  - split; [discriminate|]. split; [repeat constructor|]. split.
    + eexists. eexists. split; reflexivity.
    + eexists. eexists. eexists. repeat split; reflexivity.
  - eexists. split; [reflexivity|].
    intros [I _]. cbn in I. destruct I as [I|[]]. discriminate I.
Qed.

(** C10.  When a field that [compile_daily_data] reads is null or
    missing in some observation of the list, the call raises an error:
    the value is not treated as missing. *)
Theorem compile_daily_data_null_field_raises observations obs k :
  In obs observations ->
  In k read_keys ->
  null_or_missing obs k ->
  exists e, ClimeCapsule.compile_daily_data observations = Raise e.
Proof.
  intros I K N.
  destruct (ClimeCapsule.compile_daily_data observations) as [s|e] eqn:E.
  - destruct (compile_daily_data_ok _ _ E obs k I K) as (q & Hq).
    destruct N as [N|(e & N)]; congruence.
  - exists e. reflexivity.
Qed.

(** The store takes an observation without [tempHigh] and keeps NULL for
    it; the day read back from the store makes [compile_daily_data] raise
    the [TypeError] of the first comparison. *)
Lemma compile_daily_data_stored_null_raises :
  (exists obs,
      partial_day = [obs]
      /\ ClimeCapsule.imperial obs "tempHigh" = Ok PyNone)
  /\ ClimeCapsule.compile_daily_data partial_day = Raise TypeError.
Proof.
  split.
  - eexists. split; reflexivity.
  - destruct (compile_daily_data_null_field_raises partial_day
                (hd PyNone partial_day) "tempHigh") as (e & E).
    + left. reflexivity.
    + left. reflexivity.
    + left. reflexivity.
    + rewrite E. vm_compute in E. injection E as <-. reflexivity.
Defined.

(* ================================================================== *)
(** * The store: inserting *)

Lemma insert_row_raises v t e : insert_row v t = Raise e -> e = IntegrityError.
Proof.
  unfold insert_row. destruct (unique_violation v t); congruence.
Qed.

Lemma insert_row_appends v t t' :
  insert_row v t = Ok t' ->
  unique_violation v t = false
  /\ weather_data.rows t'
     = weather_data.rows t
       ++ [weather_data.mkrow (weather_data.sqlite_sequence t + 1) v].
Proof.
  unfold insert_row. destruct (unique_violation v t); [discriminate|].
  intro H. injection H as <-. split; reflexivity.
Qed.

Lemma store_each_keeps vs : forall t,
  exists added,
    weather_data.rows (store_each t vs) = weather_data.rows t ++ added.
Proof.
  induction vs as [|v vs IH]; intro t; cbn.
  - exists []. rewrite app_nil_r. reflexivity.
  - destruct (insert_row v t) as [t'|e] eqn:E.
    + destruct (IH t') as (added & Ha).
      apply insert_row_appends in E. destruct E as (_ & E).
      rewrite Ha, E, <- app_assoc. eexists. reflexivity.
    + apply IH.
Qed.

Lemma unique_violation_app v rows1 rows2 s1 s2 s :
  unique_violation v (weather_data.mktable (rows1 ++ rows2) s)
  = unique_violation v (weather_data.mktable rows1 s1)
    || unique_violation v (weather_data.mktable rows2 s2).
Proof. unfold unique_violation. cbn. apply existsb_app. Qed.

Lemma unique_violation_stamp v t ts :
  weather_data.obs_time_local v = SqlText ts ->
  unique_violation v t = true <-> has_stamp ts t.
Proof.
  intro Hv. unfold unique_violation, has_stamp. rewrite existsb_exists, Hv.
  split; intros (r & I & E); exists r; split; auto.
  - destruct (weather_data.obs_time_local (weather_data.cols r)); cbn in E;
      try discriminate.
    apply String.eqb_eq in E. congruence.
  - rewrite E. cbn. apply String.eqb_refl.
Qed.

Lemma has_stamp_kept ts t t' added :
  weather_data.rows t' = weather_data.rows t ++ added ->
  has_stamp ts t -> has_stamp ts t'.
Proof.
  intros E (r & I & S). exists r. split; [|exact S].
  rewrite E. apply in_or_app. left. exact I.
Qed.

(** After the batch, every text timestamp of the batch is in the table. *)
Lemma store_each_has_stamps vs : forall t v ts,
  In v vs ->
  weather_data.obs_time_local v = SqlText ts ->
  has_stamp ts (store_each t vs).
Proof.
  induction vs as [|x vs IH]; intros t v ts I S; [contradiction|].
  cbn. destruct I as [->|I].
  - destruct (insert_row v t) as [t'|e] eqn:E.
    + destruct (store_each_keeps vs t') as (added & Ha).
      eapply has_stamp_kept; [exact Ha|].
      apply insert_row_appends in E. destruct E as (_ & E).
      exists (weather_data.mkrow (weather_data.sqlite_sequence t + 1) v).
      split; [|exact S]. rewrite E. apply in_or_app. right. left. reflexivity.
    + destruct (store_each_keeps vs t) as (added & Ha).
      eapply has_stamp_kept; [exact Ha|].
      apply (unique_violation_stamp v t ts S).
      unfold insert_row in E. destruct (unique_violation v t); congruence.
  - destruct (insert_row x t); eapply IH; eauto.
Qed.

(** A batch whose timestamps are all in the table changes nothing. *)
Lemma store_each_present vs : forall t,
  Forall (fun v => unique_violation v t = true) vs ->
  store_each t vs = t.
Proof.
  induction vs as [|v vs IH]; intros t F; inversion F; subst; cbn.
  - reflexivity.
  - unfold insert_row. rewrite H1. apply IH. assumption.
Qed.

Lemma store_each_idempotent vs t :
  Forall (fun v => exists ts, weather_data.obs_time_local v = SqlText ts) vs ->
  store_each (store_each t vs) vs = store_each t vs.
Proof.
  intro F. apply store_each_present.
  rewrite Forall_forall in *. intros v I.
  destruct (F v I) as (ts & S).
  apply (unique_violation_stamp v _ ts S).
  eapply store_each_has_stamps; eauto.
Qed.

Lemma unique_stamps_app rows1 rows2 :
  unique_stamps (rows1 ++ rows2)
  <-> unique_stamps rows1 /\ unique_stamps rows2
      /\ Forall (fun r => unique_violation (weather_data.cols r)
                            (weather_data.mktable rows2 0) = false) rows1.
Proof.
  induction rows1 as [|r rows1 IH]; cbn [app unique_stamps].
  - intuition.
  - rewrite IH, (unique_violation_app _ rows1 rows2 0 0 0), orb_false_iff.
    split.
    + intros ((A & B) & C & D & E). repeat split; auto.
    + intros ((A & B) & C & D). inversion D; subst. repeat split; auto.
Qed.

Lemma sql_eqb_sym a b : sql_eqb a b = sql_eqb b a.
Proof.
  destruct a, b; cbn; auto using String.eqb_sym.
  destruct (Qeq_bool q q0) eqn:E, (Qeq_bool q0 q) eqn:F; auto.
  - apply Qeq_bool_iff in E. symmetry in E. apply Qeq_bool_iff in E. congruence.
  - apply Qeq_bool_iff in F. symmetry in F. apply Qeq_bool_iff in F. congruence.
Qed.

Lemma insert_row_unique v t t' :
  insert_row v t = Ok t' ->
  unique_stamps (weather_data.rows t) -> unique_stamps (weather_data.rows t').
Proof.
  intros E U. apply insert_row_appends in E. destruct E as (N & ->).
  apply unique_stamps_app. split; [exact U|]. split.
  - cbn. auto.
  - apply Forall_forall. intros r I. unfold unique_violation. cbn.
    rewrite orb_false_r, sql_eqb_sym.
    unfold unique_violation in N.
    destruct (sql_eqb _ _) eqn:Q; [|reflexivity].
    assert (X : existsb
                  (fun r0 => sql_eqb (weather_data.obs_time_local
                                        (weather_data.cols r0))
                               (weather_data.obs_time_local v))
                  (weather_data.rows t) = true).
    { apply existsb_exists. exists r. split; [exact I|exact Q]. }
    congruence.
Qed.

Lemma store_each_unique vs : forall t,
  unique_stamps (weather_data.rows t) ->
  unique_stamps (weather_data.rows (store_each t vs)).
Proof.
  induction vs as [|v vs IH]; intros t U; cbn; [exact U|].
  destruct (insert_row v t) as [t'|e] eqn:E.
  - apply IH. eapply insert_row_unique; eauto.
  - apply IH. exact U.
Qed.

(** ** From the observation to its row *)

(** The rows a batch adds carry timestamps the table did not hold. *)
Lemma store_each_added vs : forall t,
  exists added,
    weather_data.rows (store_each t vs) = weather_data.rows t ++ added
    /\ Forall (fun r => unique_violation (weather_data.cols r) t = false)
         added.
Proof.
  induction vs as [|v vs IH]; intro t; cbn [store_each].
  - exists []. rewrite app_nil_r. split; [reflexivity|constructor].
  - destruct (insert_row v t) as [t'|e] eqn:E; [|apply IH].
    destruct (insert_row_appends _ _ _ E) as (U & R).
    destruct (IH t') as (added & Ra & Fa).
    exists (weather_data.mkrow (weather_data.sqlite_sequence t + 1) v
            :: added).
    split.
    + rewrite Ra, R, <- app_assoc. reflexivity.
    + constructor; [exact U|].
      eapply Forall_impl; [|exact Fa]. intros r H.
      destruct t' as [rows' seq']. cbn [weather_data.rows] in R. subst rows'.
      rewrite (unique_violation_app _ _ _ (weather_data.sqlite_sequence t) 0)
        in H.
      apply orb_false_iff in H. destruct H as (H & _).
      destruct t as [rows0 seq0]. exact H.
Qed.

Lemma scalar_binds x : scalar x -> exists v, bind_param x = Ok v.
Proof.
  intros [->|(q & ->)]; eexists; reflexivity.
Qed.

Lemma valid_raw_row obs :
  valid_raw obs ->
  exists v ts,
    row_of obs = Ok v
    /\ getitem obs "obsTimeLocal" = Ok (PyStr ts)
    /\ weather_data.obs_time_local v = SqlText ts.
Proof.
  intros ((sid & Hs) & (ts & Ht) & (hx & Hh & Sh) & F).
  unfold api_keys in F.
  repeat match goal with
         | H : Forall _ (_ :: _) |- _ =>
             let x := fresh "x" in
             let G := fresh "G" in
             let S := fresh "S" in
             let F' := fresh "F" in
             apply Forall_cons_iff in H; destruct H as ((x & G & S) & F')
         end.
  unfold row_of, WeatherDB.insert_tuple.
  rewrite Hs, Ht, Hh, G, G0, G1, G2, G3, G4, G5, G6, G7, G8, G9.
  cbn [rbind bind_values bind_param].
  destruct (scalar_binds _ Sh) as (vh & ->).
  destruct (scalar_binds _ S) as (v1 & ->).
  destruct (scalar_binds _ S0) as (v2 & ->).
  destruct (scalar_binds _ S1) as (v3 & ->).
  destruct (scalar_binds _ S2) as (v4 & ->).
  destruct (scalar_binds _ S3) as (v5 & ->).
  destruct (scalar_binds _ S4) as (v6 & ->).
  destruct (scalar_binds _ S5) as (v7 & ->).
  destruct (scalar_binds _ S6) as (v8 & ->).
  destruct (scalar_binds _ S7) as (v9 & ->).
  destruct (scalar_binds _ S8) as (v10 & ->).
  destruct (scalar_binds _ S9) as (v11 & ->).
  cbn [rbind]. eexists. exists ts. repeat split; reflexivity.
Qed.

Lemma valid_batch_rows batch :
  Forall valid_raw batch ->
  exists vs,
    Forall2 (fun obs v => row_of obs = Ok v) batch vs
    /\ Forall (fun v => exists ts, weather_data.obs_time_local v = SqlText ts) vs
    /\ forall obs ts,
         In obs batch -> getitem obs "obsTimeLocal" = Ok (PyStr ts) ->
         exists v, In v vs /\ weather_data.obs_time_local v = SqlText ts.
Proof.
  induction batch as [|obs batch IH]; intro F; inversion F; subst.
  - exists []. repeat split; auto. intros ? ? [].
  - destruct (IH H2) as (vs & F2 & Fs & Hin).
    destruct (valid_raw_row obs H1) as (v & ts & R & G & S).
    exists (v :: vs). repeat split.
    + constructor; assumption.
    + constructor; [eauto|assumption].
    + intros o ts' [<-|I] G'.
      * exists v. split; [left; reflexivity|]. congruence.
      * destruct (Hin o ts' I G') as (v' & I' & S').
        exists v'. split; [right; assumption|assumption].
Qed.

(** ** The loop with its exception handler *)

Lemma insert_each_rows batch : forall vs t w,
  Forall2 (fun obs v => row_of obs = Ok v) batch vs ->
  exists w',
    WeatherDB.insert_each (Some t) batch w = (Ok (Some (store_each t vs)), w')
    /\ disk w' = disk w
    /\ requests_of (trace w') = requests_of (trace w).
Proof.
  induction batch as [|obs batch IH]; intros vs t w F; inversion F; subst.
  - exists w. repeat split.
  - rename y into v. rename H1 into R.
    unfold row_of in R. apply rbind_ok in R. destruct R as (params & P & B).
    cbn [WeatherDB.insert_each store_each].
    unfold bind, lift. rewrite P. unfold execute. cbn [rbind]. rewrite B.
    cbn [rbind].
    assert (Q : forall e, requests_of (trace (log (EvExecute e) w))
                          = requests_of (trace w)).
    { intro e. cbn. clear. induction (trace w) as [|x l IHl]; cbn; auto.
      destruct x; cbn; congruence. }
    destruct (insert_row v t) as [t'|e] eqn:E.
    + destruct (IH l' t' (log (EvExecute (InsertInto params)) w) H3)
        as (w' & Hw & Hd & Hr).
      exists w'. rewrite Hw, Hd, Hr, Q. repeat split.
    + apply insert_row_raises in E. subst e.
      destruct (IH l' t (log (EvExecute (InsertInto params)) w) H3)
        as (w' & Hw & Hd & Hr).
      exists w'. rewrite Hw, Hd, Hr, Q. repeat split.
Qed.

Lemma insert_observations_rows batch vs t w :
  disk w = DbFile (Some t) ->
  Forall2 (fun obs v => row_of obs = Ok v) batch vs ->
  exists w',
    WeatherDB.insert_observations batch w = (Ok tt, w')
    /\ disk w' = DbFile (Some (store_each t vs)).
Proof.
  intros D F. unfold WeatherDB.insert_observations, bind, connect. rewrite D.
  destruct (insert_each_rows batch vs t (log EvConnect w) F)
    as (w' & Hw & Hd & _).
  rewrite Hw. cbn. eexists. split; reflexivity.
Qed.
(** C2, as amended.  On a store that holds the table, a valid batch is
    inserted without failure, and inserting it once more changes
    nothing.  The key is the timestamp alone: the rows held before are
    kept as they were written, the rows added carry timestamps the
    table did not hold, whatever the station, the timestamp of every
    item of the batch is held afterwards, the column stays unique, and
    the table is what the item-by-item, skip-on-collision insert on
    that key gives. *)
Theorem insert_observations_idempotent batch tbl w :
  disk w = DbFile (Some tbl) ->
  Forall valid_raw batch ->
  exists tbl1 w1 w2,
    WeatherDB.insert_observations batch w = (Ok tt, w1)
    /\ disk w1 = DbFile (Some tbl1)
    /\ WeatherDB.insert_observations batch w1 = (Ok tt, w2)
    /\ disk w2 = DbFile (Some tbl1)
    /\ (exists added,
          weather_data.rows tbl1 = weather_data.rows tbl ++ added
          /\ Forall
               (fun r =>
                  forall ts,
                    weather_data.obs_time_local (weather_data.cols r)
                    = SqlText ts ->
                    ~ has_stamp ts tbl)
               added)
    /\ (forall obs ts,
          In obs batch -> getitem obs "obsTimeLocal" = Ok (PyStr ts) ->
          has_stamp ts tbl1)
    /\ (unique_stamps (weather_data.rows tbl) ->
        unique_stamps (weather_data.rows tbl1))
    /\ (forall vs,
          Forall2 (fun obs v => row_of obs = Ok v) batch vs ->
          tbl1 = store_each tbl vs).
Proof.
  intros D V.
  destruct (valid_batch_rows batch V) as (vs & F & T & Hin).
  destruct (insert_observations_rows batch vs tbl w D F) as (w1 & R1 & D1).
  destruct (insert_observations_rows batch vs _ w1 D1 F) as (w2 & R2 & D2).
  rewrite (store_each_idempotent vs tbl T) in D2.
  exists (store_each tbl vs), w1, w2.
  repeat split; auto.
  - destruct (store_each_added vs tbl) as (added & R & A).
    exists added. split; [exact R|].
    eapply Forall_impl; [|exact A]. intros r U ts S H.
    apply (unique_violation_stamp _ tbl ts S) in H. congruence.
  - intros obs ts I G. destruct (Hin obs ts I G) as (v & Iv & S).
    eapply store_each_has_stamps; eauto.
  - apply store_each_unique.
  - intros vs' F'. f_equal. clear - F F'.
    revert vs vs' F F'. induction batch as [|o b IH]; intros vs vs' F F';
      inversion F; inversion F'; subst; auto.
    f_equal; [congruence|]. eapply IH; eauto.
Qed.

(** A batch of three items, two of them with the same timestamp, on a
    table that holds the third: one row is added, and the second insert
    adds none. *)
Lemma insert_observations_sample_batch :
  exists tbl1 w1 w2,
    WeatherDB.insert_observations sample_batch stocked_store = (Ok tt, w1)
    /\ disk w1 = DbFile (Some tbl1)
    /\ WeatherDB.insert_observations sample_batch w1 = (Ok tt, w2)
    /\ disk w2 = DbFile (Some tbl1)
    /\ List.length (weather_data.rows tbl1) = 2%nat.
Proof.
  assert (V : Forall valid_raw sample_batch).
  { repeat constructor; try (eexists; reflexivity);
      try (eexists; split; [reflexivity|]);
      try (left; reflexivity); try (right; eexists; reflexivity). }
  destruct (insert_observations_idempotent sample_batch stocked_table
              stocked_store eq_refl V)
    as (tbl1 & w1 & w2 & R1 & D1 & R2 & D2 & _).
  exists tbl1, w1, w2. repeat split; auto.
  vm_compute in R1. injection R1 as <-.
  cbn in D1. injection D1 as <-. reflexivity.
Defined.

(** C2 as stated fails for the key of the claim, the pair of station
    and timestamp.  Two stations report the same hour: the batch is
    valid, the two pairs differ and neither is in the table, and the
    item of the second station is skipped. *)
Lemma insert_observations_second_station_skipped :
  Forall valid_raw other_station_batch
  /\ map (fun obs => (getitem obs "stationID", getitem obs "obsTimeLocal"))
       other_station_batch
     = [(Ok (PyStr "KCODENVE1"), Ok (PyStr "2024-03-04 09:00:00"));
        (Ok (PyStr "KCOBOULD2"), Ok (PyStr "2024-03-04 09:00:00"))]
  /\ weather_data.rows (table_of (disk empty_store)) = []
  /\ exists w1,
       WeatherDB.insert_observations other_station_batch empty_store
       = (Ok tt, w1)
       /\ map (fun r => weather_data.station_id (weather_data.cols r))
            (weather_data.rows (table_of (disk w1)))
          = [SqlText "KCODENVE1"].
Proof.
  split.
  { repeat constructor; try (eexists; reflexivity);
      try (eexists; split; [reflexivity|]);
      try (left; reflexivity); try (right; eexists; reflexivity). }
  split; [reflexivity|]. split; [reflexivity|].
  eexists. split; vm_compute; reflexivity.
Qed.

(* ================================================================== *)
(** * Text order and timestamps *)

Lemma ascii_compare_trans_le a b c :
  Ascii.compare a b <> Gt -> Ascii.compare b c <> Gt ->
  Ascii.compare a c <> Gt
  /\ (Ascii.compare a c = Eq ->
      Ascii.compare a b = Eq /\ Ascii.compare b c = Eq).
Proof.
  unfold Ascii.compare.
  destruct (N.compare_spec (N_of_ascii a) (N_of_ascii b));
    destruct (N.compare_spec (N_of_ascii b) (N_of_ascii c));
    destruct (N.compare_spec (N_of_ascii a) (N_of_ascii c));
    intros H2 H3; (split; [|intros E; split]);
    first [congruence | exfalso; lia].
Qed.

Lemma string_compare_trans_le a : forall b c,
  String.compare a b <> Gt -> String.compare b c <> Gt ->
  String.compare a c <> Gt.
Proof.
  induction a as [|x a IH]; intros [|y b] [|z c]; cbn; try congruence.
  intros H1 H2.
  destruct (ascii_compare_trans_le x y z) as (L & E).
  - destruct (Ascii.compare x y); congruence.
  - destruct (Ascii.compare y z); congruence.
  - destruct (Ascii.compare x z) eqn:C; try congruence.
    destruct (E eq_refl) as (E1 & E2). rewrite E1 in H1. rewrite E2 in H2.
    eauto.
Qed.

Lemma string_leb_iff a b : String.leb a b = true <-> String.compare a b <> Gt.
Proof.
  unfold String.leb. destruct (String.compare a b); split; congruence.
Qed.

Lemma string_ltb_iff a b : String.ltb a b = true <-> String.compare a b = Lt.
Proof.
  unfold String.ltb. destruct (String.compare a b); split; congruence.
Qed.

Lemma string_leb_trans a b c :
  String.leb a b = true -> String.leb b c = true -> String.leb a c = true.
Proof.
  rewrite !string_leb_iff. apply string_compare_trans_le.
Qed.

Lemma sql_leb_total a b : sql_leb a b = true \/ sql_leb b a = true.
Proof.
  destruct a as [|p|s], b as [|q|t]; cbn; auto.
  - destruct (Qlt_le_dec q p) as [L|L].
    + right. apply Qle_bool_iff. apply Qlt_le_weak. exact L.
    + left. apply Qle_bool_iff. exact L.
  - apply String.leb_total.
Qed.

Lemma sql_leb_trans a b c :
  sql_leb a b = true -> sql_leb b c = true -> sql_leb a c = true.
Proof.
  destruct a as [|p|s], b as [|q|t], c as [|r|u]; cbn; try congruence.
  - rewrite !Qle_bool_iff. apply Qle_trans.
  - apply string_leb_trans.
Qed.

(** ** Sorting *)

Lemma insert_sorted_perm v l : Permutation (insert_sorted v l) (v :: l).
Proof.
  induction l as [|x l IH]; cbn.
  - reflexivity.
  - destruct (sql_leb _ _).
    + reflexivity.
    + rewrite IH. apply perm_swap.
Qed.

Lemma order_by_perm l : Permutation (order_by_obs_time_local l) l.
Proof.
  induction l as [|x l IH]; cbn.
  - reflexivity.
  - rewrite insert_sorted_perm. constructor. exact IH.
Qed.

Lemma insert_sorted_sorted v l :
  StronglySorted stamp_le l -> StronglySorted stamp_le (insert_sorted v l).
Proof.
  induction l as [|x l IH]; intro S; cbn.
  - repeat constructor.
  - apply StronglySorted_inv in S. destruct S as (S & F).
    destruct (sql_leb (weather_data.obs_time_local v)
                (weather_data.obs_time_local x)) eqn:E.
    + constructor; [constructor; assumption|].
      constructor; [exact E|].
      eapply Forall_impl; [|exact F].
      intros y Hy. unfold stamp_le in *. eapply sql_leb_trans; eauto.
    + constructor; [apply IH; exact S|].
      assert (X : stamp_le x v).
      { unfold stamp_le.
        destruct (sql_leb_total (weather_data.obs_time_local v)
                    (weather_data.obs_time_local x)); congruence. }
      eapply Permutation_Forall; [symmetry; apply insert_sorted_perm|].
      constructor; assumption.
Qed.

Lemma order_by_sorted l : StronglySorted stamp_le (order_by_obs_time_local l).
Proof.
  induction l as [|x l IH]; cbn.
  - constructor.
  - apply insert_sorted_sorted. exact IH.
Qed.

(** ** Fixed-width decimal fields compare as their numbers *)

Lemma string_compare_app a : forall b c d,
  String.length a = String.length b ->
  String.compare (a ++ c) (b ++ d)
  = match String.compare a b with
    | Eq => String.compare c d
    | o => o
    end.
Proof.
  induction a as [|x a IH]; intros [|y b] c d L; cbn in *; try discriminate.
  - reflexivity.
  - destruct (Ascii.compare x y); auto.
Qed.

Lemma digit_char_compare a b :
  0 <= a < 10 -> 0 <= b < 10 ->
  Ascii.compare (digit_char a) (digit_char b) = (a ?= b).
Proof.
  intros Ha Hb. unfold Ascii.compare, digit_char.
  rewrite !N_ascii_embedding.
  - rewrite Z.mod_small, Z.mod_small by lia.
    rewrite Z2N.inj_compare by lia. apply Z.add_compare_mono_l.
  - rewrite Z.mod_small by lia. lia.
  - rewrite Z.mod_small by lia. lia.
Qed.

Lemma compare_by_digits x y :
  (x ?= y)
  = match x / 10 ?= y / 10 with
    | Eq => x mod 10 ?= y mod 10
    | c => c
    end.
Proof.
  destruct (Z.compare_spec (x / 10) (y / 10));
    destruct (Z.compare_spec (x mod 10) (y mod 10));
    destruct (Z.compare_spec x y);
    try reflexivity; exfalso;
    Z.to_euclidean_division_equations; lia.
Qed.

Lemma compare_by_hundreds x y :
  (x ?= y)
  = match x / 100 ?= y / 100 with
    | Eq => x mod 100 ?= y mod 100
    | c => c
    end.
Proof.
  destruct (Z.compare_spec (x / 100) (y / 100));
    destruct (Z.compare_spec (x mod 100) (y mod 100));
    destruct (Z.compare_spec x y);
    try reflexivity; exfalso;
    Z.to_euclidean_division_equations; lia.
Qed.

Lemma digit_char_mod d : digit_char (d mod 10) = digit_char d.
Proof. unfold digit_char. rewrite Z.mod_mod by lia. reflexivity. Qed.

Lemma pad2_compare x y :
  0 <= x < 100 -> 0 <= y < 100 ->
  String.compare (pad2 x) (pad2 y) = (x ?= y).
Proof.
  intros Hx Hy. unfold pad2. cbn [String.compare].
  rewrite <- (digit_char_mod x), <- (digit_char_mod y).
  rewrite !digit_char_compare
    by (Z.to_euclidean_division_equations; lia).
  rewrite (compare_by_digits x y).
  destruct (x / 10 ?= y / 10); auto.
  destruct (x mod 10 ?= y mod 10); auto.
Qed.

Lemma pad4_split x :
  pad4 x = (pad2 (x / 100) ++ pad2 (x mod 100))%string.
Proof.
  unfold pad4, pad2. cbn [String.append].
  assert (D : forall a b, a mod 10 = b mod 10 -> digit_char a = digit_char b).
  { intros a b E. unfold digit_char. rewrite E. reflexivity. }
  rewrite (D (x / 1000) (x / 100 / 10)), (D (x / 10) (x mod 100 / 10)),
    (D x (x mod 100));
    [reflexivity|..]; Z.to_euclidean_division_equations; lia.
Qed.

Lemma pad4_compare x y :
  0 <= x < 10000 -> 0 <= y < 10000 ->
  String.compare (pad4 x) (pad4 y) = (x ?= y).
Proof.
  intros Hx Hy. rewrite !pad4_split.
  rewrite string_compare_app by reflexivity.
  rewrite !pad2_compare by (Z.to_euclidean_division_equations; lia).
  symmetry. apply compare_by_hundreds.
Qed.

Lemma days_in_month_le y m : days_in_month y m <= 31.
Proof.
  unfold days_in_month. destruct m as [|p|p]; [lia| |lia].
  repeat (destruct p as [p|p|]; cbn; try (destruct (is_leap y)); try lia).
Qed.

Lemma valid_date_bounds d :
  valid_date d = true ->
  1 <= year d <= 9999 /\ 1 <= month d <= 12
  /\ 1 <= day d <= days_in_month (year d) (month d) /\ day d <= 31.
Proof.
  unfold valid_date, MINYEAR, MAXYEAR. rewrite !andb_true_iff, !Z.leb_le.
  intros (((((A & B) & C) & D) & E) & F).
  pose proof (days_in_month_le (year d) (month d)). lia.
Qed.

Lemma valid_time_bounds h m s :
  valid_time h m s = true -> 0 <= h <= 23 /\ 0 <= m <= 59 /\ 0 <= s <= 59.
Proof.
  unfold valid_time. rewrite !andb_true_iff, !Z.leb_le. tauto.
Qed.

Lemma strftime_iso_compare a b :
  valid_date a = true -> valid_date b = true ->
  String.compare (strftime_iso a) (strftime_iso b) = date_compare a b.
Proof.
  intros Va Vb.
  apply valid_date_bounds in Va. apply valid_date_bounds in Vb.
  unfold strftime_iso, date_compare.
  rewrite string_compare_app by reflexivity.
  rewrite pad4_compare by lia.
  destruct (year a ?= year b); auto.
  cbn [String.append String.compare]. cbn [Ascii.compare N_of_ascii N_of_digits N.compare N.add N.mul].
  change (Ascii.compare "-" "-") with Eq. cbv iota.
  rewrite string_compare_app by reflexivity.
  rewrite pad2_compare by lia.
  destruct (month a ?= month b); auto.
  cbn [String.append String.compare].
  change (Ascii.compare "-" "-") with Eq. cbv iota.
  apply pad2_compare; lia.
Qed.

Lemma strftime_stamp_compare a b :
  valid_datetime a = true -> valid_datetime b = true ->
  String.compare (strftime_stamp a) (strftime_stamp b) = time_compare a b.
Proof.
  unfold valid_datetime. rewrite !andb_true_iff.
  intros (Da & Ta) (Db & Tb).
  apply valid_time_bounds in Ta. apply valid_time_bounds in Tb.
  unfold strftime_stamp, time_compare.
  rewrite string_compare_app.
  2:{ unfold strftime_iso. reflexivity. }
  rewrite strftime_iso_compare by assumption.
  destruct (date_compare (dt_date a) (dt_date b)); auto.
  cbn [String.append String.compare].
  change (Ascii.compare " " " ") with Eq. cbv iota.
  rewrite string_compare_app by reflexivity.
  rewrite pad2_compare by lia.
  destruct (hour a ?= hour b); auto.
  cbn [String.append String.compare].
  change (Ascii.compare ":" ":") with Eq. cbv iota.
  rewrite string_compare_app by reflexivity.
  rewrite pad2_compare by lia.
  destruct (minute a ?= minute b); auto.
  cbn [String.append String.compare].
  change (Ascii.compare ":" ":") with Eq. cbv iota.
  apply pad2_compare; lia.
Qed.

Lemma strftime_midnight_stamp d :
  strftime_midnight d = strftime_stamp (midnight d).
Proof. reflexivity. Qed.

(* ================================================================== *)
(** * Parsing what [strftime] writes *)

Lemma digit_of_digit_char a : digit_of (digit_char a) = Some (a mod 10).
Proof.
  unfold digit_of, digit_char.
  pose proof (Z.mod_pos_bound a 10 ltac:(lia)) as B.
  rewrite N_ascii_embedding by lia.
  rewrite Z2N.id by lia.
  assert (E : (48 <=? 48 + a mod 10) && (48 + a mod 10 <=? 57) = true).
  { apply andb_true_iff. split; apply Z.leb_le; lia. }
  rewrite E. f_equal. lia.
Qed.

Lemma p_digit_digit_char a rest :
  p_digit 0 9 (String (digit_char a) rest) = [(a mod 10, rest)].
Proof.
  unfold p_digit. rewrite digit_of_digit_char.
  pose proof (Z.mod_pos_bound a 10 ltac:(lia)) as B.
  assert (E : (0 <=? a mod 10) && (a mod 10 <=? 9) = true).
  { apply andb_true_iff. split; apply Z.leb_le; lia. }
  rewrite E. reflexivity.
Qed.

Lemma tok_Y_pad4 {A} y rest (k : Z -> parser A) :
  0 <= y <= 9999 ->
  p_bind tok_Y k (pad4 y ++ rest)%string = k y rest.
Proof.
  intro B. unfold tok_Y, pad4, p_bind, p_ret. cbn [String.append].
  rewrite !p_digit_digit_char. cbn [flat_map fst snd app].
  rewrite !p_digit_digit_char. cbn [flat_map fst snd app].
  rewrite !p_digit_digit_char. cbn [flat_map fst snd app].
  rewrite !p_digit_digit_char. cbn [flat_map fst snd app].
  rewrite !app_nil_r.
  replace (1000 * ((y / 1000) mod 10) + 100 * ((y / 100) mod 10)
           + 10 * ((y / 10) mod 10) + y mod 10) with y
    by (Z.to_euclidean_division_equations; lia).
  reflexivity.
Qed.

Lemma small_cases (P : Z -> Prop) n :
  (forall i, (i < n)%nat -> P (1 + Z.of_nat i)) ->
  forall z, 1 <= z <= Z.of_nat n -> P z.
Proof.
  intros H z B. replace z with (1 + Z.of_nat (Z.to_nat (z - 1))) by lia.
  apply H. lia.
Qed.

(** The month field and the dash after it. *)
Lemma tok_m_pad2 {A} m rest (k : Z -> parser A) :
  1 <= m <= 12 ->
  p_bind tok_m (fun m' => p_bind (p_char "-") (fun _ => k m'))
    (pad2 m ++ String "-" rest)%string
  = k m rest.
Proof.
  revert m. apply (small_cases _ 12). intros i Hi.
  do 12 (destruct i as [|i]; [cbn; rewrite ?app_nil_r; reflexivity|]).
  lia.
Qed.

(** The day field at the end of the text: the first match is the day,
    with nothing left over. *)
Lemma tok_d_pad2 d :
  1 <= d <= 31 ->
  exists others, tok_d (pad2 d) = (d, EmptyString) :: others.
Proof.
  revert d. apply (small_cases _ 31). intros i Hi.
  do 31 (destruct i as [|i]; [cbn; eexists; reflexivity|]).
  lia.
Qed.

(** Every valid date is read back from its ISO form. *)
Lemma strptime_date_strftime_iso d :
  valid_date d = true -> strptime_date (strftime_iso d) = Ok (midnight d).
Proof.
  intro V. pose proof (valid_date_bounds d V) as B.
  unfold strptime_date, full_match, re_date, strftime_iso.
  rewrite tok_Y_pad4 by lia.
  unfold p_bind at 1. cbn [String.append p_char Ascii.eqb Bool.eqb].
  cbn [flat_map fst snd]. rewrite app_nil_r.
  rewrite (tok_m_pad2 (month d) (pad2 (day d))
             (fun m : Z => p_bind tok_d (fun d0 : Z => p_ret (year d, m, d0))))
    by lia.
  unfold p_bind.
  destruct (tok_d_pad2 (day d)) as (others & ->); [lia|].
  cbn [flat_map fst snd p_ret app rbind].
  unfold make_datetime. destruct d as [y m dd]. cbn [year month day] in *.
  rewrite V. reflexivity.
Qed.

(* ================================================================== *)
(** * The store: querying a day *)

Lemma days_in_month_ge y m : 1 <= m <= 12 -> 28 <= days_in_month y m.
Proof.
  intro H. unfold days_in_month. destruct m as [|p|p]; [lia| |lia].
  repeat (destruct p as [p|p|]; cbn; try (destruct (is_leap y)); try lia).
Qed.

Lemma make_datetime_ok y m d h mi s t :
  make_datetime y m d h mi s = Ok t ->
  t = mkdatetime (mkdate y m d) h mi s /\ valid_datetime t = true.
Proof.
  unfold make_datetime.
  destruct (valid_date (mkdate y m d) && valid_time h mi s) eqn:E;
    [|discriminate].
  intro H. injection H as <-. split; [reflexivity|exact E].
Qed.

Lemma make_datetime_raises y m d h mi s e :
  make_datetime y m d h mi s = Raise e -> e = ValueError.
Proof.
  unfold make_datetime.
  destruct (valid_date (mkdate y m d) && valid_time h mi s); congruence.
Qed.

Lemma full_match_raises {A} (p : parser A) s e :
  full_match p s = Raise e -> e = ValueError.
Proof.
  unfold full_match. destruct (p s) as [|[a [|c r]] l]; congruence.
Qed.

Lemma strptime_date_ok s dt :
  strptime_date s = Ok dt ->
  dt = midnight (dt_date dt) /\ valid_date (dt_date dt) = true.
Proof.
  unfold strptime_date. intro H.
  apply rbind_ok in H. destruct H as ([[y m] d] & _ & H).
  apply make_datetime_ok in H. destruct H as (-> & V).
  split; [reflexivity|].
  unfold valid_datetime in V. apply andb_true_iff in V. apply V.
Qed.

Lemma strptime_date_raises s e : strptime_date s = Raise e -> e = ValueError.
Proof.
  unfold strptime_date.
  destruct (full_match re_date s) as [[[y m] d]|e'] eqn:F; cbn.
  - apply make_datetime_raises.
  - intro H. injection H as <-. eapply full_match_raises; eauto.
Qed.

Lemma next_day_valid d d' :
  valid_date d = true -> next_day d = Ok d' -> valid_date d' = true.
Proof.
  intros V. pose proof (valid_date_bounds d V) as B.
  unfold next_day, MAXYEAR.
  destruct (day d <? days_in_month (year d) (month d)) eqn:E1;
    [|destruct (month d <? 12) eqn:E2; [|destruct (year d <? 9999) eqn:E3]];
    intro H; inversion H; subst; clear H;
    unfold valid_date, MINYEAR, MAXYEAR; cbn [year month day];
    rewrite ?Z.ltb_lt, ?Z.ltb_ge in *;
    rewrite !andb_true_iff, !Z.leb_le.
  - lia.
  - pose proof (days_in_month_ge (year d) (month d + 1)). lia.
  - pose proof (days_in_month_ge (year d + 1) 1). lia.
Qed.

Lemma valid_midnight d : valid_date d = true -> valid_datetime (midnight d) = true.
Proof. intro V. unfold valid_datetime. cbn. rewrite V. reflexivity. Qed.

(** For a row stamped as the provider stamps it, the text comparison of
    the query is the comparison of moments. *)
Lemma in_range_between lo hi v t :
  valid_date lo = true -> valid_date hi = true -> stamped v t ->
  in_range (strftime_midnight lo) (strftime_midnight hi) v = true
  <-> between (midnight lo) (midnight hi) t.
Proof.
  intros Vl Vh (Vt & S). unfold in_range, between. rewrite S.
  unfold sql_ge_text, sql_lt_text.
  rewrite andb_true_iff, string_leb_iff, string_ltb_iff.
  rewrite !strftime_midnight_stamp.
  rewrite !strftime_stamp_compare by auto using valid_midnight.
  reflexivity.
Qed.

Lemma stamp_le_not_later a b : stamp_le a b -> not_later a b.
Proof.
  intros L ta tb (Va & Sa) (Vb & Sb). unfold stamp_le in L.
  rewrite Sa, Sb in L. unfold sql_leb in L. apply string_leb_iff in L.
  rewrite strftime_stamp_compare in L by assumption. exact L.
Qed.

Lemma StronglySorted_weaken {A} (R R' : A -> A -> Prop) l :
  (forall a b, R a b -> R' a b) ->
  StronglySorted R l -> StronglySorted R' l.
Proof.
  intros W S. induction S as [|a l S IH F]; constructor; auto.
  eapply Forall_impl; [|exact F]. auto.
Qed.

Lemma requests_of_app t1 t2 :
  requests_of (t1 ++ t2) = requests_of t1 ++ requests_of t2.
Proof.
  induction t1 as [|e t1 IH]; cbn; [reflexivity|].
  destruct e; cbn; rewrite IH; reflexivity.
Qed.

(** C3.  For a date [d] with a next day and a store that holds the
    table, [query_by_date] returns, without error, the stored
    observations whose timestamp text lies between [d 00:00:00]
    (included) and [d+1 00:00:00] (excluded), each once, in ascending
    order of the timestamp; for rows stamped [YYYY-MM-DD HH:MM:SS] these
    are the rows whose moment lies in that half-open interval, in the
    order of their moments; with no such row the result is the empty
    list.  Every valid date is the date of some string, its ISO form
    ([strptime_date_strftime_iso]). *)
Theorem query_by_date_interval date_str dt next tbl w :
  disk w = DbFile (Some tbl) ->
  strptime_date date_str = Ok dt ->
  next_day (dt_date dt) = Ok next ->
  let stored := map weather_data.cols (weather_data.rows tbl) in
  let start_ts := strftime_midnight (dt_date dt) in
  let end_ts := strftime_midnight next in
  exists selected w',
    WeatherDB.query_by_date date_str w
    = (Ok (map WeatherDB.observation_of_row selected), w')
    /\ disk w' = disk w
    /\ Permutation selected (filter (in_range start_ts end_ts) stored)
    /\ (forall v t,
          stamped v t ->
          In v selected
          <-> In v stored /\ between (midnight (dt_date dt)) (midnight next) t)
    /\ StronglySorted stamp_le selected
    /\ StronglySorted not_later selected
    /\ (filter (in_range start_ts end_ts) stored = [] -> selected = []).
Proof.
  intros D P N stored start_ts end_ts.
  destruct (strptime_date_ok _ _ P) as (_ & V).
  pose proof (next_day_valid _ _ V N) as V'.
  exists (select_between start_ts end_ts tbl). eexists.
  split.
  { unfold WeatherDB.query_by_date, bind, connect, lift. rewrite D, P, N.
    cbn. reflexivity. }
  assert (Pm : Permutation (select_between start_ts end_ts tbl)
                 (filter (in_range start_ts end_ts) stored)).
  { apply order_by_perm. }
  split; [reflexivity|]. split; [exact Pm|]. split; [|split; [|split]].
  - intros v t St. split.
    + intro I. apply (Permutation_in _ Pm) in I.
      apply filter_In in I. destruct I as (I & R). split; [exact I|].
      apply (in_range_between _ _ v t V V' St). exact R.
    + intros (I & B). apply (Permutation_in _ (Permutation_sym Pm)).
      apply filter_In. split; [exact I|].
      apply (in_range_between _ _ v t V V' St). exact B.
  - apply order_by_sorted.
  - eapply StronglySorted_weaken; [apply stamp_le_not_later|].
    apply order_by_sorted.
  - intro E. rewrite E in Pm. apply Permutation_nil.
    apply Permutation_sym. exact Pm.
Qed.

(** The two hours of 4 March 2024 come back in order, the hour of the
    day after and the row without a timestamp do not; a day without rows
    gives the empty list. *)
Lemma query_by_date_march :
  (exists l w',
      WeatherDB.query_by_date "2024-03-04" march_store = (Ok l, w')
      /\ map (fun obs => getitem obs "obsTimeLocal") l
         = [Ok (PyStr "2024-03-04 00:00:00");
            Ok (PyStr "2024-03-04 13:00:00")])
  /\ exists w', WeatherDB.query_by_date "2024-03-07" march_store = (Ok [], w').
Proof.
  split.
  - destruct (query_by_date_interval "2024-03-04"
                (midnight (mkdate 2024 3 4)) (mkdate 2024 3 5)
                march_table march_store eq_refl eq_refl eq_refl)
      as (selected & w' & Q & _).
    exists (map WeatherDB.observation_of_row selected), w'.
    split; [exact Q|].
    run_lhs Q.
    injection Q as Q _. rewrite <- Q. reflexivity.
  - destruct (query_by_date_interval "2024-03-07"
                (midnight (mkdate 2024 3 7)) (mkdate 2024 3 8)
                march_table march_store eq_refl eq_refl eq_refl)
      as (selected & w' & Q & _ & _ & _ & _ & _ & E).
    exists w'. rewrite Q. rewrite (E eq_refl). reflexivity.
Defined.

(* ================================================================== *)
(** * The decorators of [make_api_call] *)

Lemma waited_refl w : waited w w [].
Proof. repeat split. cbn. rewrite app_nil_r. reflexivity. Qed.

Lemma waited_trans w1 w2 w3 s1 s2 :
  waited w1 w2 s1 -> waited w2 w3 s2 -> waited w1 w3 (s1 ++ s2).
Proof.
  intros (A1 & A2 & A3 & A4) (B1 & B2 & B3 & B4).
  repeat split; try congruence.
  rewrite B4, A4, map_app, app_assoc. reflexivity.
Qed.

Lemma requests_of_sleeps sleeps : requests_of (map EvSleep sleeps) = [].
Proof. induction sleeps; cbn; auto. Qed.

Lemma waited_requests w w' sleeps :
  waited w w' sleeps -> requests_of (trace w') = requests_of (trace w).
Proof.
  intros (_ & _ & _ & T). rewrite T, requests_of_app, requests_of_sleeps.
  apply app_nil_r.
Qed.

(** One pass through [limits]: the call goes through, or it is rejected
    with the time that remains. *)
Lemma limits_cases {A} (f : M A) w :
  exists w',
    waited w w' []
    /\ monotonic w' = monotonic w
    /\ entropy w' = entropy w
    /\ draws w' = draws w
    /\ ((limits 30 60 f w = f w'
         /\ (Qle_bool (period_remaining w) 0 = true \/ num_calls w < 30))
        \/ (limits 30 60 f w
            = (Raise (RateLimitException (period_remaining w)), w')
            /\ Qle_bool (period_remaining w) 0 = false
            /\ last_reset w' = last_reset w
            /\ num_calls w' = num_calls w + 1
            /\ 30 <= num_calls w)).
Proof.
  unfold limits. fold (period_remaining w).
  destruct (Qle_bool (period_remaining w) 0) eqn:E.
  - eexists. split; [|split; [|split; [|split]]].
    5:{ left. cbn. split; [reflexivity|left; reflexivity]. }
    all: try reflexivity.
    all: repeat split; cbn; rewrite ?app_nil_r; reflexivity.
  - cbn [num_calls last_reset set_limiter].
    destruct (30 <? num_calls w + 1) eqn:L.
    + eexists. split; [|split; [|split; [|split]]].
      5:{ right. repeat split. apply Z.ltb_lt in L. lia. }
      all: try reflexivity.
    all: repeat split; cbn; rewrite ?app_nil_r; reflexivity.
    + eexists. split; [|split; [|split; [|split]]].
      5:{ left. split; [reflexivity|]. right. apply Z.ltb_ge in L. lia. }
      all: try reflexivity.
    all: repeat split; cbn; rewrite ?app_nil_r; reflexivity.
Qed.

Lemma clamp01_range q : (0 <= clamp01 q <= 1)%Q.
Proof.
  unfold clamp01.
  destruct (Qltb q 0) eqn:E1; [split; discriminate|].
  destruct (Qltb 1 q) eqn:E2; [split; discriminate|].
  apply Qltb_false in E1. apply Qltb_false in E2. split; assumption.
Qed.

(** A pause of the backoff: a draw from [[0, v]] is slept. *)
Lemma backoff_pause {A} v (k : M A) w :
  (0 <= v)%Q ->
  exists s w',
    (seconds <- uniform v ;; sleep seconds ;;; k)%io w = k w'
    /\ (0 <= s <= v)%Q
    /\ waited w w' [s]
    /\ monotonic w' = (monotonic w + s)%Q
    /\ last_reset w' = last_reset w
    /\ num_calls w' = num_calls w.
Proof.
  intro V. pose proof (clamp01_range (entropy w (draws w))) as (C0 & C1).
  set (s := (v * clamp01 (entropy w (draws w)))%Q).
  assert (S0 : (0 <= s)%Q) by (apply Qmult_le_0_compat; assumption).
  assert (S1 : (s <= v)%Q).
  { unfold s. nra. }
  exists s. eexists. split.
  - unfold bind, uniform, sleep. fold s.
    cbn [fst snd monotonic set_draws].
    assert (E : Qltb s 0 = false) by (apply Qltb_false; exact S0).
    rewrite E. reflexivity.
  - repeat split; auto.
Qed.

Lemma on_exception_from_passes {A} left n (target : M A) w :
  (forall p w', target w <> (Raise (RateLimitException p), w')) ->
  on_exception_from left n target w = target w.
Proof.
  intro H. destruct left; cbn; destruct (target w) as [[a|e] w'] eqn:E;
    try reflexivity; destruct e; try reflexivity; exfalso; eapply H; eauto.
Qed.

Lemma sleep_and_retry_passes {A} fuel (func : M A) w :
  (forall p w', func w <> (Raise (RateLimitException p), w')) ->
  sleep_and_retry (S fuel) func w = func w.
Proof.
  intro H. cbn. destruct (func w) as [[a|e] w'] eqn:E;
    try reflexivity; destruct e; try reflexivity; exfalso; eapply H; eauto.
Qed.

Lemma Qle_bool_false a b : Qle_bool a b = false -> (b < a)%Q.
Proof.
  intro E. apply Qnot_le_lt. intro L. apply Qle_bool_iff in L. congruence.
Qed.

Lemma on_exception_from_rejected {A} left n (target : M A) w p w1 :
  target w = (Raise (RateLimitException p), w1) ->
  on_exception_from (S left) n target w
  = (seconds <- uniform (inject_Z (2 ^ n)) ;;
     sleep seconds ;;;
     on_exception_from left (n + 1) target)%io w1.
Proof. intro H. cbn. rewrite H. reflexivity. Qed.

Lemma on_exception_from_gives_up {A} n (target : M A) w p w1 :
  target w = (Raise (RateLimitException p), w1) ->
  on_exception_from 0 n target w = (Raise (RateLimitException p), w1).
Proof. intro H. cbn. rewrite H. reflexivity. Qed.

Lemma sleep_and_retry_rejected {A} fuel (func : M A) w p w1 :
  func w = (Raise (RateLimitException p), w1) ->
  (0 <= p)%Q ->
  sleep_and_retry (S fuel) func w
  = sleep_and_retry fuel func
      (log (EvSleep p) (set_monotonic (monotonic w1 + p)%Q w1)).
Proof.
  intros H P. cbn. rewrite H. unfold bind, sleep.
  assert (E : Qltb p 0 = false) by (apply Qltb_false; exact P).
  rewrite E. reflexivity.
Qed.

Lemma pow2_nonneg n : (0 <= inject_Z (2 ^ n))%Q.
Proof.
  change 0%Q with (inject_Z 0). rewrite <- Zle_Qle.
  apply Z.pow_nonneg. lia.
Qed.

(** The decorator stack lets the function run exactly once, after at
    most three sleeps.  When the allowance is used up and more than three
    seconds of the period remain, the limiter rejects three tries, the
    backoff sleeps up to 1 and up to 2 seconds between them, and the
    rest of the period is slept before the function runs. *)
Lemma decorated_runs_once {A} (f : M A) fuel w :
  (2 <= fuel)%nat ->
  no_rate_limit_exception f ->
  exists w' sleeps,
    decorated fuel f w = f w'
    /\ waited w w' sleeps
    /\ (List.length sleeps <= 3)%nat
    /\ (30 <= num_calls w -> (3 < period_remaining w)%Q ->
        exists s1 s2 s3,
          sleeps = [s1; s2; s3]
          /\ (0 <= s1 <= 1)%Q /\ (0 <= s2 <= 2)%Q
          /\ (s3 == period_remaining w - s1 - s2)%Q).
Proof.
  intros F NR. destruct fuel as [|[|fuel]]; try lia. clear F.
  unfold decorated, on_exception. cbn [Nat.pred].
  set (T := limits 30 60 f).
  assert (PT : forall left n w0 w1,
             T w0 = f w1 -> on_exception_from left n T w0 = f w1).
  { intros left n w0 w1 H. rewrite on_exception_from_passes; [exact H|].
    rewrite H. apply NR. }
  assert (PS : forall k w0 w1,
             on_exception_from 2 0 T w0 = f w1 ->
             sleep_and_retry (S k) (on_exception_from 2 0 T) w0 = f w1).
  { intros k w0 w1 H. rewrite sleep_and_retry_passes; [exact H|].
    rewrite H. apply NR. }
  (* the first try *)
  destruct (limits_cases f w)
    as (w1 & W1 & M1 & _ & _ & [(P1 & C1)|(R1 & B1 & L1 & N1 & X1)]).
  { exists w1, []. split; [apply PS, PT, P1|].
    split; [exact W1|]. split; [cbn; lia|].
    intros HB HP. exfalso. destruct C1 as [C|C]; [|lia].
    apply Qle_bool_iff in C. lra. }
  fold T in R1.
  pose proof (on_exception_from_rejected 1 0 T w _ w1 R1) as O1.
  destruct (backoff_pause (inject_Z (2 ^ 0)) (on_exception_from 1 (0 + 1) T) w1)
    as (s1 & w2 & K1 & S1 & W2 & M2 & L2 & N2); [apply pow2_nonneg|].
  rewrite K1 in O1. clear K1.
  change (inject_Z (2 ^ 0)) with 1%Q in S1.
  assert (PR2 : (period_remaining w2 == period_remaining w - s1)%Q).
  { unfold period_remaining. rewrite M2, L2, M1, L1. ring. }
  (* the second try *)
  destruct (limits_cases f w2)
    as (w3 & W3 & M3 & _ & _ & [(P2 & C2)|(R2 & B2 & L3 & N3 & X3)]).
  { exists w3, [s1]. split; [apply PS; rewrite O1; apply PT, P2|].
    split; [apply (waited_trans _ _ _ _ _ (waited_trans _ _ _ _ _ W1 W2) W3)|].
    split; [cbn; lia|].
    intros HB HP. exfalso. destruct C2 as [C|C]; [|lia].
    apply Qle_bool_iff in C. lra. }
  fold T in R2.
  rewrite (on_exception_from_rejected 0 (0 + 1) T w2 _ w3 R2) in O1.
  destruct (backoff_pause (inject_Z (2 ^ (0 + 1)))
              (on_exception_from 0 (0 + 1 + 1) T) w3)
    as (s2 & w4 & K2 & S2 & W4 & M4 & L4 & N4); [apply pow2_nonneg|].
  rewrite K2 in O1. clear K2.
  change (inject_Z (2 ^ (0 + 1))) with 2%Q in S2.
  assert (PR4 : (period_remaining w4 == period_remaining w - s1 - s2)%Q).
  { unfold period_remaining in *. rewrite M4, L4, M3, L3. rewrite <- PR2. ring. }
  (* the third try *)
  destruct (limits_cases f w4)
    as (w5 & W5 & M5 & _ & _ & [(P3 & C3)|(R3 & B3 & L5 & N5 & X5)]).
  { exists w5, [s1; s2]. split; [apply PS; rewrite O1; apply PT, P3|].
    split.
    { apply (waited_trans _ _ _ _ _
               (waited_trans _ _ _ _ _
                  (waited_trans _ _ _ _ _
                     (waited_trans _ _ _ _ _ W1 W2) W3) W4) W5). }
    split; [cbn; lia|].
    intros HB HP. exfalso. destruct C3 as [C|C]; [|lia].
    apply Qle_bool_iff in C. lra. }
  fold T in R3.
  rewrite (on_exception_from_gives_up (0 + 1 + 1) T w4 _ w5 R3) in O1.
  (* the tries are used up: the rest of the period is slept *)
  apply Qle_bool_false in B3.
  rewrite (sleep_and_retry_rejected (S fuel) _ w _ w5 O1)
    by (apply Qlt_le_weak; exact B3).
  set (w6 := log (EvSleep (period_remaining w4))
               (set_monotonic (monotonic w5 + period_remaining w4)%Q w5)).
  assert (W6 : waited w5 w6 [period_remaining w4]) by (repeat split).
  destruct (limits_cases f w6)
    as (w7 & W7 & _ & _ & _ & [(P4 & _)|(_ & B4 & _)]).
  2:{ exfalso. apply Qle_bool_false in B4.
      unfold period_remaining in B4. cbn in B4. rewrite M5, L5 in B4.
      unfold period_remaining in B4. lra. }
  exists w7, [s1; s2; period_remaining w4].
  split; [apply PS, PT, P4|]. split.
  { apply (waited_trans _ _ _ _ _
             (waited_trans _ _ _ _ _
                (waited_trans _ _ _ _ _
                   (waited_trans _ _ _ _ _
                      (waited_trans _ _ _ _ _
                         (waited_trans _ _ _ _ _ W1 W2) W3) W4) W5) W6) W7). }
  split; [cbn; lia|].
  intros _ _. exists s1, s2, (period_remaining w4).
  repeat split; lra.
Qed.

(* ================================================================== *)
(** * The days of a range *)

Lemma date_compare_key a b :
  valid_date a = true -> valid_date b = true ->
  date_compare a b = (date_key a ?= date_key b).
Proof.
  intros Va Vb.
  apply valid_date_bounds in Va. apply valid_date_bounds in Vb.
  unfold date_compare, date_key.
  destruct (Z.compare_spec (year a) (year b));
    destruct (Z.compare_spec (month a) (month b));
    destruct (Z.compare_spec (day a) (day b));
    symmetry;
    first [ apply Z.compare_eq_iff; lia
          | apply Z.compare_lt_iff; lia
          | apply Z.compare_gt_iff; lia ].
Qed.

Lemma date_key_inj a b :
  valid_date a = true -> valid_date b = true ->
  date_key a = date_key b -> a = b.
Proof.
  intros Va Vb E.
  apply valid_date_bounds in Va. apply valid_date_bounds in Vb.
  unfold date_key in E. destruct a, b; cbn in *.
  assert (year0 = year1) by lia. subst.
  assert (month0 = month1) by lia. subst.
  f_equal. lia.
Qed.

Lemma date_leb_key a b :
  valid_date a = true -> valid_date b = true ->
  date_leb a b = true <-> date_key a <= date_key b.
Proof.
  intros Va Vb. unfold date_leb. rewrite (date_compare_key a b Va Vb).
  destruct (Z.compare_spec (date_key a) (date_key b)); split;
    intros; try lia; try reflexivity; discriminate.
Qed.

(** The next day is later, and no day lies in between. *)
Lemma next_day_key d next :
  valid_date d = true -> next_day d = Ok next ->
  date_key d < date_key next
  /\ forall x, valid_date x = true ->
               date_key d < date_key x -> date_key next <= date_key x.
Proof.
  intros V N. pose proof (next_day_valid d next V N) as V'.
  pose proof (valid_date_bounds d V) as B.
  pose proof (valid_date_bounds next V') as B'.
  split.
  - revert N. unfold next_day, date_key, MAXYEAR.
    destruct (day d <? days_in_month (year d) (month d)) eqn:E1;
      [|destruct (month d <? 12) eqn:E2; [|destruct (year d <? 9999) eqn:E3]];
      intro H; inversion H; subst; clear H; cbn [year month day] in *;
      rewrite ?Z.ltb_lt, ?Z.ltb_ge in *; lia.
  - intros x Vx L. pose proof (valid_date_bounds x Vx) as Bx.
    assert (Same : year x = year d -> month x = month d ->
                   day x <= days_in_month (year d) (month d)).
    { intros <- <-. lia. }
    revert N L. unfold next_day, date_key, MAXYEAR.
    destruct (day d <? days_in_month (year d) (month d)) eqn:E1;
      [|destruct (month d <? 12) eqn:E2; [|destruct (year d <? 9999) eqn:E3]];
      intro H; inversion H; subst; clear H; cbn [year month day] in *;
      rewrite ?Z.ltb_lt, ?Z.ltb_ge in *; intro L; lia.
Qed.

Lemma next_day_before_last d stop after :
  valid_date d = true -> valid_date stop = true ->
  date_key d <= date_key stop ->
  next_day stop = Ok after ->
  exists next, next_day d = Ok next.
Proof.
  intros V Vs L N.
  destruct (next_day d) as [n|e] eqn:E; [eauto|exfalso].
  pose proof (valid_date_bounds d V) as B.
  pose proof (valid_date_bounds stop Vs) as Bs.
  pose proof (days_in_month_le (year d) (month d)) as Hd.
  assert (Same : year stop = year d -> month stop = month d ->
                 day stop <= days_in_month (year d) (month d)).
  { intros <- <-. lia. }
  revert E N. unfold next_day, date_key, MAXYEAR in *.
  destruct (day d <? days_in_month (year d) (month d)) eqn:E1;
    [discriminate|].
  destruct (month d <? 12) eqn:E2; [discriminate|].
  destruct (year d <? 9999) eqn:E3; [discriminate|]. intros _.
  destruct (day stop <? days_in_month (year stop) (month stop)) eqn:F1;
    [|destruct (month stop <? 12) eqn:F2;
      [|destruct (year stop <? 9999) eqn:F3; [|discriminate]]];
    intros _; rewrite ?Z.ltb_lt, ?Z.ltb_ge in *.
  - assert (year stop = year d) by lia.
    assert (month stop = month d) by lia.
    assert (day stop < days_in_month (year d) (month d)) by congruence.
    lia.
  - lia.
  - lia.
Qed.

Lemma date_range_past fuel start stop :
  date_leb start stop = false -> date_range fuel start stop = [].
Proof. intro H. destruct fuel; cbn; rewrite H; reflexivity. Qed.

(** With enough fuel the range does not depend on the fuel. *)
Lemma date_range_fuel k1 : forall k2 start stop,
  valid_date start = true -> valid_date stop = true ->
  date_key stop + 1 - date_key start <= Z.of_nat k1 ->
  date_key stop + 1 - date_key start <= Z.of_nat k2 ->
  date_range k1 start stop = date_range k2 start stop.
Proof.
  induction k1 as [|k1 IH]; intros k2 start stop V Vs H1 H2.
  - rewrite !date_range_past; auto;
      destruct (date_leb start stop) eqn:E; auto;
      apply date_leb_key in E; auto; lia.
  - destruct (date_leb start stop) eqn:E.
    + pose proof (proj1 (date_leb_key _ _ V Vs) E) as L.
      destruct k2 as [|k2]; [lia|]. cbn. rewrite E.
      destruct (next_day start) as [n|e] eqn:N; [|reflexivity].
      f_equal. destruct (next_day_key _ _ V N) as (K & _).
      apply IH; eauto using next_day_valid; lia.
    + rewrite !date_range_past; auto.
Qed.

Lemma days_between_step start stop next :
  valid_date start = true -> valid_date stop = true ->
  date_leb start stop = true ->
  next_day start = Ok next ->
  days_between start stop = start :: days_between next stop.
Proof.
  intros V Vs E N. unfold days_between.
  pose proof (proj1 (date_leb_key _ _ V Vs) E) as L.
  destruct (next_day_key _ _ V N) as (K & _).
  destruct (Z.to_nat (date_key stop + 1 - date_key start)) as [|k] eqn:F;
    [lia|].
  cbn. rewrite E, N. f_equal.
  apply date_range_fuel; eauto using next_day_valid; lia.
Qed.

Lemma days_between_past start stop :
  date_leb start stop = false -> days_between start stop = [].
Proof. apply date_range_past. Qed.

(** The range holds exactly the days from [start] to [stop], each once,
    in ascending order. *)
Lemma days_between_sound start stop after :
  valid_date start = true -> valid_date stop = true ->
  next_day stop = Ok after ->
  let days := days_between start stop in
  Forall (fun d => valid_date d = true) days
  /\ StronglySorted date_lt days
  /\ forall d, valid_date d = true ->
               (In d days <-> date_le start d /\ date_le d stop).
Proof.
  intros V Vs A. cbn zeta.
  remember (Z.to_nat (date_key stop + 1 - date_key start)) as n eqn:Hn.
  revert start V Hn.
  induction n as [n IH] using (well_founded_induction lt_wf).
  intros start V Hn.
  assert (LE : forall a b, valid_date a = true -> valid_date b = true ->
                           date_le a b <-> date_key a <= date_key b).
  { intros a b Va Vb. unfold date_le. rewrite (date_compare_key a b Va Vb).
    destruct (Z.compare_spec (date_key a) (date_key b)); split;
      intros; try lia; congruence. }
  destruct (date_leb start stop) eqn:E.
  - pose proof (proj1 (date_leb_key _ _ V Vs) E) as L.
    destruct (next_day_before_last _ _ _ V Vs L A) as (next & N).
    destruct (next_day_key _ _ V N) as (K & Least).
    pose proof (next_day_valid _ _ V N) as Vn.
    rewrite (days_between_step _ _ _ V Vs E N).
    destruct (IH (Z.to_nat (date_key stop + 1 - date_key next)))
      with (start := next) as (F & S & I); auto; [lia|].
    split; [constructor; assumption|]. split.
    + constructor; [exact S|].
      apply Forall_forall. intros d Hd.
      pose proof (proj1 (Forall_forall _ _) F d Hd) as Vd.
      apply (I d Vd) in Hd. destruct Hd as (Hd & _).
      apply (LE _ _ Vn Vd) in Hd.
      unfold date_lt. rewrite (date_compare_key _ _ V Vd).
      apply Z.compare_lt_iff. lia.
    + intros d Vd. cbn [In]. rewrite (I d Vd).
      rewrite !LE by assumption. split.
      * intros [<-|(H1 & H2)]; lia.
      * intros (H1 & H2).
        destruct (Z.eq_dec (date_key start) (date_key d)) as [Q|Q].
        -- left. apply date_key_inj; assumption.
        -- right. split; [|exact H2]. apply Least; [exact Vd|lia].
  - rewrite (days_between_past _ _ E).
    split; [constructor|]. split; [constructor|].
    intros d Vd. rewrite !LE by assumption. cbn [In].
    assert (date_key stop < date_key start).
    { destruct (Z.lt_ge_cases (date_key stop) (date_key start)); auto.
      apply date_leb_key in H; auto. congruence. }
    lia.
Qed.

(* ================================================================== *)
(** * [make_api_call] *)

Lemma make_api_call_body_runs url params w :
  ClimeCapsule.make_api_call_body url params w
  = (decode (provider w (requests_of (trace w)) (url, params)),
     log (EvHttpGet (url, params)) w).
Proof.
  unfold ClimeCapsule.make_api_call_body, ClimeCapsule.requests_get, bind,
    lift, decode.
  destruct (provider w (requests_of (trace w)) (url, params))
    as [|status body]; [reflexivity|].
  destruct (ClimeCapsule.raise_for_status (Response status body));
    [|reflexivity].
  cbn [rbind].
  destruct (ClimeCapsule.json (Response status body)); reflexivity.
Qed.

Lemma decode_no_rate_limit_exception out p :
  decode out <> Raise (RateLimitException p).
Proof.
  unfold decode. destruct out as [|status [data|]]; cbn; try discriminate.
  - destruct ((400 <=? status) && (status <? 600)); cbn; [discriminate|].
    unfold dict_get. destruct data; try discriminate.
    destruct (assoc "observations" kv); discriminate.
  - destruct ((400 <=? status) && (status <? 600)); cbn; discriminate.
Qed.

Lemma make_api_call_body_no_rle url params :
  no_rate_limit_exception (ClimeCapsule.make_api_call_body url params).
Proof.
  intros w p w' H. rewrite make_api_call_body_runs in H.
  injection H as H _. eapply decode_no_rate_limit_exception; eauto.
Qed.

Lemma http_failure_decode out e : http_failure out e -> decode out = Raise e.
Proof.
  intros [(-> & ->)|(status & body & -> & R & ->)]; [reflexivity|].
  unfold decode. cbn.
  assert (E : (400 <=? status) && (status <? 600) = true).
  { apply andb_true_iff. split; [apply Z.leb_le|apply Z.ltb_lt]; lia. }
  rewrite E. reflexivity.
Qed.

(** One call of [make_api_call]: after at most three sleeps, one request,
    whose answer decides the result. *)
Lemma make_api_call_once fuel url params w :
  (2 <= fuel)%nat ->
  exists w1 sleeps,
    ClimeCapsule.make_api_call fuel url params w
    = (decode (provider w (requests_of (trace w)) (url, params)),
       log (EvHttpGet (url, params)) w1)
    /\ waited w w1 sleeps
    /\ (List.length sleeps <= 3)%nat
    /\ (30 <= num_calls w -> (3 < period_remaining w)%Q ->
        exists s1 s2 s3,
          sleeps = [s1; s2; s3]
          /\ (0 <= s1 <= 1)%Q /\ (0 <= s2 <= 2)%Q
          /\ (s3 == period_remaining w - s1 - s2)%Q).
Proof.
  intro F.
  destruct (decorated_runs_once (ClimeCapsule.make_api_call_body url params)
              fuel w F (make_api_call_body_no_rle url params))
    as (w1 & sleeps & R & W & L & B).
  exists w1, sleeps. split; [|auto].
  unfold ClimeCapsule.make_api_call. fold (decorated fuel
    (ClimeCapsule.make_api_call_body url params)).
  rewrite R, make_api_call_body_runs.
  rewrite (waited_requests _ _ _ W).
  destruct W as (_ & -> & _). reflexivity.
Qed.

(** C8, as amended.  A call of [make_api_call] issues exactly one
    request.  What is retried is the rejection by the client-side
    limiter, raised before any request is sent: when the allowance of 30
    calls is used up and more than three seconds of the 60-second period
    remain, three tries are rejected, with backoff sleeps of up to 1 and
    up to 2 seconds between them, then the rest of the period is slept
    and the request goes out.  A failure of the request, a 429 of the
    provider included, is not retried: it is raised right after the
    single request. *)
Theorem make_api_call_retries_only_the_limiter fuel url params w :
  (2 <= fuel)%nat ->
  let out := provider w (requests_of (trace w)) (url, params) in
  exists w' sleeps,
    ClimeCapsule.make_api_call fuel url params w = (decode out, w')
    /\ trace w' = trace w ++ map EvSleep sleeps ++ [EvHttpGet (url, params)]
    /\ (List.length sleeps <= 3)%nat
    /\ (forall e,
          http_failure out e ->
          ClimeCapsule.make_api_call fuel url params w = (Raise e, w'))
    /\ (30 <= num_calls w -> (3 < period_remaining w)%Q ->
        exists s1 s2 s3,
          sleeps = [s1; s2; s3]
          /\ (0 <= s1 <= 1)%Q /\ (0 <= s2 <= 2)%Q
          /\ (s3 == period_remaining w - s1 - s2)%Q).
Proof.
  intros F out.
  destruct (make_api_call_once fuel url params w F)
    as (w1 & sleeps & R & W & L & B).
  eexists. exists sleeps. split; [exact R|].
  split.
  { destruct W as (_ & _ & _ & T). cbn. rewrite T, <- app_assoc.
    reflexivity. }
  split; [exact L|]. split; [|exact B].
  intros e H. rewrite R. f_equal. apply http_failure_decode. exact H.
Qed.

(** With the allowance used up and fifty seconds of the period left, the
    call sleeps three times and then sends its one request; the
    provider's 429 is raised at once, although a second request would
    have been answered. *)
Lemma make_api_call_exhausted_then_429 :
  exists w' s1 s2 s3,
    ClimeCapsule.make_api_call 2 "u" [] (exhausted throttling_provider)
    = (Raise (HTTPError 429), w')
    /\ trace w' = [EvSleep s1; EvSleep s2; EvSleep s3; EvHttpGet ("u", [])]
    /\ (s1 == 1 # 2)%Q /\ (s2 == 1)%Q /\ (s3 == 97 # 2)%Q.
Proof.
  destruct (make_api_call_retries_only_the_limiter 2 "u" []
              (exhausted throttling_provider) (le_n 2))
    as (w' & sleeps & R & T & _).
  exists w'.
  run_lhs R.
  injection R as <-.
  exists (1 # 2)%Q, (2 # 2)%Q, (194 # 4)%Q.
  repeat split.
Defined.

(** C8 as stated fails: the provider rejects the first request with 429
    and would answer a second one; [make_api_call] sends one request and
    raises the HTTP error. *)
Lemma make_api_call_provider_429_not_retried :
  let r := ClimeCapsule.make_api_call 3 "u" [] (first_run throttling_provider) in
  fst r = Raise (HTTPError 429)
  /\ trace (snd r) = [EvHttpGet ("u", [])]
  /\ throttling_provider [("u", [])] ("u", [])
     = Response 200 (Some (PyDict [("observations", PyList [])])).
Proof. repeat split. Qed.

(* ================================================================== *)
(** * The backfill *)

Lemma no_db_event_sleeps sleeps :
  Forall (fun e => is_db_event e = false) (map EvSleep sleeps).
Proof. induction sleeps; constructor; auto. Qed.

Lemma walk_days me fuel : forall start stop after acc w payloads,
  valid_date start = true -> valid_date stop = true ->
  next_day stop = Ok after ->
  answered (provider w) (requests_of (trace w))
    (map (hourly_request me) (days_between start stop)) payloads ->
  (List.length (days_between start stop) < fuel)%nat ->
  exists w' ev,
    ClimeCapsule.walk me fuel start stop acc w
    = (Ok (acc ++ List.concat payloads), w')
    /\ trace w' = trace w ++ ev
    /\ requests_of ev = map (hourly_request me) (days_between start stop)
    /\ Forall (fun e => is_db_event e = false) ev
    /\ disk w' = disk w.
Proof.
  induction fuel as [|fuel IH];
    intros start stop after acc w payloads V Vs A Ans Len; [lia|].
  destruct (date_leb start stop) eqn:E.
  - pose proof (proj1 (date_leb_key _ _ V Vs) E) as L.
    destruct (next_day_before_last _ _ _ V Vs L A) as (next & N).
    pose proof (next_day_valid _ _ V N) as Vn.
    rewrite (days_between_step _ _ _ V Vs E N) in *.
    cbn [map replay List.length] in *.
    unfold answered in Ans. cbn [replay] in Ans.
    inversion Ans as [|out items outs payloads' (data & Hd & Hi) Ans' Eo Ep].
    subst.
    destruct (make_api_call_once (S fuel) (ClimeCapsule.hourly_url me)
                (ClimeCapsule.hourly_params me start) w)
      as (w1 & sleeps & R & W & _); [lia|].
    set (w2 := log (EvHttpGet (hourly_request me start)) w1).
    assert (T2 : trace w2
                 = trace w ++ map EvSleep sleeps
                   ++ [EvHttpGet (hourly_request me start)]).
    { destruct W as (_ & _ & _ & T). unfold w2. cbn. rewrite T, <- app_assoc.
      reflexivity. }
    assert (H2 : requests_of (trace w2)
                 = requests_of (trace w) ++ [hourly_request me start]).
    { rewrite T2, !requests_of_app, requests_of_sleeps. reflexivity. }
    assert (P2 : provider w2 = provider w) by (destruct W as (_ & P & _); exact P).
    destruct (IH next stop after (acc ++ items) w2 payloads' Vn Vs A)
      as (w' & ev & Rw & Tw & Qw & Fw & Dw).
    { unfold answered. rewrite P2, H2. exact Ans'. }
    { lia. }
    exists w', (map EvSleep sleeps ++ [EvHttpGet (hourly_request me start)] ++ ev).
    split.
    { cbn [ClimeCapsule.walk]. rewrite E. unfold bind at 1.
      rewrite R. fold (hourly_request me start). fold w2.
      rewrite Hd. unfold bind at 1, lift at 1. rewrite Hi.
      unfold bind at 1, lift at 1. rewrite N.
      rewrite Rw. cbn [List.concat]. rewrite app_assoc. reflexivity. }
    split; [rewrite Tw, T2, <- !app_assoc; reflexivity|].
    split.
    { rewrite !requests_of_app, requests_of_sleeps. cbn. rewrite Qw.
      reflexivity. }
    split.
    { apply Forall_app. split; [apply no_db_event_sleeps|].
      constructor; [reflexivity|exact Fw]. }
    rewrite Dw. destruct W as (D & _). exact D.
  - rewrite (days_between_past _ _ E) in *.
    inversion Ans; subst.
    exists w, []. cbn [ClimeCapsule.walk]. rewrite E.
    repeat split; cbn; rewrite ?app_nil_r; auto.
Qed.

(** C7.  For a range of days whose end has a next day, with every
    request answered and fuel for the walk: the days walked are exactly
    the days of the range, each once and in ascending order; the
    requests made are the hourly requests of these days, in that order,
    each a request to [/history/hourly] under the base URL with the API
    key, the station, the format [json], the units [e] and the day's
    date as eight digits; the result is the concatenation of the
    answers; and on a first run [init_db] passes that list to one
    [insert_observations], after the walk. *)
Theorem backfill_walks_each_day_then_inserts_once
  me fuel w start_str end_str start_dt stop_dt after payloads :
  strptime_date start_str = Ok start_dt ->
  strptime_date end_str = Ok stop_dt ->
  next_day (dt_date stop_dt) = Ok after ->
  let days := days_between (dt_date start_dt) (dt_date stop_dt) in
  let reqs := map (hourly_request me) days in
  answered (provider w) (requests_of (trace w)) reqs payloads ->
  (List.length days < fuel)%nat ->
  (StronglySorted date_lt days
   /\ (forall d, valid_date d = true ->
         (In d days <-> date_le (dt_date start_dt) d
                        /\ date_le d (dt_date stop_dt)))
   /\ (forall d, hourly_request me d
                 = ((ClimeCapsule.base_url me ++ "/history/hourly")%string,
                    [("apiKey", ClimeCapsule.wu_api_key me);
                     ("stationId", ClimeCapsule.wu_station_id me);
                     ("format", "json");
                     ("units", "e");
                     ("date", strftime_compact d)]))
   /\ (forall d, assoc "date" (snd (hourly_request me d))
                 = Some (strftime_compact d)
                 /\ String.length (strftime_compact d) = 8%nat
                 /\ all_digits (strftime_compact d) = true))
  /\ (exists w1 ev,
         ClimeCapsule.fetch_historical_hourly_data me fuel
           (ClimeCapsule.ArgStr start_str)
           (Some (ClimeCapsule.ArgStr end_str)) w
         = (Ok (List.concat payloads), w1)
         /\ trace w1 = trace w ++ ev
         /\ requests_of ev = reqs
         /\ Forall (fun e => is_db_event e = false) ev)
  /\ (disk w = NoFile ->
      ClimeCapsule.earliest_observation me = start_str ->
      strftime_iso (dt_date (now w)) = end_str ->
      exists w1 ev,
        ClimeCapsule.init_db me fuel w
        = WeatherDB.insert_observations (List.concat payloads) w1
        /\ trace w1
           = trace w
             ++ [EvConnect; EvExecute CreateTableIfNotExists; EvCommit;
                 EvClose]
             ++ ev
        /\ requests_of ev = reqs
        /\ Forall (fun e => is_db_event e = false) ev
        /\ disk w1 = DbFile (Some weather_data.empty)).
Proof.
  intros Ps Pe A days reqs Ans Len.
  destruct (strptime_date_ok _ _ Ps) as (_ & V).
  destruct (strptime_date_ok _ _ Pe) as (_ & Vs).
  destruct (days_between_sound _ _ _ V Vs A) as (_ & S & I).
  split; [|split].
  - split; [exact S|]. split; [exact I|].
    split; [intro d; reflexivity|]. intro d.
    split; [reflexivity|]. split; [reflexivity|].
    unfold strftime_compact, pad4, pad2. cbn [String.append all_digits].
    rewrite !digit_of_digit_char. reflexivity.
  - destruct (walk_days me fuel _ _ _ [] w payloads V Vs A Ans Len)
      as (w1 & ev & R & T & Q & F & _).
    exists w1, ev. split; [|auto].
    unfold ClimeCapsule.fetch_historical_hourly_data, bind, lift.
    rewrite Ps, Pe. cbn [rbind]. exact R.
  - intros D Es Ee.
    set (w0 := log EvClose
                 (log EvCommit
                    (set_disk (DbFile (Some weather_data.empty))
                       (set_disk (DbFile (Some weather_data.empty))
                          (log (EvExecute CreateTableIfNotExists)
                             (log EvConnect (set_disk (DbFile None) w))))))).
    assert (T0 : trace w0
                 = trace w ++ [EvConnect; EvExecute CreateTableIfNotExists;
                               EvCommit; EvClose]).
    { unfold w0. cbn. rewrite <- !app_assoc. reflexivity. }
    assert (Ans0 : answered (provider w0) (requests_of (trace w0)) reqs
                     payloads).
    { rewrite T0, requests_of_app. cbn [requests_of]. rewrite app_nil_r.
      exact Ans. }
    destruct (walk_days me fuel _ _ _ [] w0 payloads V Vs A Ans0 Len)
      as (w1 & ev & R & T & Q & F & Dk).
    exists w1, ev. split; [|split; [|split; [|split]]]; auto.
    + unfold ClimeCapsule.init_db, ClimeCapsule.path_exists, bind at 1.
      rewrite D. cbn [negb].
      unfold bind at 1, WeatherDB.init_db, bind at 1, connect. rewrite D.
      unfold bind at 1, execute, bind at 1, commit, close. cbn [fst].
      fold w0.
      unfold bind at 1, ClimeCapsule.today. cbn [now w0 log set_disk].
      rewrite Es, Ee.
      unfold bind at 1, ClimeCapsule.fetch_historical_hourly_data,
        bind at 1, lift at 1.
      rewrite Ps. cbn [rbind]. unfold bind at 1, lift at 1.
      rewrite Pe. cbn [rbind]. rewrite R. reflexivity.
    + rewrite T, T0, <- app_assoc. reflexivity.
Qed.

(** The backfill from 2024-01-01 through 2024-01-03 on a first run:
    three requests to the hourly history, for 20240101, 20240102 and
    20240103 in that order, then one connection that inserts the six
    observations. *)
Lemma backfill_first_three_days_of_2024 :
  let r := ClimeCapsule.init_db kcodenve1 4 (first_run hourly_provider) in
  fst r = Ok tt
  /\ map (fun q => assoc "date" (snd q)) (requests_of (trace (snd r)))
     = [Some "20240101"; Some "20240102"; Some "20240103"]
  /\ map fst (requests_of (trace (snd r)))
     = ["https://api.weather.com/v2/pws/history/hourly";
        "https://api.weather.com/v2/pws/history/hourly";
        "https://api.weather.com/v2/pws/history/hourly"]
  /\ map snd (requests_of (trace (snd r)))
     = map (fun d => [("apiKey", "secret"); ("stationId", "KCODENVE1");
                      ("format", "json"); ("units", "e"); ("date", d)])
         ["20240101"; "20240102"; "20240103"]
  /\ map event_kind (trace (snd r))
     = ["connect"; "CREATE"; "commit"; "close";
        "GET"; "GET"; "GET";
        "connect"; "INSERT"; "INSERT"; "INSERT"; "INSERT"; "INSERT";
        "INSERT"; "commit"; "close"].
Proof.
  cbn zeta.
  destruct (backfill_walks_each_day_then_inserts_once kcodenve1 4
              (first_run hourly_provider) "2024-01-01" "2024-01-03"
              (midnight (mkdate 2024 1 1)) (midnight (mkdate 2024 1 3))
              (mkdate 2024 1 4)
              [[hour_of "20240101" "00" 40; hour_of "20240101" "01" 39];
               [hour_of "20240102" "00" 40; hour_of "20240102" "01" 39];
               [hour_of "20240103" "00" 40; hour_of "20240103" "01" 39]]
              eq_refl eq_refl eq_refl)
    as (_ & _ & I).
  - repeat constructor; eexists; split; reflexivity.
  - apply Nat.ltb_lt. reflexivity.
  - destruct (I eq_refl eq_refl eq_refl) as (w1 & ev & R & _).
    rewrite R. clear I.
    run_lhs R.
    rewrite <- R. repeat split.
Defined.

(* ================================================================== *)
(** * Malformed dates *)

(** C9, as amended.  A date string that [strptime] does not accept makes
    every date-accepting operation fail with a [ValueError] before any
    request is sent and before any SQL statement is executed: the
    backfill leaves the world untouched, whether the string is its start
    or its end; [query_by_date] has by then opened its connection to the
    database, and does not close it. *)
Theorem malformed_date_fails_before_requests_and_statements date_str e :
  strptime_date date_str = Raise e ->
  (forall w,
      exists w',
        WeatherDB.query_by_date date_str w = (Raise ValueError, w')
        /\ trace w' = trace w ++ [EvConnect])
  /\ (forall me fuel end_date w,
         ClimeCapsule.fetch_historical_hourly_data me fuel
           (ClimeCapsule.ArgStr date_str) end_date w
         = (Raise ValueError, w))
  /\ (forall me fuel start_date w,
         ClimeCapsule.fetch_historical_hourly_data me fuel
           start_date (Some (ClimeCapsule.ArgStr date_str)) w
         = (Raise ValueError, w)).
Proof.
  intro P. pose proof (strptime_date_raises _ _ P) as ->.
  split; [|split].
  - intro w. unfold WeatherDB.query_by_date, bind, connect, lift.
    destruct (disk w); rewrite P; eexists; split; reflexivity.
  - intros me fuel end_date w.
    unfold ClimeCapsule.fetch_historical_hourly_data, bind, lift.
    rewrite P. reflexivity.
  - intros me fuel start_date w.
    unfold ClimeCapsule.fetch_historical_hourly_data, bind, lift.
    destruct start_date as [s|d].
    + destruct (strptime_date s) as [dt|e'] eqn:Q; cbn [rbind].
      * rewrite P. reflexivity.
      * rewrite (strptime_date_raises _ _ Q). reflexivity.
    + unfold ret. rewrite P. reflexivity.
Qed.

(** The date [2024-13-40] is refused by the query after one connect and
    by the backfill at once, as start and as end. *)
Lemma malformed_date_2024_13_40 :
  (exists w',
      WeatherDB.query_by_date "2024-13-40" march_store
      = (Raise ValueError, w')
      /\ trace w' = [EvConnect])
  /\ ClimeCapsule.fetch_historical_hourly_data kcodenve1 5
       (ClimeCapsule.ArgStr "2024-13-40") None (first_run hourly_provider)
     = (Raise ValueError, first_run hourly_provider)
  /\ ClimeCapsule.fetch_historical_hourly_data kcodenve1 5
       (ClimeCapsule.ArgStr "2024-01-01")
       (Some (ClimeCapsule.ArgStr "2024-13-40")) (first_run hourly_provider)
     = (Raise ValueError, first_run hourly_provider).
Proof.
  destruct (malformed_date_fails_before_requests_and_statements
              "2024-13-40" ValueError eq_refl) as (Q & F1 & F2).
  split; [apply (Q march_store)|]. split; [apply F1|apply F2].
Defined.

(** C9 as stated fails for [query_by_date]: database work comes before
    the validation error.  With no database file yet, the call with
    [2024-13-40] connects and thereby creates the file, and only then
    raises. *)
Lemma query_by_date_connects_before_validation :
  let r := WeatherDB.query_by_date "2024-13-40" (first_run hourly_provider) in
  fst r = Raise ValueError
  /\ disk (first_run hourly_provider) = NoFile
  /\ disk (snd r) = DbFile None
  /\ trace (snd r) = [EvConnect].
Proof. repeat split. Qed.

(* ================================================================== *)
(** * More on the store *)

(** X1.  [WeatherDB.init_db] never fails; it creates the table when the file
    or the table is missing and leaves a table that is there as it is,
    so that a second call changes nothing. *)
Theorem weatherdb_init_db_keeps_the_table w :
  exists w' w'',
    WeatherDB.init_db w = (Ok tt, w')
    /\ disk w' = DbFile (Some (table_of (disk w)))
    /\ WeatherDB.init_db w' = (Ok tt, w'')
    /\ disk w'' = disk w'.
Proof.
  unfold WeatherDB.init_db, bind, connect, execute, commit, close.
  destruct (disk w) as [|[t|]] eqn:D; cbn; rewrite ?D; cbn;
    eexists; eexists; repeat split.
Qed.

Lemma insert_each_outcome batch : forall conn w,
  exists ev,
    trace (snd (WeatherDB.insert_each conn batch w)) = trace w ++ ev
    /\ Forall (fun e => is_insert_attempt e = true) ev
    /\ disk (snd (WeatherDB.insert_each conn batch w)) = disk w
    /\ fst (WeatherDB.insert_each conn batch w) <> Raise IntegrityError.
Proof.
  induction batch as [|obs batch IH]; intros conn w.
  - exists []. cbn. rewrite app_nil_r. repeat split; [constructor|discriminate].
  - cbn [WeatherDB.insert_each]. unfold bind, lift.
    destruct (WeatherDB.insert_tuple obs) as [params|e] eqn:P.
    + unfold execute.
      set (w1 := log (EvExecute (InsertInto params)) w).
      assert (Step : forall c,
                 exists ev,
                   trace (snd (WeatherDB.insert_each c batch w1))
                   = trace w ++ ev
                   /\ Forall (fun e => is_insert_attempt e = true) ev
                   /\ disk (snd (WeatherDB.insert_each c batch w1)) = disk w
                   /\ fst (WeatherDB.insert_each c batch w1)
                      <> Raise IntegrityError).
      { intro c. destruct (IH c w1) as (ev & T & F & D & N).
        exists (EvExecute (InsertInto params) :: ev).
        split; [rewrite T; unfold w1; cbn; rewrite <- app_assoc; reflexivity|].
        split; [constructor; [reflexivity|exact F]|]. split; assumption. }
      destruct conn as [t|].
      * destruct (v <- bind_values params ;; insert_row v t)%py as [t'|e];
          [apply Step|].
        destruct e; try apply Step;
          (exists [EvExecute (InsertInto params)]; cbn;
           repeat split; [repeat constructor|discriminate]).
      * exists [EvExecute (InsertInto params)]. cbn.
        repeat split; [repeat constructor|discriminate].
    + destruct e;
        try (exists []; cbn; rewrite app_nil_r;
             repeat split; [constructor|discriminate]).
      destruct (IH conn w) as (ev & T & F & D & N).
      exists ev. repeat split; assumption.
Qed.

Lemma insert_observations_failure batch w e w' :
  WeatherDB.insert_observations batch w = (Raise e, w') ->
  e <> IntegrityError
  /\ table_of (disk w') = table_of (disk w)
  /\ (disk w <> NoFile -> disk w' = disk w)
  /\ exists ev,
       trace w' = trace w ++ EvConnect :: ev
       /\ Forall (fun x => is_insert_attempt x = true) ev.
Proof.
  unfold WeatherDB.insert_observations, bind at 1.
  destruct (connect w) as [[conn|ce] w0] eqn:C.
  - assert (C0 : trace w0 = trace w ++ [EvConnect]
                 /\ table_of (disk w0) = table_of (disk w)
                 /\ (disk w <> NoFile -> disk w0 = disk w)).
    { unfold connect in C. destruct (disk w) as [|t] eqn:D;
        injection C as <- <-; cbn; rewrite ?D; repeat split; congruence. }
    destruct C0 as (T0 & D0 & K0).
    unfold bind at 1.
    destruct (insert_each_outcome batch conn w0) as (ev & T & F & D & N).
    destruct (WeatherDB.insert_each conn batch w0) as [[c'|e'] w1] eqn:I.
    + unfold bind, commit, close. discriminate.
    + intro H. injection H as <- <-. cbn in T, D, N.
      split; [congruence|]. split; [rewrite D; exact D0|].
      split; [intro NF; rewrite D; auto|].
      exists ev. split; [|exact F].
      rewrite T, T0, <- app_assoc. reflexivity.
  - unfold connect in C. destruct (disk w); discriminate.
Qed.

(** X2.  [insert_observations] is all or nothing.  When it raises, the
    exception is not the caught [IntegrityError], the table in the file
    is the one from before the call, also for the items that were
    inserted before the failing one, and after the connection was
    opened only inserts were attempted: nothing was committed. *)
Theorem insert_observations_all_or_nothing batch w e w' :
  WeatherDB.insert_observations batch w = (Raise e, w') ->
  e <> IntegrityError
  /\ table_of (disk w') = table_of (disk w)
  /\ exists ev,
       trace w' = trace w ++ EvConnect :: ev
       /\ Forall (fun x => is_insert_attempt x = true) ev.
Proof.
  intro H. destruct (insert_observations_failure _ _ _ _ H) as (A & B & _ & C).
  auto.
Qed.

(** The first item of the batch is complete, the second has no station:
    the call raises [KeyError] and the table stays empty. *)
Lemma insert_observations_broken_batch :
  exists w',
    WeatherDB.insert_observations broken_batch empty_store
    = (Raise KeyError, w')
    /\ table_of (disk w') = weather_data.empty
    /\ List.length (trace w') = 2%nat.
Proof.
  eexists. split; [reflexivity|].
  destruct (insert_observations_all_or_nothing broken_batch empty_store
              KeyError _ eq_refl) as (_ & D & _).
  split; [exact D|reflexivity].
Defined.

(** X3.  The key of the store is the timestamp alone.  Of two valid
    observations with the same timestamp the second is never stored,
    whatever its station: the batch of both leaves the table that the
    first alone leaves. *)
Theorem insert_observations_key_is_the_timestamp first second tbl w :
  disk w = DbFile (Some tbl) ->
  valid_raw first -> valid_raw second ->
  getitem second "obsTimeLocal" = getitem first "obsTimeLocal" ->
  exists tbl1 w1 w2,
    WeatherDB.insert_observations [first; second] w = (Ok tt, w1)
    /\ WeatherDB.insert_observations [first] w = (Ok tt, w2)
    /\ disk w1 = DbFile (Some tbl1)
    /\ disk w2 = DbFile (Some tbl1).
Proof.
  intros D V1 V2 E.
  destruct (valid_raw_row _ V1) as (v1 & ts1 & R1 & G1 & S1).
  destruct (valid_raw_row _ V2) as (v2 & ts2 & R2 & G2 & S2).
  assert (ts2 = ts1) by congruence. subst ts2.
  destruct (insert_observations_rows [first; second] [v1; v2] tbl w D)
    as (w1 & I1 & D1); [repeat constructor; assumption|].
  destruct (insert_observations_rows [first] [v1] tbl w D)
    as (w2 & I2 & D2); [repeat constructor; assumption|].
  exists (store_each tbl [v1]), w1, w2.
  repeat split; auto.
  rewrite D1. do 2 f_equal.
  change (store_each tbl [v1; v2]) with
    (match insert_row v1 tbl with
     | Ok t' => store_each t' [v2]
     | Raise _ => store_each tbl [v2]
     end).
  change (store_each tbl [v1]) with
    (match insert_row v1 tbl with
     | Ok t' => t'
     | Raise _ => tbl
     end).
  assert (P : has_stamp ts1 (store_each tbl [v1])).
  { eapply store_each_has_stamps; [left; reflexivity|exact S1]. }
  change (store_each tbl [v1]) with
    (match insert_row v1 tbl with
     | Ok t' => t'
     | Raise _ => tbl
     end) in P.
  destruct (insert_row v1 tbl) as [t'|e];
    apply store_each_present; constructor; auto;
    apply (unique_violation_stamp v2 _ ts1 S2); exact P.
Qed.

(** Two stations report the same hour: only the first is kept. *)
Lemma insert_observations_two_stations :
  exists w1,
    WeatherDB.insert_observations other_station_batch empty_store
    = (Ok tt, w1)
    /\ map (fun r => weather_data.station_id (weather_data.cols r))
         (weather_data.rows (table_of (disk w1)))
       = [SqlText "KCODENVE1"].
Proof.
  assert (V : Forall valid_raw other_station_batch).
  { repeat constructor; try (eexists; reflexivity);
      try (eexists; split; [reflexivity|]);
      try (left; reflexivity); try (right; eexists; reflexivity). }
  inversion V as [|? ? V1 V']; subst. inversion V' as [|? ? V2 _]; subst.
  destruct (insert_observations_key_is_the_timestamp _ _
              weather_data.empty empty_store eq_refl V1 V2 eq_refl)
    as (tbl1 & w1 & w2 & I1 & I2 & D1 & D2).
  exists w1. split; [exact I1|].
  run_lhs I1. injection I1 as <-. reflexivity.
Defined.

(** X4.  An observation with a null timestamp never collides: every
    insert appends it once more, whatever the table holds. *)
Theorem insert_observations_null_timestamp_repeats obs v tbl w :
  disk w = DbFile (Some tbl) ->
  row_of obs = Ok v ->
  weather_data.obs_time_local v = SqlNull ->
  exists w',
    WeatherDB.insert_observations [obs] w = (Ok tt, w')
    /\ disk w'
       = DbFile
           (Some (weather_data.mktable
                    (weather_data.rows tbl
                     ++ [weather_data.mkrow
                           (weather_data.sqlite_sequence tbl + 1) v])
                    (weather_data.sqlite_sequence tbl + 1))).
Proof.
  intros D R N.
  destruct (insert_observations_rows [obs] [v] tbl w D)
    as (w' & I & D'); [repeat constructor; assumption|].
  exists w'. split; [exact I|]. rewrite D'. do 2 f_equal.
  cbn. unfold insert_row.
  assert (U : unique_violation v tbl = false).
  { unfold unique_violation. rewrite N.
    induction (weather_data.rows tbl) as [|r l IHl]; cbn; [reflexivity|].
    rewrite IHl.
    destruct (weather_data.obs_time_local (weather_data.cols r)); reflexivity. }
  rewrite U. reflexivity.
Qed.

(** Inserted twice, the unstamped observation is stored twice. *)
Lemma insert_observations_unstamped_twice :
  exists w1 w2,
    WeatherDB.insert_observations [unstamped_observation] empty_store
    = (Ok tt, w1)
    /\ WeatherDB.insert_observations [unstamped_observation] w1 = (Ok tt, w2)
    /\ List.length (weather_data.rows (table_of (disk w2))) = 2%nat.
Proof.
  destruct (insert_observations_null_timestamp_repeats unstamped_observation
              _ weather_data.empty empty_store eq_refl eq_refl eq_refl)
    as (w1 & I1 & D1).
  destruct (insert_observations_null_timestamp_repeats unstamped_observation
              _ _ w1 D1 eq_refl eq_refl)
    as (w2 & I2 & D2).
  exists w1, w2. repeat split; auto. rewrite D2. reflexivity.
Defined.

(** X5.  Whatever the store holds, every observation [query_by_date]
    returns carries a text timestamp: a row whose timestamp is null is
    never returned, for no date. *)
Theorem query_by_date_returns_stamped_rows date_str w l w' :
  WeatherDB.query_by_date date_str w = (Ok l, w') ->
  Forall (fun obs => exists ts, getitem obs "obsTimeLocal" = Ok (PyStr ts)) l.
Proof.
  unfold WeatherDB.query_by_date, bind at 1.
  destruct (connect w) as [[conn|ce] w0]; [|discriminate].
  unfold bind at 1, lift at 1.
  destruct (strptime_date date_str) as [dt|]; [|discriminate].
  unfold bind at 1, lift at 1.
  destruct (next_day (dt_date dt)) as [next|]; [|discriminate].
  unfold bind at 1, execute.
  destruct conn as [t|]; [|discriminate].
  unfold bind, close, ret. intro H. injection H as <- _.
  apply Forall_forall. intros obs I. apply in_map_iff in I.
  destruct I as (v & <- & I).
  apply (Permutation_in _ (order_by_perm _)) in I.
  apply filter_In in I. destruct I as (_ & R).
  unfold in_range in R. apply andb_true_iff in R. destruct R as (R & _).
  destruct (weather_data.obs_time_local v) as [| |ts] eqn:S;
    try discriminate.
  exists ts. cbn. rewrite S. reflexivity.
Qed.

(** The row without a timestamp in the March table is not returned. *)
Lemma query_by_date_march_stamped :
  exists l w',
    WeatherDB.query_by_date "2024-03-04" march_store = (Ok l, w')
    /\ List.length l = 2%nat
    /\ Forall (fun obs => exists ts, getitem obs "obsTimeLocal" = Ok (PyStr ts)) l.
Proof.
  destruct (WeatherDB.query_by_date "2024-03-04" march_store) as [[l|e] w']
    eqn:Q; [|vm_compute in Q; discriminate].
  exists l, w'. split; [reflexivity|].
  split; [|exact (query_by_date_returns_stamped_rows _ _ _ _ Q)].
  run_lhs Q. injection Q as <- _. reflexivity.
Defined.

(* ================================================================== *)
(** * The route handlers *)

Lemma query_by_date_runs date_str dt next tbl w :
  disk w = DbFile (Some tbl) ->
  strptime_date date_str = Ok dt ->
  next_day (dt_date dt) = Ok next ->
  WeatherDB.query_by_date date_str w
  = (Ok (map WeatherDB.observation_of_row
           (select_between (strftime_midnight (dt_date dt))
              (strftime_midnight next) tbl)),
     log EvClose
       (log (EvExecute (SelectBetween (strftime_midnight (dt_date dt))
                          (strftime_midnight next)))
          (log EvConnect w))).
Proof.
  intros D P N. unfold WeatherDB.query_by_date, bind, connect, lift.
  rewrite D, P, N. reflexivity.
Qed.

(** X6.  [GET /historical/{date_str}] answers 400 exactly when the date
    does not parse, and then nothing was touched: no connection to the
    database was opened and the world is as before. *)
Theorem historical_400_is_the_malformed_date date_str w :
  (strptime_date date_str = Raise ValueError ->
   api.historical date_str w = (api.HTTPException 400, w))
  /\ (forall w',
        api.historical date_str w = (api.HTTPException 400, w') ->
        strptime_date date_str = Raise ValueError).
Proof.
  split.
  - intro P. unfold api.historical. rewrite P. reflexivity.
  - intros w'. unfold api.historical.
    destruct (strptime_date date_str) as [dt|e] eqn:P.
    + unfold api.hbind, api.call.
      destruct (WeatherDB.query_by_date date_str w) as [[l|e] w1];
        [|discriminate].
      destruct l as [|o l]; [discriminate|].
      unfold lift.
      destruct (ClimeCapsule.compile_daily_data (o :: l)); discriminate.
    + rewrite (strptime_date_raises _ _ P). reflexivity.
Qed.

(** The thirteenth month: 400, and the trace stays empty. *)
Lemma historical_2024_13_40 :
  api.historical "2024-13-40" march_store = (api.HTTPException 400, march_store)
  /\ trace march_store = [].
Proof.
  split; [|reflexivity].
  apply (proj1 (historical_400_is_the_malformed_date "2024-13-40" march_store)).
  reflexivity.
Defined.

(** X7.  For a date with a next day and a table whose rows are stamped
    as the provider stamps them, [GET /historical/{date_str}] answers
    404 exactly when no stored moment falls on that day. *)
Theorem historical_404_is_the_day_without_rows date_str dt next tbl w :
  disk w = DbFile (Some tbl) ->
  strptime_date date_str = Ok dt ->
  next_day (dt_date dt) = Ok next ->
  let stored := map weather_data.cols (weather_data.rows tbl) in
  Forall (fun v => exists t, stamped v t) stored ->
  fst (api.historical date_str w) = api.HTTPException 404
  <-> (forall v t,
         In v stored -> stamped v t ->
         ~ between (midnight (dt_date dt)) (midnight next) t).
Proof.
  intros D P N stored St.
  destruct (strptime_date_ok _ _ P) as (_ & V).
  pose proof (next_day_valid _ _ V N) as V'.
  unfold api.historical. rewrite P. unfold api.hbind, api.call.
  rewrite (query_by_date_runs _ _ _ _ _ D P N).
  set (start_ts := strftime_midnight (dt_date dt)).
  set (end_ts := strftime_midnight next).
  assert (Pm : Permutation (select_between start_ts end_ts tbl)
                 (filter (in_range start_ts end_ts) stored))
    by apply order_by_perm.
  destruct (select_between start_ts end_ts tbl) as [|v0 rest] eqn:S.
  - cbn. split; [|reflexivity]. intros _ v t I Sv B.
    apply (in_range_between _ _ v t V V' Sv) in B.
    assert (I' : In v (filter (in_range start_ts end_ts) stored))
      by (apply filter_In; split; assumption).
    apply (Permutation_in _ (Permutation_sym Pm)) in I'. exact I'.
  - cbn [map]. unfold lift.
    split.
    + destruct (ClimeCapsule.compile_daily_data _); discriminate.
    + intro No. exfalso.
      assert (I : In v0 (filter (in_range start_ts end_ts) stored))
        by (apply (Permutation_in _ Pm); left; reflexivity).
      apply filter_In in I. destruct I as (I & R).
      rewrite Forall_forall in St. destruct (St v0 I) as (t & Sv).
      apply (No v0 t I Sv).
      apply (in_range_between _ _ v0 t V V' Sv). exact R.
Qed.

(** The stocked table has one hour of 4 March 2024: the day after is
    answered with 404, the day itself is not. *)
Lemma historical_stocked_store :
  fst (api.historical "2024-03-05" stocked_store) = api.HTTPException 404
  /\ fst (api.historical "2024-03-04" stocked_store) <> api.HTTPException 404.
Proof.
  assert (St : Forall (fun v => exists t, stamped v t)
                 (map weather_data.cols (weather_data.rows stocked_table))).
  { constructor; [|constructor].
    exists (mkdatetime (mkdate 2024 3 4) 10 0 0). split; reflexivity. }
  split.
  - reflexivity.
  - intro H.
    pose proof (proj1 (historical_404_is_the_day_without_rows "2024-03-04"
                         (midnight (mkdate 2024 3 4)) (mkdate 2024 3 5)
                         stocked_table stocked_store eq_refl eq_refl eq_refl
                         St) H) as No.
    apply (No _ (mkdatetime (mkdate 2024 3 4) 10 0 0)
             (or_introl eq_refl)); [split; reflexivity|].
    split; [discriminate|reflexivity].
Defined.

(** X8.  [GET /today_plus_history] never renders its page.  The call
    [compile_daily_data(observations, None)] gives the one-parameter
    function two arguments, and the call in the loop over the past
    years gives it the keyword [through]: what the handler reaches
    instead is 404 or an unhandled exception. *)
Theorem today_plus_history_never_renders me fuel years_back w :
  (forall page,
      fst (api.today_plus_history me fuel years_back w) <> api.Returned page)
  /\ (forall today i count summaries result,
        fst (api.historical_summaries today i (S count) summaries w)
        <> api.Returned result).
Proof.
  split.
  - intro page. unfold api.today_plus_history, api.hbind, api.call.
    unfold ClimeCapsule.today at 1.
    destruct (ClimeCapsule.fetch_current_data me fuel w) as [[l|e] w1];
      [|discriminate].
    destruct l as [|o l]; [discriminate|].
    destruct (WeatherDB.insert_current_observations (o :: l) w1)
      as [[[]|e] w2]; [|discriminate].
    destruct (WeatherDB.query_by_date _ w2) as [[obs|e] w3];
      [|discriminate].
    cbn. discriminate.
  - intros today i count summaries result.
    cbn [api.historical_summaries]. unfold api.hbind, api.call, lift.
    destruct (api.past_date today i) as [past|e]; [|discriminate].
    destruct (WeatherDB.query_by_date _ w) as [[obs|e] w3];
      [|discriminate].
    cbn. discriminate.
Qed.

(** X9.  The day [i] years before a valid [today]: the same month, day
    and time of day in the year [today.year - i]; only for 29 February
    and a year that is not a leap year the day is the 28th.  A year
    before year 1 raises [ValueError] also from the fallback. *)
Theorem past_date_same_day_or_feb_28 today i :
  valid_datetime today = true ->
  0 <= i ->
  (i < year (dt_date today) ->
   exists past,
     api.past_date today i = Ok past
     /\ valid_datetime past = true
     /\ year (dt_date past) = year (dt_date today) - i
     /\ month (dt_date past) = month (dt_date today)
     /\ hour past = hour today
     /\ minute past = minute today
     /\ second past = second today
     /\ (day (dt_date past) = day (dt_date today)
         \/ (month (dt_date today) = 2
             /\ day (dt_date today) = 29
             /\ is_leap (year (dt_date today) - i) = false
             /\ day (dt_date past) = 28)))
  /\ (year (dt_date today) <= i ->
      api.past_date today i = Raise ValueError).
Proof.
  intros V I. unfold valid_datetime in V. apply andb_true_iff in V.
  destruct V as (Vd & Vt).
  pose proof (valid_date_bounds _ Vd) as (By & Bm & Bd & _).
  destruct today as [[y m d] h mi s]. cbn [dt_date year month day hour minute second] in *.
  unfold api.past_date, make_datetime.
  cbn [dt_date year month day hour minute second].
  rewrite Vt, !andb_true_r.
  split.
  - intro L.
    destruct (valid_date (mkdate (y - i) m d)) eqn:E.
    + eexists. split; [reflexivity|].
      unfold valid_datetime. cbn. rewrite E, Vt. repeat split. left. reflexivity.
    + assert (F : m = 2 /\ d = 29 /\ is_leap (y - i) = false).
      { unfold valid_date, MINYEAR, MAXYEAR in E.
        cbn [year month day] in E.
        rewrite !andb_false_iff, !Z.leb_gt in E.
        assert (G : days_in_month (y - i) m < d) by lia.
        clear E. unfold days_in_month in *.
        assert (C : m = 1 \/ m = 2 \/ m = 3 \/ m = 4 \/ m = 5 \/ m = 6
                    \/ m = 7 \/ m = 8 \/ m = 9 \/ m = 10 \/ m = 11 \/ m = 12)
          by lia.
        repeat (destruct C as [C|C]); subst m; try lia;
          destruct (is_leap (y - i)); destruct (is_leap y); try lia.
        all: repeat split; try lia; try reflexivity. }
      destruct F as (-> & -> & Lp).
      assert (E' : valid_date (mkdate (y - i) 2 28) = true).
      { unfold valid_date, MINYEAR, MAXYEAR, days_in_month.
        cbn [year month day]. rewrite Lp.
        rewrite !andb_true_iff, !Z.leb_le. lia. }
      rewrite E'. eexists. split; [reflexivity|].
      unfold valid_datetime. cbn [dt_date hour minute second year month day].
      rewrite E', Vt. repeat split. right. repeat split. exact Lp.
  - intro L.
    assert (E : forall dd, valid_date (mkdate (y - i) m dd) = false).
    { intro dd. unfold valid_date, MINYEAR. cbn [year month day].
      assert ((1 <=? y - i) = false) as -> by (apply Z.leb_gt; lia).
      reflexivity. }
    rewrite !E. reflexivity.
Qed.

(** From 29 February 2024 one year back is 28 February 2023, four years
    back is 29 February 2020. *)
Lemma past_date_of_a_leap_day :
  (exists past,
      api.past_date leap_day_2024 1 = Ok past
      /\ dt_date past = mkdate 2023 2 28)
  /\ (exists past,
         api.past_date leap_day_2024 4 = Ok past
         /\ dt_date past = mkdate 2020 2 29).
Proof.
  split.
  - destruct (past_date_same_day_or_feb_28 leap_day_2024 1 eq_refl)
      as (H & _); [lia|].
    destruct (H ltac:(cbn; lia)) as (past & P & _).
    exists past. split; [exact P|].
    run_lhs P. injection P as <-. reflexivity.
  - destruct (past_date_same_day_or_feb_28 leap_day_2024 4 eq_refl)
      as (H & _); [lia|].
    destruct (H ltac:(cbn; lia)) as (past & P & _).
    exists past. split; [exact P|].
    run_lhs P. injection P as <-. reflexivity.
Defined.

(* ================================================================== *)
(** * More on fetching *)

Lemma digit_char_not_dash d : Ascii.eqb (digit_char d) "-" = false.
Proof.
  pose proof (Z.mod_pos_bound d 10 ltac:(lia)) as B. unfold digit_char.
  assert (C : d mod 10 = 0 \/ d mod 10 = 1 \/ d mod 10 = 2 \/ d mod 10 = 3
              \/ d mod 10 = 4 \/ d mod 10 = 5 \/ d mod 10 = 6
              \/ d mod 10 = 7 \/ d mod 10 = 8 \/ d mod 10 = 9) by lia.
  repeat (destruct C as [C|C]); rewrite C; reflexivity.
Qed.

Lemma remove_all_dashes_compact d :
  ClimeCapsule.remove_all "-" (strftime_iso d) = strftime_compact d.
Proof.
  unfold strftime_iso, strftime_compact, pad4, pad2.
  cbn [String.append ClimeCapsule.remove_all].
  rewrite !digit_char_not_dash. reflexivity.
Qed.

Lemma date_leb_refl d : date_leb d d = true.
Proof.
  unfold date_leb, date_compare. rewrite !Z.compare_refl. reflexivity.
Qed.

Lemma date_leb_next_day d next :
  valid_date d = true -> next_day d = Ok next -> date_leb next d = false.
Proof.
  intros V N. pose proof (next_day_valid _ _ V N) as V'.
  destruct (next_day_key _ _ V N) as (L & _).
  destruct (date_leb next d) eqn:E; [|reflexivity].
  apply (date_leb_key _ _ V' V) in E. lia.
Qed.

Lemma walk_past me fuel start stop acc w :
  date_leb start stop = false ->
  ClimeCapsule.walk me fuel start stop acc w = (Ok acc, w).
Proof.
  intro E. destruct fuel; cbn [ClimeCapsule.walk]; rewrite E; reflexivity.
Qed.

(** X10.  [fetch_current_hourly_data] is the historical fetch of the one
    day today: for a valid today that has a next day, it gives the
    result and leaves the world that
    [fetch_historical_hourly_data(today, None)] gives and leaves.  The
    date parameter, made by deleting the dashes of the ISO date, is the
    compact date of the historical request. *)
Theorem fetch_current_hourly_data_is_the_fetch_of_today me fuel w next :
  valid_date (dt_date (now w)) = true ->
  next_day (dt_date (now w)) = Ok next ->
  ClimeCapsule.fetch_current_hourly_data me (S fuel) w
  = ClimeCapsule.fetch_historical_hourly_data me (S fuel)
      (ClimeCapsule.ArgDate (dt_date (now w))) None w
  /\ ClimeCapsule.current_hourly_params me (now w)
     = snd (hourly_request me (dt_date (now w))).
Proof.
  intros V N.
  assert (P : ClimeCapsule.current_hourly_params me (now w)
              = ClimeCapsule.hourly_params me (dt_date (now w))).
  { unfold ClimeCapsule.current_hourly_params, ClimeCapsule.hourly_params.
    rewrite remove_all_dashes_compact. reflexivity. }
  split; [|exact P].
  unfold ClimeCapsule.fetch_current_hourly_data,
    ClimeCapsule.fetch_historical_hourly_data.
  unfold bind, ret, lift, ClimeCapsule.today.
  cbn [ClimeCapsule.walk]. rewrite date_leb_refl, P.
  unfold bind, lift.
  destruct (ClimeCapsule.make_api_call (S fuel) (ClimeCapsule.hourly_url me)
              (ClimeCapsule.hourly_params me (dt_date (now w))) w)
    as [[data|e] w1]; [|reflexivity].
  destruct (iter_items data) as [items|e]; [|reflexivity].
  rewrite N. rewrite walk_past by (apply date_leb_next_day; assumption).
  reflexivity.
Qed.

(** On the third of January 2024 both fetch the two hours of that day
    with one request for [20240103]. *)
Lemma fetch_current_hourly_data_on_3_january :
  let r := ClimeCapsule.fetch_current_hourly_data kcodenve1 2
             (first_run hourly_provider) in
  r = ClimeCapsule.fetch_historical_hourly_data kcodenve1 2
        (ClimeCapsule.ArgDate (mkdate 2024 1 3)) None
        (first_run hourly_provider)
  /\ map (fun q => assoc "date" (snd q)) (requests_of (trace (snd r)))
     = [Some "20240103"]
  /\ (exists a b, fst r = Ok [a; b]).
Proof.
  destruct (fetch_current_hourly_data_is_the_fetch_of_today kcodenve1 1
              (first_run hourly_provider) (mkdate 2024 1 4) eq_refl eq_refl)
    as (E & _).
  split; [exact E|].
  split; [reflexivity|].
  eexists. eexists. reflexivity.
Defined.

Lemma limits_within {A} (f : M A) w :
  num_calls w < 30 \/ Qle_bool (period_remaining w) 0 = true ->
  limits 30 60 f w
  = f (set_limiter
         (if Qle_bool (period_remaining w) 0 then 1 else num_calls w + 1)
         (if Qle_bool (period_remaining w) 0 then monotonic w
          else last_reset w)
         w).
Proof.
  intro H. unfold limits, period_remaining in *.
  destruct (Qle_bool (60 - (monotonic w - last_reset w)) 0) eqn:E.
  - cbn. reflexivity.
  - destruct H as [H|H]; [|discriminate].
    cbn [num_calls set_limiter last_reset].
    assert (L : (30 <? num_calls w + 1) = false) by (apply Z.ltb_ge; lia).
    rewrite L. reflexivity.
Qed.

Lemma make_api_call_at_once fuel url params w :
  (1 <= fuel)%nat ->
  num_calls w < 30 \/ Qle_bool (period_remaining w) 0 = true ->
  exists w',
    ClimeCapsule.make_api_call fuel url params w
    = (decode (provider w (requests_of (trace w)) (url, params)), w')
    /\ trace w' = trace w ++ [EvHttpGet (url, params)]
    /\ monotonic w' = monotonic w
    /\ num_calls w'
       = (if Qle_bool (period_remaining w) 0 then 1 else num_calls w + 1)
    /\ last_reset w'
       = (if Qle_bool (period_remaining w) 0 then monotonic w
          else last_reset w)
    /\ disk w' = disk w
    /\ provider w' = provider w
    /\ now w' = now w.
Proof.
  intros F H. destruct fuel as [|fuel]; [lia|].
  pose proof (limits_within (ClimeCapsule.make_api_call_body url params) w H)
    as L.
  rewrite make_api_call_body_runs in L. cbn [provider trace set_limiter] in L.
  eexists. split.
  - unfold ClimeCapsule.make_api_call.
    rewrite sleep_and_retry_passes.
    + unfold on_exception. rewrite on_exception_from_passes; [exact L|].
      intros p w'. rewrite L. intro B. injection B as B _.
      exact (decode_no_rate_limit_exception _ _ B).
    + intros p w'. unfold on_exception.
      rewrite on_exception_from_passes.
      * rewrite L. intro B. injection B as B _.
        exact (decode_no_rate_limit_exception _ _ B).
      * intros p' w''. rewrite L. intro B. injection B as B _.
        exact (decode_no_rate_limit_exception _ _ B).
  - repeat split.
Qed.

(** X11.  Within the allowance of thirty calls, or once the period of
    sixty seconds is over, [make_api_call] sends its one request at
    once: it does not sleep, the clock stands, and the limiter counts
    the call, from one again when the period was over. *)
Theorem make_api_call_within_the_allowance fuel url params w :
  (1 <= fuel)%nat ->
  num_calls w < 30 \/ Qle_bool (period_remaining w) 0 = true ->
  exists w',
    ClimeCapsule.make_api_call fuel url params w
    = (decode (provider w (requests_of (trace w)) (url, params)), w')
    /\ trace w' = trace w ++ [EvHttpGet (url, params)]
    /\ monotonic w' = monotonic w
    /\ num_calls w'
       = (if Qle_bool (period_remaining w) 0 then 1 else num_calls w + 1)
    /\ last_reset w'
       = (if Qle_bool (period_remaining w) 0 then monotonic w
          else last_reset w)
    /\ disk w' = disk w.
Proof.
  intros F H.
  destruct (make_api_call_at_once fuel url params w F H)
    as (w' & R & T & M & C & L & D & _).
  exists w'. repeat split; assumption.
Qed.

(** The first call of a first run: one request, no sleep, the count is
    one. *)
Lemma make_api_call_first_call :
  exists w',
    ClimeCapsule.make_api_call 1 "u" [] (first_run throttling_provider)
    = (Raise (HTTPError 429), w')
    /\ trace w' = [EvHttpGet ("u", [])]
    /\ num_calls w' = 1.
Proof.
  destruct (make_api_call_within_the_allowance 1 "u" []
              (first_run throttling_provider) (le_n 1))
    as (w' & R & T & _ & C & _); [left; reflexivity|].
  exists w'. repeat split; assumption.
Defined.

(* ------------------------------------------------------------------ *)
(** ** What leaves the database file alone *)

Lemma keeps_disk_bind {A B} (c : M A) (k : A -> M B) :
  keeps_disk c -> (forall a, keeps_disk (k a)) -> keeps_disk (bind c k).
Proof.
  intros Hc Hk w. unfold bind. specialize (Hc w).
  destruct (c w) as [[a|e] w1]; cbn in *; [|exact Hc].
  rewrite Hk. exact Hc.
Qed.

Lemma keeps_disk_lift {A} (r : result A) : keeps_disk (lift r).
Proof. intro w. reflexivity. Qed.

Lemma keeps_disk_ret {A} (a : A) : keeps_disk (ret a).
Proof. intro w. reflexivity. Qed.

Lemma keeps_disk_sleep s : keeps_disk (sleep s).
Proof. intro w. unfold sleep. destruct (Qltb s 0); reflexivity. Qed.

Lemma keeps_disk_uniform v : keeps_disk (uniform v).
Proof. intro w. reflexivity. Qed.

Lemma keeps_disk_limits {A} calls period (f : M A) :
  keeps_disk f -> keeps_disk (limits calls period f).
Proof.
  intros Hf w. unfold limits.
  destruct (Qle_bool _ 0); cbn [num_calls set_limiter last_reset];
    match goal with |- context [if ?b then _ else _] => destruct b end;
    try reflexivity; rewrite Hf; reflexivity.
Qed.

Lemma keeps_disk_on_exception_from {A} (target : M A) left :
  keeps_disk target -> forall n, keeps_disk (on_exception_from left n target).
Proof.
  intro Ht. induction left as [|left IH]; intros n w;
    cbn [on_exception_from]; specialize (Ht w);
    destruct (target w) as [[a|e] w1]; cbn in Ht; try exact Ht;
    destruct e; try exact Ht.
  pose proof (keeps_disk_bind (uniform (inject_Z (2 ^ n)))
                (fun seconds =>
                   bind (sleep seconds)
                     (fun _ => on_exception_from left (n + 1) target))) as K.
  rewrite K; [exact Ht|apply keeps_disk_uniform|].
  intro s. apply keeps_disk_bind; [apply keeps_disk_sleep|].
  intros _. apply IH.
Qed.

Lemma keeps_disk_sleep_and_retry {A} (func : M A) fuel :
  keeps_disk func -> keeps_disk (sleep_and_retry fuel func).
Proof.
  intro Hf. induction fuel as [|fuel IH]; intro w;
    cbn [sleep_and_retry]; [reflexivity|].
  specialize (Hf w).
  destruct (func w) as [[a|e] w1]; cbn in Hf; try exact Hf;
    destruct e; try exact Hf.
  match goal with
  | |- context [sleep ?p] =>
      pose proof (keeps_disk_bind (sleep p)
                    (fun _ => sleep_and_retry fuel func)) as K
  end.
  rewrite K; [exact Hf|apply keeps_disk_sleep|]. intros _. exact IH.
Qed.

Lemma keeps_disk_make_api_call fuel url params :
  keeps_disk (ClimeCapsule.make_api_call fuel url params).
Proof.
  unfold ClimeCapsule.make_api_call.
  apply keeps_disk_sleep_and_retry. unfold on_exception.
  apply keeps_disk_on_exception_from. apply keeps_disk_limits.
  intro w. rewrite make_api_call_body_runs. reflexivity.
Qed.

Lemma keeps_disk_walk me fuel : forall start stop acc,
  keeps_disk (ClimeCapsule.walk me fuel start stop acc).
Proof.
  induction fuel as [|fuel IH]; intros start stop acc;
    cbn [ClimeCapsule.walk]; destruct (date_leb start stop);
    try (intro w; reflexivity).
  apply keeps_disk_bind; [apply keeps_disk_make_api_call|]. intro data.
  apply keeps_disk_bind; [apply keeps_disk_lift|]. intro items.
  apply keeps_disk_bind; [apply keeps_disk_lift|]. intro next.
  apply IH.
Qed.

Lemma keeps_disk_fetch_historical_hourly_data me fuel start_date end_date :
  keeps_disk
    (ClimeCapsule.fetch_historical_hourly_data me fuel start_date end_date).
Proof.
  unfold ClimeCapsule.fetch_historical_hourly_data.
  apply keeps_disk_bind.
  { destruct start_date; [apply keeps_disk_lift|apply keeps_disk_ret]. }
  intro start. apply keeps_disk_bind.
  { destruct end_date as [[s|d]|];
      [apply keeps_disk_lift|apply keeps_disk_ret|apply keeps_disk_ret]. }
  intro stop. apply keeps_disk_walk.
Qed.

Lemma init_db_skips me fuel w :
  disk w <> NoFile -> ClimeCapsule.init_db me fuel w = (Ok tt, w).
Proof.
  intro D. unfold ClimeCapsule.init_db, bind, ClimeCapsule.path_exists.
  destruct (disk w); [congruence|reflexivity].
Qed.

(** X12.  A first run that fails is never repeated.  When
    [ClimeCapsule.init_db] finds no database file and raises, whether
    from the provider, from the dates or from the insert, the file it
    leaves holds the empty table, and every later [init_db] finds the
    file and does nothing: the backfill is not tried again. *)
Theorem init_db_failure_is_never_retried me fuel w e w' :
  disk w = NoFile ->
  ClimeCapsule.init_db me fuel w = (Raise e, w') ->
  disk w' = DbFile (Some weather_data.empty)
  /\ forall fuel', ClimeCapsule.init_db me fuel' w' = (Ok tt, w').
Proof.
  intros D R.
  assert (T : disk w' = DbFile (Some weather_data.empty)).
  { revert R. unfold ClimeCapsule.init_db.
    unfold bind at 1, ClimeCapsule.path_exists. rewrite D. cbn [negb].
    unfold bind at 1.
    assert (I : exists w0, WeatherDB.init_db w = (Ok tt, w0)
                           /\ disk w0 = DbFile (Some weather_data.empty)).
    { unfold WeatherDB.init_db, bind, connect, execute, commit, close.
      rewrite D. cbn. eexists. split; reflexivity. }
    destruct I as (w0 & -> & D0).
    unfold bind at 1, ClimeCapsule.today at 1. unfold bind at 1.
    pose proof (keeps_disk_fetch_historical_hourly_data me fuel
                  (ClimeCapsule.ArgStr (ClimeCapsule.earliest_observation me))
                  (Some (ClimeCapsule.ArgStr
                           (strftime_iso (dt_date (now w0))))) w0) as K.
    destruct (ClimeCapsule.fetch_historical_hourly_data _ _ _ _ w0)
      as [[obs|e1] w1]; cbn [snd] in K.
    - intro R. apply insert_observations_failure in R.
      destruct R as (_ & _ & Keep & _).
      rewrite Keep by (rewrite K, D0; discriminate).
      rewrite K. exact D0.
    - intro R. injection R as _ <-. rewrite K. exact D0. }
  split; [exact T|].
  intro fuel'. apply init_db_skips. rewrite T. discriminate.
Qed.

(** A first run without a connection to the provider: [init_db] raises
    [ConnectionError], the empty table stays behind, and the second
    start does nothing. *)
Lemma init_db_offline_first_run :
  exists w',
    ClimeCapsule.init_db kcodenve1 4 offline_first_run
    = (Raise ConnectionError, w')
    /\ disk w' = DbFile (Some weather_data.empty)
    /\ ClimeCapsule.init_db kcodenve1 4 w' = (Ok tt, w').
Proof.
  destruct (ClimeCapsule.init_db kcodenve1 4 offline_first_run)
    as [[[]|e] w'] eqn:R; [vm_compute in R; discriminate|].
  destruct (init_db_failure_is_never_retried kcodenve1 4 offline_first_run
              e w' eq_refl R) as (D & Again).
  exists w'. split; [|split; [exact D|apply Again]].
  run_lhs R. injection R as <- _. reflexivity.
Defined.

(** X13.  [query_by_date] on a missing database file always raises, and
    it leaves a database file without the table behind.  After that
    [ClimeCapsule.init_db] finds the file and neither creates the table
    nor fetches anything. *)
Theorem query_by_date_on_a_missing_file date_str w :
  disk w = NoFile ->
  exists e w',
    WeatherDB.query_by_date date_str w = (Raise e, w')
    /\ disk w' = DbFile None
    /\ requests_of (trace w') = requests_of (trace w)
    /\ (forall dt next,
          strptime_date date_str = Ok dt -> next_day (dt_date dt) = Ok next ->
          e = OperationalError)
    /\ forall me fuel, ClimeCapsule.init_db me fuel w' = (Ok tt, w').
Proof.
  intro D. unfold WeatherDB.query_by_date, bind, connect, lift. rewrite D.
  destruct (strptime_date date_str) as [dt|e] eqn:P.
  - destruct (next_day (dt_date dt)) as [next|e] eqn:N.
    + cbn. eexists. eexists. split; [reflexivity|].
      split; [reflexivity|]. split.
      { cbn. rewrite !requests_of_app. cbn. rewrite !app_nil_r. reflexivity. }
      split; [reflexivity|].
      intros me fuel. apply init_db_skips. discriminate.
    + eexists. eexists. split; [reflexivity|].
      split; [reflexivity|]. split.
      { cbn. rewrite !requests_of_app. cbn. rewrite !app_nil_r. reflexivity. }
      split; [intros dt' next' H H'; injection H as <-; congruence|].
      intros me fuel. apply init_db_skips. discriminate.
  - eexists. eexists. split; [reflexivity|].
    split; [reflexivity|]. split.
    { cbn. rewrite !requests_of_app. cbn. rewrite !app_nil_r. reflexivity. }
    split; [intros dt' next' H; discriminate|].
    intros me fuel. apply init_db_skips. discriminate.
Qed.

(** Asked for a day before the first start, the store raises
    [OperationalError], and the start that follows fetches nothing. *)
Lemma query_by_date_before_the_first_start :
  exists w',
    WeatherDB.query_by_date "2024-01-02" (first_run hourly_provider)
    = (Raise OperationalError, w')
    /\ ClimeCapsule.init_db kcodenve1 4 w' = (Ok tt, w')
    /\ requests_of (trace w') = [].
Proof.
  destruct (query_by_date_on_a_missing_file "2024-01-02"
              (first_run hourly_provider) eq_refl)
    as (e & w' & Q & _ & T & E & I).
  exists w'. split; [|split; [apply I|exact T]].
  rewrite Q. rewrite (E _ _ eq_refl eq_refl). reflexivity.
Defined.

(* ================================================================== *)
(** * Parsing the timestamps of the provider *)

Lemma small_cases_from_zero (P : Z -> Prop) n :
  (forall i, (i < n)%nat -> P (Z.of_nat i)) ->
  forall z, 0 <= z < Z.of_nat n -> P z.
Proof.
  intros H z B. replace z with (Z.of_nat (Z.to_nat z)) by lia.
  apply H. lia.
Qed.

(** When the first success of [p] leads the rest of the expression to a
    full match, that match is the first of the whole. *)
Lemma p_bind_first {A B} (p : parser A) (k : A -> parser B) s a rest
  others b :
  p s = (a, rest) :: others ->
  (exists more, k a rest = (b, EmptyString) :: more) ->
  exists more, p_bind p k s = (b, EmptyString) :: more.
Proof.
  intros E (more & K). unfold p_bind. rewrite E. cbn [flat_map fst snd].
  rewrite K. eexists. reflexivity.
Qed.

Lemma tok_d_then_space d rest :
  1 <= d <= 31 ->
  exists others,
    tok_d (pad2 d ++ String " " rest)%string = (d, String " " rest) :: others.
Proof.
  revert d. apply (small_cases _ 31). intros i Hi.
  do 31 (destruct i as [|i]; [cbn; eexists; reflexivity|]).
  lia.
Qed.

Lemma is_space_digit_char a : is_space (digit_char a) = false.
Proof.
  pose proof (Z.mod_pos_bound a 10 ltac:(lia)) as B.
  unfold digit_char.
  assert (C : a mod 10 = 0 \/ a mod 10 = 1 \/ a mod 10 = 2 \/ a mod 10 = 3
              \/ a mod 10 = 4 \/ a mod 10 = 5 \/ a mod 10 = 6
              \/ a mod 10 = 7 \/ a mod 10 = 8 \/ a mod 10 = 9) by lia.
  repeat (destruct C as [C|C]); rewrite C; reflexivity.
Qed.

Lemma p_spaces_plus_one_space n rest :
  p_spaces_plus (String " " (pad2 n ++ rest))
  = [(tt, (pad2 n ++ rest)%string)].
Proof.
  unfold pad2. cbn [String.append]. unfold p_spaces_plus.
  change (is_space " ") with true. cbn iota. cbn [p_spaces_star].
  rewrite is_space_digit_char. reflexivity.
Qed.

Lemma tok_H_then_colon h rest :
  0 <= h <= 23 ->
  exists others,
    tok_H (pad2 h ++ String ":" rest)%string = (h, String ":" rest) :: others.
Proof.
  intro B. assert (B' : 0 <= h < Z.of_nat 24) by lia. clear B. revert h B'.
  apply small_cases_from_zero. intros i Hi.
  do 24 (destruct i as [|i]; [cbn; eexists; reflexivity|]).
  lia.
Qed.

Lemma tok_M_then_colon m rest :
  0 <= m <= 59 ->
  exists others,
    tok_M (pad2 m ++ String ":" rest)%string = (m, String ":" rest) :: others.
Proof.
  intro B. assert (B' : 0 <= m < Z.of_nat 60) by lia. clear B. revert m B'.
  apply small_cases_from_zero. intros i Hi.
  do 60 (destruct i as [|i]; [cbn; eexists; reflexivity|]).
  lia.
Qed.

Lemma tok_S_at_the_end s :
  0 <= s <= 59 ->
  exists others, tok_S (pad2 s) = (s, EmptyString) :: others.
Proof.
  intro B. assert (B' : 0 <= s < Z.of_nat 60) by lia. clear B. revert s B'.
  apply small_cases_from_zero. intros i Hi.
  do 60 (destruct i as [|i]; [cbn; eexists; reflexivity|]).
  lia.
Qed.

Lemma p_char_match {A} c rest (k : unit -> parser A) :
  p_bind (p_char c) k (String c rest) = k tt rest.
Proof.
  unfold p_bind, p_char. rewrite Ascii.eqb_refl. cbn [flat_map fst snd].
  apply app_nil_r.
Qed.

(** Every valid moment is read back from its timestamp. *)
Lemma strptime_datetime_strftime_stamp t :
  valid_datetime t = true -> strptime_datetime (strftime_stamp t) = Ok t.
Proof.
  intro V. pose proof V as V0.
  unfold valid_datetime in V. apply andb_true_iff in V. destruct V as (Vd & Vt).
  pose proof (valid_date_bounds _ Vd) as Bd.
  pose proof (valid_time_bounds _ _ _ Vt) as Bt.
  destruct t as [[y m d] h mi s].
  cbn [dt_date year month day hour minute second] in *.
  assert (F : exists more,
             re_datetime (strftime_stamp (mkdatetime (mkdate y m d) h mi s))
             = ((y, m, d, (h, mi, s)), EmptyString) :: more).
  { change (strftime_stamp (mkdatetime (mkdate y m d) h mi s))
      with (pad4 y
            ++ String "-"
                 (pad2 m
                  ++ String "-"
                       (pad2 d
                        ++ String " "
                             (pad2 h
                              ++ String ":"
                                   (pad2 mi ++ String ":" (pad2 s))))))%string.
    unfold re_datetime.
    rewrite tok_Y_pad4 by lia.
    rewrite p_char_match.
    rewrite (tok_m_pad2 m _
               (fun m0 : Z =>
                  p_bind tok_d
                    (fun d0 : Z =>
                       p_bind p_spaces_plus
                         (fun _ : unit =>
                            p_bind tok_H
                              (fun h0 : Z =>
                                 p_bind (p_char ":")
                                   (fun _ : unit =>
                                      p_bind tok_M
                                        (fun mi0 : Z =>
                                           p_bind (p_char ":")
                                             (fun _ : unit =>
                                                p_bind tok_S
                                                  (fun s0 : Z =>
                                                     p_ret
                                                       (y, m0, d0,
                                                        (h0, mi0, s0)))))))))))
      by lia.
    destruct (tok_d_then_space d
                (pad2 h ++ String ":" (pad2 mi ++ String ":" (pad2 s))))
      as (o1 & E1); [lia|].
    eapply p_bind_first; [exact E1|].
    unfold p_bind at 1. rewrite p_spaces_plus_one_space.
    cbn [flat_map fst snd]. rewrite app_nil_r.
    destruct (tok_H_then_colon h (pad2 mi ++ String ":" (pad2 s)))
      as (o2 & E2); [lia|].
    eapply p_bind_first; [exact E2|].
    rewrite p_char_match.
    destruct (tok_M_then_colon mi (pad2 s)) as (o3 & E3); [lia|].
    eapply p_bind_first; [exact E3|].
    rewrite p_char_match.
    destruct (tok_S_at_the_end s) as (o4 & E4); [lia|].
    eapply p_bind_first; [exact E4|].
    eexists. reflexivity. }
  destruct F as (more & F).
  unfold strptime_datetime, full_match. rewrite F. cbn [rbind].
  unfold make_datetime. rewrite Vd, Vt. reflexivity.
Qed.

(* ================================================================== *)
(** * From the provider to the summary *)

Lemma date_compare_refl d : date_compare d d = Eq.
Proof. unfold date_compare. rewrite !Z.compare_refl. reflexivity. Qed.

(** A moment lies in the day of its date. *)
Lemma own_day t next :
  valid_datetime t = true -> next_day (dt_date t) = Ok next ->
  between (midnight (dt_date t)) (midnight next) t.
Proof.
  intros V N. unfold valid_datetime in V. apply andb_true_iff in V.
  destruct V as (Vd & Vt).
  pose proof (valid_time_bounds _ _ _ Vt) as (Bh & Bm & Bs).
  pose proof (next_day_valid _ _ Vd N) as Vn.
  destruct (next_day_key _ _ Vd N) as (L & _).
  unfold between, time_compare, midnight. cbn [dt_date hour minute second].
  split.
  - rewrite date_compare_refl.
    destruct (Z.compare_spec 0 (hour t)); [|discriminate|lia].
    destruct (Z.compare_spec 0 (minute t)); [|discriminate|lia].
    destruct (Z.compare_spec 0 (second t)); [discriminate|discriminate|lia].
  - rewrite (date_compare_key _ _ Vd Vn).
    apply Z.compare_lt_iff in L. rewrite L. reflexivity.
Qed.

(** A moment between the midnights of a day is a moment of that day. *)
Lemma between_same_date t d next :
  valid_datetime t = true -> valid_date d = true -> next_day d = Ok next ->
  between (midnight d) (midnight next) t -> dt_date t = d.
Proof.
  intros V Vd N (Lo & Hi). unfold valid_datetime in V.
  apply andb_true_iff in V. destruct V as (Vt & Vh).
  pose proof (valid_time_bounds _ _ _ Vh) as (Bh & Bm & Bs).
  pose proof (next_day_valid _ _ Vd N) as Vn.
  destruct (next_day_key _ _ Vd N) as (_ & Least).
  unfold time_compare, midnight in Lo, Hi.
  cbn [dt_date hour minute second] in Lo, Hi.
  rewrite (date_compare_key _ _ Vd Vt) in Lo.
  rewrite (date_compare_key _ _ Vt Vn) in Hi.
  assert (A : date_key d <= date_key (dt_date t)).
  { destruct (Z.compare_spec (date_key d) (date_key (dt_date t)));
      [lia|lia|congruence]. }
  assert (B : date_key (dt_date t) < date_key next).
  { destruct (Z.compare_spec (date_key (dt_date t)) (date_key next));
      [|lia|discriminate].
    destruct (Z.compare_spec (hour t) 0); [|lia|discriminate].
    destruct (Z.compare_spec (minute t) 0); [|lia|discriminate].
    destruct (Z.compare_spec (second t) 0); [discriminate|lia|discriminate]. }
  apply date_key_inj; [assumption|assumption|].
  destruct (Z.eq_dec (date_key (dt_date t)) (date_key d)) as [E|NE];
    [exact E|].
  specialize (Least (dt_date t) Vt). lia.
Qed.

Lemma stamp_in_range v t next :
  stamped v t -> next_day (dt_date t) = Ok next ->
  in_range (strftime_midnight (dt_date t)) (strftime_midnight next) v = true.
Proof.
  intros S N. pose proof S as (V & _).
  assert (Vd : valid_date (dt_date t) = true).
  { unfold valid_datetime in V. apply andb_true_iff in V. apply V. }
  apply (in_range_between _ _ v t Vd (next_day_valid _ _ Vd N) S).
  apply own_day; assumption.
Qed.

Lemma scalar_round_trip x :
  scalar x -> exists v, bind_param x = Ok v /\ py_of_sql v = x.
Proof. intros [->|(q & ->)]; eexists; split; reflexivity. Qed.

Lemma fresh_stamp_is_stored v ts tbl :
  weather_data.obs_time_local v = SqlText ts ->
  ~ has_stamp ts tbl ->
  store_each tbl [v]
  = weather_data.mktable
      (weather_data.rows tbl
       ++ [weather_data.mkrow (weather_data.sqlite_sequence tbl + 1) v])
      (weather_data.sqlite_sequence tbl + 1).
Proof.
  intros S NS. cbn [store_each]. unfold insert_row.
  destruct (unique_violation v tbl) eqn:U; [|reflexivity].
  exfalso. apply NS. apply (unique_violation_stamp v tbl ts S). exact U.
Qed.

Lemma no_stamp_without_rows ts tbl :
  weather_data.rows tbl = [] -> ~ has_stamp ts tbl.
Proof. intros E (r & I & _). rewrite E in I. exact I. Qed.

(** X14.  An hourly observation of the provider with numeric fields,
    once inserted under a timestamp the table did not hold, comes back
    from [query_by_date] for its day as an observation
    [compile_daily_data] can read, with the same station, timestamp and
    numbers: the provider's [windspeedAvg], [windchillAvg] and
    [precipTotal] are read as [windspeedAverage], [windchillAverage]
    and [precipAverage], and [humidityAvg] is found under
    [imperial.humidity]. *)
Theorem hourly_observation_round_trip obs sid t next hum h tbl w :
  disk w = DbFile (Some tbl) ->
  getitem obs "stationID" = Ok (PyStr sid) ->
  getitem obs "obsTimeLocal" = Ok (PyStr (strftime_stamp t)) ->
  valid_datetime t = true ->
  next_day (dt_date t) = Ok next ->
  dict_get obs "humidityAvg" PyNone = Ok hum ->
  scalar hum ->
  sends obs h ->
  ~ has_stamp (strftime_stamp t) tbl ->
  exists w1 l w2 back,
    WeatherDB.insert_observations [obs] w = (Ok tt, w1)
    /\ WeatherDB.query_by_date (strftime_iso (dt_date t)) w1 = (Ok l, w2)
    /\ In back l
    /\ getitem back "stationID" = Ok (PyStr sid)
    /\ getitem back "obsTimeLocal" = Ok (PyStr (strftime_stamp t))
    /\ reads back h
    /\ ClimeCapsule.imperial back "humidity" = Ok hum.
Proof.
  intros D Hs Ht V N Hh Sh
    (S1 & S2 & S3 & S4 & S5 & S6 & S7 & S8 & S9 & S10 & S11) NS.
  destruct (scalar_round_trip _ Sh) as (hv & Bh & Ph).
  set (v := weather_data.mkvalues (SqlText sid) (SqlText (strftime_stamp t))
              (SqlNum (tempHigh h)) (SqlNum (tempLow h)) (SqlNum (tempAvg h))
              hv
              (SqlNum (windspeedHigh h)) (SqlNum (windspeedLow h))
              (SqlNum (windspeedAverage h))
              (SqlNum (windchillHigh h)) (SqlNum (windchillLow h))
              (SqlNum (windchillAverage h))
              (SqlNum (precipRate h)) (SqlNum (precipAverage h))).
  assert (R : row_of obs = Ok v).
  { unfold row_of, WeatherDB.insert_tuple.
    rewrite Hs, Ht, Hh, S1, S2, S3, S4, S5, S6, S7, S8, S9, S10, S11.
    cbn [rbind bind_values bind_param]. rewrite Bh. reflexivity. }
  assert (Vd : valid_date (dt_date t) = true).
  { unfold valid_datetime in V. apply andb_true_iff in V. apply V. }
  destruct (insert_observations_rows [obs] [v] tbl w D) as (w1 & I & D1).
  { repeat constructor. exact R. }
  rewrite (fresh_stamp_is_stored v _ tbl eq_refl NS) in D1.
  pose proof (query_by_date_runs (strftime_iso (dt_date t))
                (midnight (dt_date t)) next _ w1 D1
                (strptime_date_strftime_iso _ Vd) N) as Q.
  cbn [dt_date midnight] in Q.
  eexists. eexists. eexists. exists (WeatherDB.observation_of_row v).
  split; [exact I|]. split; [exact Q|].
  split.
  { apply in_map.
    apply (Permutation_in _ (Permutation_sym (order_by_perm _))).
    apply filter_In. split.
    - cbn [weather_data.rows]. rewrite map_app. apply in_or_app.
      right. left. reflexivity.
    - apply (stamp_in_range v t next); [split; [exact V|reflexivity]|exact N]. }
  split; [reflexivity|]. split; [reflexivity|].
  split; [repeat split|].
  cbn. rewrite Ph. reflexivity.
Qed.

(** The nine o'clock observation, inserted into the stocked table and
    queried: its [precipTotal] of 0.12 is read as [precipAverage]. *)
Lemma nine_o_clock_round_trip :
  exists w1 l w2 back,
    WeatherDB.insert_observations [nine_o_clock] stocked_store = (Ok tt, w1)
    /\ WeatherDB.query_by_date "2024-03-04" w1 = (Ok l, w2)
    /\ In back l
    /\ ClimeCapsule.imperial back "precipAverage"
       = Ok (PyNum (f64 (12 # 100))).
Proof.
  destruct (hourly_observation_round_trip nine_o_clock "KCODENVE1"
              (mkdatetime (mkdate 2024 3 4) 9 0 0) (mkdate 2024 3 5)
              (PyNum 30) nine_o_clock_numbers stocked_table stocked_store
              eq_refl eq_refl eq_refl eq_refl eq_refl eq_refl)
    as (w1 & l & w2 & back & I & Q & B & _ & _ & R & _).
  - right. eexists. reflexivity.
  - repeat split.
  - intros (r & [<-|[]] & E). discriminate E.
  - exists w1, l, w2, back. repeat split; try assumption.
    apply R.
Defined.

Lemma insert_current_observations_row obs v tbl w :
  disk w = DbFile (Some tbl) ->
  current_row_of obs = Ok v ->
  exists w',
    WeatherDB.insert_current_observations [obs] w = (Ok tt, w')
    /\ disk w' = DbFile (Some (store_each tbl [v])).
Proof.
  intros D R. unfold current_row_of in R.
  apply rbind_ok in R. destruct R as (params & P & B).
  unfold WeatherDB.insert_current_observations, bind, connect. rewrite D.
  cbn [WeatherDB.insert_current_each store_each].
  unfold bind, lift. rewrite P. unfold execute. cbn [rbind]. rewrite B.
  cbn [rbind].
  destruct (insert_row v tbl) as [t'|e] eqn:E.
  - cbn. eexists. split; reflexivity.
  - apply insert_row_raises in E. subst e. cbn. eexists. split; reflexivity.
Qed.

Lemma select_between_single start_ts end_ts v i :
  in_range start_ts end_ts v = true ->
  select_between start_ts end_ts
    (weather_data.mktable ([] ++ [weather_data.mkrow i v]) i)
  = [v].
Proof.
  intro R. unfold select_between.
  cbn [app weather_data.rows map weather_data.cols filter]. rewrite R.
  reflexivity.
Qed.

(** The summary of a day whose labels are known. *)
Lemma compile_daily_data_of observations hs first sid last ts t :
  Forall2 reads observations hs ->
  first_item observations = Ok first ->
  getitem first "stationID" = Ok (PyStr sid) ->
  last_item observations = Ok last ->
  getitem last "obsTimeLocal" = Ok (PyStr ts) ->
  strptime_datetime ts = Ok t ->
  ClimeCapsule.compile_daily_data observations
  = Ok (mkDailyObservation sid
          (strftime_iso (dt_date t)) (strftime_friendly (dt_date t))
          (running_high tempHigh hs 0) (running_low tempLow hs 150)
          (round2 (fmean (map tempAvg hs)))
          (running_high windspeedHigh hs 0)
          (running_low windspeedLow hs 150)
          (round2 (fmean (map windspeedAverage hs)))
          (running_high windchillHigh hs 0)
          (running_low windchillLow hs 150)
          (round2 (fmean (map windchillAverage hs)))
          (running_high precipRate hs 0)
          (round2 (fmean (map precipAverage hs)))).
Proof.
  intros F Hf Hs Hl Hts Ht.
  assert (NE : observations <> []).
  { intro E. subst. discriminate Hf. }
  assert (NEh : hs <> []).
  { intro E. subst hs. inversion F. subst. congruence. }
  unfold ClimeCapsule.compile_daily_data.
  destruct observations as [|o rest]; [congruence|].
  cbn [List.length Nat.eqb negb].
  rewrite Hl. cbn [rbind]. rewrite Hts. cbn [rbind py_strptime].
  rewrite Ht. cbn [rbind]. rewrite Hf. cbn [rbind]. rewrite Hs. cbn [rbind].
  rewrite (for_each_reads _ _ _ F). cbn [rbind].
  rewrite fold_pure_body.
  cbn [ClimeCapsule.initial_accumulators ClimeCapsule.high_temp
       ClimeCapsule.low_temp ClimeCapsule.total_avg_temp
       ClimeCapsule.high_windspeed ClimeCapsule.low_windspeed
       ClimeCapsule.total_avg_windspeed ClimeCapsule.high_wind_chill
       ClimeCapsule.low_wind_chill ClimeCapsule.total_avg_windchill
       ClimeCapsule.high_precip_rate ClimeCapsule.precip_rate_avg
       ClimeCapsule.observation_count].
  rewrite !(rounded_mean_total _ _ NEh). cbn [rbind].
  reflexivity.
Qed.

(** X15.  The current conditions, stored by
    [insert_current_observations] in a table without rows, are a day
    [compile_daily_data] can summarise: the query for the day returns
    the one row, and in its summary the one temperature, wind speed and
    wind chill each stand for high, low and average, the highs and lows
    against the starting values 0 and 150.  The averages are the float
    mean of the one value, rounded; for a value that is a float this is
    the value itself, rounded. *)
Theorem current_conditions_are_summarised obs sid t next hum c tbl w :
  disk w = DbFile (Some tbl) ->
  weather_data.rows tbl = [] ->
  getitem obs "stationID" = Ok (PyStr sid) ->
  getitem obs "obsTimeLocal" = Ok (PyStr (strftime_stamp t)) ->
  valid_datetime t = true ->
  next_day (dt_date t) = Ok next ->
  dict_get obs "humidity" PyNone = Ok hum ->
  scalar hum ->
  reports obs c ->
  exists w1 back w2 s,
    WeatherDB.insert_current_observations [obs] w = (Ok tt, w1)
    /\ WeatherDB.query_by_date (strftime_iso (dt_date t)) w1
       = (Ok [back], w2)
    /\ reads back (hour_of_conditions c)
    /\ ClimeCapsule.compile_daily_data [back] = Ok s
    /\ station_id s = sid
    /\ obs_time_local s = strftime_iso (dt_date t)
    /\ temp_high s = higher (temp c) 0
    /\ temp_low s = lower (temp c) 150
    /\ temp_avg s = round2 (fmean [temp c])
    /\ windspeed_high s = higher (windSpeed c) 0
    /\ windspeed_low s = lower (windSpeed c) 150
    /\ wind_chill_high s = higher (windChill c) 0
    /\ wind_chill_low s = lower (windChill c) 150
    /\ precip_rate s = higher (rate c) 0
    /\ precip_avg s = round2 (fmean [total c])
    /\ (binary64 (temp c) -> temp_avg s = round2 (mean [temp c]))
    /\ (binary64 (total c) -> precip_avg s = round2 (mean [total c])).
Proof.
  intros D E Hs Ht V N Hh Sh (S1 & S2 & S3 & S4 & S5).
  destruct (scalar_round_trip _ Sh) as (hv & Bh & Ph).
  set (v := weather_data.mkvalues (SqlText sid) (SqlText (strftime_stamp t))
              (SqlNum (temp c)) (SqlNum (temp c)) (SqlNum (temp c))
              hv
              (SqlNum (windSpeed c)) (SqlNum (windSpeed c))
              (SqlNum (windSpeed c))
              (SqlNum (windChill c)) (SqlNum (windChill c))
              (SqlNum (windChill c))
              (SqlNum (rate c)) (SqlNum (total c))).
  assert (R : current_row_of obs = Ok v).
  { unfold current_row_of, WeatherDB.current_tuple.
    rewrite Hs, Ht, Hh, S1, S2, S3, S4, S5.
    cbn [rbind bind_values bind_param]. rewrite Bh. reflexivity. }
  assert (Vd : valid_date (dt_date t) = true).
  { unfold valid_datetime in V. apply andb_true_iff in V. apply V. }
  destruct (insert_current_observations_row obs v tbl w D R)
    as (w1 & I & D1).
  rewrite (fresh_stamp_is_stored v _ tbl eq_refl
             (no_stamp_without_rows _ _ E)) in D1.
  rewrite E in D1.
  pose proof (query_by_date_runs (strftime_iso (dt_date t))
                (midnight (dt_date t)) next _ w1 D1
                (strptime_date_strftime_iso _ Vd) N) as Q.
  cbn [dt_date midnight] in Q.
  rewrite select_between_single in Q
    by (apply (stamp_in_range v t next);
        [split; [exact V|reflexivity]|exact N]).
  cbn [map] in Q.
  assert (Rd : reads (WeatherDB.observation_of_row v) (hour_of_conditions c))
    by (repeat split).
  pose proof (compile_daily_data_of [WeatherDB.observation_of_row v]
                [hour_of_conditions c] _ sid _ _ t
                (Forall2_cons _ _ Rd (Forall2_nil _))
                eq_refl eq_refl eq_refl eq_refl
                (strptime_datetime_strftime_stamp t V)) as C.
  eexists. eexists. eexists. eexists.
  split; [exact I|]. split; [exact Q|]. split; [exact Rd|].
  split; [exact C|].
  cbn [station_id obs_time_local temp_high temp_low temp_avg
       windspeed_high windspeed_low wind_chill_high wind_chill_low
       precip_rate precip_avg hour_of_conditions tempHigh tempLow tempAvg
       windspeedHigh windspeedLow windchillHigh windchillLow precipRate
       precipAverage map].
  repeat split; apply round2_fmean_single.
Qed.

(** The conditions of 12:10 on 4 March 2024: 52 degrees are the high,
    the low and the average of the day. *)
Lemma current_conditions_at_noon :
  exists w1 back w2 s,
    WeatherDB.insert_current_observations [current_conditions] noon_store
    = (Ok tt, w1)
    /\ WeatherDB.query_by_date "2024-03-04" w1 = (Ok [back], w2)
    /\ ClimeCapsule.compile_daily_data [back] = Ok s
    /\ temp_high s = 52%Q /\ temp_low s = 52%Q /\ (temp_avg s == 52)%Q.
Proof.
  destruct (current_conditions_are_summarised current_conditions "KCODENVE1"
              (mkdatetime (mkdate 2024 3 4) 12 10 27) (mkdate 2024 3 5)
              (PyNum 30) (mkconditions 52 7 52 0 (f64 (12 # 100)))
              weather_data.empty noon_store
              eq_refl eq_refl eq_refl eq_refl eq_refl eq_refl eq_refl)
    as (w1 & back & w2 & s & I & Q & _ & C & _ & _ & H & L & A & _).
  - right. eexists. reflexivity.
  - repeat split.
  - exists w1, back, w2, s. repeat split; try assumption.
    rewrite A. vm_compute. reflexivity.
Defined.

(* ================================================================== *)
(** * The routes and the summary *)

Lemma row_of_columns obs v :
  row_of obs = Ok v ->
  (exists p, getitem obs "stationID" = Ok p
             /\ bind_param p = Ok (weather_data.station_id v))
  /\ (exists p, WeatherDB.imperial_get obs "tempHigh" = Ok p
                /\ bind_param p = Ok (weather_data.temperature_high v)).
Proof.
  unfold row_of. intro H. apply rbind_ok in H.
  destruct H as (params & HP & H). unfold WeatherDB.insert_tuple in HP.
  repeat (let p := fresh "p" in
          let G := fresh "G" in
          apply rbind_ok in HP; destruct HP as (p & G & HP)).
  injection HP as <-. cbn [bind_values] in H.
  repeat (let c := fresh "c" in
          let B := fresh "B" in
          apply rbind_ok in H; destruct H as (c & B & H)).
  injection H as <-. cbn. split; eexists; split; eassumption.
Qed.

(** X16.  [GET /current] stores what it fetched with
    [insert_observations], which reads the keys of the hourly history.
    A current observation has no [tempHigh]: it is stored with a null
    high, the route answers as if all were well, and from then on
    [GET /historical] for the day of the observation ends in an
    unhandled [TypeError]. *)
Theorem current_route_breaks_the_day me fuel obs t next tbl w :
  (1 <= fuel)%nat ->
  num_calls w < 30 ->
  disk w = DbFile (Some tbl) ->
  weather_data.rows tbl = [] ->
  decode (provider w (requests_of (trace w))
            (ClimeCapsule.current_url me, ClimeCapsule.current_params me))
  = Ok (PyList [obs]) ->
  valid_raw obs ->
  getitem obs "obsTimeLocal" = Ok (PyStr (strftime_stamp t)) ->
  valid_datetime t = true ->
  next_day (dt_date t) = Ok next ->
  WeatherDB.imperial_get obs "tempHigh" = Ok PyNone ->
  exists w1 w2,
    api.current me fuel w
    = (api.Returned (strftime_iso (dt_date (now w)), [obs]), w1)
    /\ api.historical (strftime_iso (dt_date t)) w1
       = (api.Unhandled TypeError, w2).
Proof.
  intros F C D E P Vr Ht V N Th.
  destruct (make_api_call_at_once fuel (ClimeCapsule.current_url me)
              (ClimeCapsule.current_params me) w F (or_introl C))
    as (w0 & R & _ & _ & _ & _ & D0 & _).
  rewrite P in R. rewrite D in D0.
  destruct (valid_raw_row obs Vr) as (v & ts & Rv & G & S).
  assert (ts = strftime_stamp t) by congruence. subst ts.
  destruct (row_of_columns obs v Rv) as ((p1 & G1 & B1) & (p3 & G3 & B3)).
  destruct Vr as ((sid & Hs) & _).
  rewrite Hs in G1. injection G1 as <-. cbn in B1. injection B1 as B1.
  rewrite Th in G3. injection G3 as <-. cbn in B3. injection B3 as B3.
  assert (Vd : valid_date (dt_date t) = true).
  { unfold valid_datetime in V. apply andb_true_iff in V. apply V. }
  destruct (insert_observations_rows [obs] [v] tbl w0 D0) as (w1 & I & D1).
  { repeat constructor. exact Rv. }
  rewrite (fresh_stamp_is_stored v _ tbl S (no_stamp_without_rows _ _ E))
    in D1.
  rewrite E in D1.
  exists w1. eexists. split.
  - unfold api.current, api.hbind, api.call, ClimeCapsule.today,
      ClimeCapsule.fetch_current_data, bind, lift, ret.
    rewrite R. cbn [iter_items app]. rewrite I. reflexivity.
  - unfold api.historical.
    rewrite (strptime_date_strftime_iso _ Vd).
    unfold api.hbind, api.call.
    rewrite (query_by_date_runs (strftime_iso (dt_date t))
               (midnight (dt_date t)) next _ w1 D1
               (strptime_date_strftime_iso _ Vd) N).
    cbn [dt_date midnight].
    rewrite select_between_single
      by (apply (stamp_in_range v t next); [split; assumption|exact N]).
    cbn [map]. unfold lift.
    assert (Cm : ClimeCapsule.compile_daily_data
                   [WeatherDB.observation_of_row v] = Raise TypeError).
    { destruct v as [c1 c2 c3 c4 c5 c6 c7 c8 c9 c10 c11 c12 c13 c14].
      cbn in S, B1, B3. subst c1 c2 c3.
      unfold ClimeCapsule.compile_daily_data.
      cbn [List.length Nat.eqb negb last_item first_item rbind].
      match goal with
      | |- context [getitem ?x "obsTimeLocal"] =>
          change (getitem x "obsTimeLocal")
            with (Ok (PyStr (strftime_stamp t)))
      end.
      cbn [rbind py_strptime].
      rewrite (strptime_datetime_strftime_stamp t V).
      reflexivity. }
    rewrite Cm. reflexivity.
Qed.

(** At noon of 4 March 2024 the provider sends the current conditions:
    [/current] answers with them, and [/historical/2024-03-04] fails
    afterwards. *)
Lemma current_route_at_noon :
  exists w1 w2,
    api.current kcodenve1 1 noon_store
    = (api.Returned ("2024-03-04", [current_conditions]), w1)
    /\ api.historical "2024-03-04" w1 = (api.Unhandled TypeError, w2).
Proof.
  assert (Vr : valid_raw current_conditions).
  { split; [eexists; reflexivity|]. split; [eexists; reflexivity|].
    split; [eexists; split; [reflexivity|left; reflexivity]|].
    repeat constructor;
      (eexists; split;
       [reflexivity
       |first [left; reflexivity|right; eexists; reflexivity]]). }
  apply (current_route_breaks_the_day kcodenve1 1 current_conditions
           (mkdatetime (mkdate 2024 3 4) 12 10 27) (mkdate 2024 3 5)
           weather_data.empty noon_store (le_n 1)
           eq_refl eq_refl eq_refl eq_refl Vr eq_refl eq_refl eq_refl
           eq_refl).
Defined.

(* ------------------------------------------------------------------ *)
(** ** The labels of the summary *)

Lemma last_item_In {A} (l : list A) x : last_item l = Ok x -> In x l.
Proof.
  induction l as [|a l IH]; [discriminate|].
  destruct l as [|b l].
  - intro H. injection H as <-. left. reflexivity.
  - intro H. right. apply IH. exact H.
Qed.

Lemma rounded_mean_num total count v :
  ClimeCapsule.rounded_mean total count = Ok v -> exists q, v = PyNum q.
Proof.
  unfold ClimeCapsule.rounded_mean. destruct (count =? 0); [discriminate|].
  intro H. injection H as <-. eexists. reflexivity.
Qed.

Lemma compile_daily_data_labelled l s :
  ClimeCapsule.compile_daily_data l = Ok s ->
  exists head_obs last_obs sid ts t,
    first_item l = Ok head_obs
    /\ last_item l = Ok last_obs
    /\ getitem head_obs "stationID" = Ok (PyStr sid)
    /\ getitem last_obs "obsTimeLocal" = Ok (PyStr ts)
    /\ strptime_datetime ts = Ok t
    /\ station_id s = sid
    /\ obs_time_local s = strftime_iso (dt_date t)
    /\ friendly_date s = strftime_friendly (dt_date t).
Proof.
  unfold ClimeCapsule.compile_daily_data. intro H.
  destruct l as [|o rest]; [vm_compute in H; discriminate H|].
  cbn [List.length Nat.eqb negb] in H.
  bind_ok H last_obs Hl. bind_ok H stamp Hst. bind_ok H dt Hdt.
  bind_ok H head_obs Hf. bind_ok H station Hs. bind_ok H a Ha.
  bind_ok H avg_t H1. bind_ok H avg_w H2. bind_ok H avg_c H3.
  bind_ok H avg_p H4.
  destruct stamp as [| |ts| |]; try discriminate Hdt.
  cbn [py_strptime] in Hdt.
  destruct (rounded_mean_num _ _ _ H1) as (q1 & ->).
  destruct (rounded_mean_num _ _ _ H2) as (q2 & ->).
  destruct (rounded_mean_num _ _ _ H3) as (q3 & ->).
  destruct (rounded_mean_num _ _ _ H4) as (q4 & ->).
  remember (strftime_iso (dt_date dt)) as iso eqn:Ei.
  remember (strftime_friendly (dt_date dt)) as fr eqn:Ef.
  destruct station as [| |sid| |]; try (cbn in H; discriminate H).
  cbn in H. injection H as <-.
  exists head_obs, last_obs, sid, ts, dt. subst iso fr. repeat split; assumption.
Qed.

(** X17.  Whenever [compile_daily_data] returns a summary, the station
    of the summary is the station of the first observation, and its
    date and its friendly date are the date of the timestamp of the
    last observation; the timestamps of the others are not read.  The
    date is written so that [strptime] with ["%Y-%m-%d"] reads it
    back. *)
Theorem compile_daily_data_labels observations s :
  ClimeCapsule.compile_daily_data observations = Ok s ->
  exists head_obs last_obs sid ts t,
    first_item observations = Ok head_obs
    /\ last_item observations = Ok last_obs
    /\ getitem head_obs "stationID" = Ok (PyStr sid)
    /\ getitem last_obs "obsTimeLocal" = Ok (PyStr ts)
    /\ strptime_datetime ts = Ok t
    /\ station_id s = sid
    /\ obs_time_local s = strftime_iso (dt_date t)
    /\ friendly_date s = strftime_friendly (dt_date t)
    /\ strptime_date (obs_time_local s) = Ok (midnight (dt_date t)).
Proof.
  intro H.
  destruct (compile_daily_data_labelled _ _ H)
    as (head_obs & last_obs & sid & ts & t & Hf & Hl & Hs & Hts & Ht & A & B & C).
  exists head_obs, last_obs, sid, ts, t. repeat split; try assumption.
  rewrite B. apply strptime_date_strftime_iso.
  unfold strptime_datetime in Ht. apply rbind_ok in Ht.
  destruct Ht as ([[[y m] d] [[h mi] sec]] & _ & Ht).
  apply make_datetime_ok in Ht. destruct Ht as (-> & V).
  unfold valid_datetime in V. apply andb_true_iff in V. apply V.
Qed.

(** The last hour of 4 March at one station and the first hour of
    5 March at another: the summary names the first station and the
    second day. *)
Lemma compile_daily_data_two_stations_two_days :
  exists s,
    ClimeCapsule.compile_daily_data two_stations_two_days = Ok s
    /\ station_id s = "KCODENVE1"
    /\ obs_time_local s = "2024-03-05"
    /\ friendly_date s = "March 05, 2024".
Proof.
  destruct (ClimeCapsule.compile_daily_data two_stations_two_days)
    as [s|e] eqn:H; [|vm_compute in H; discriminate H].
  destruct (compile_daily_data_labels _ _ H)
    as (head_obs & last_obs & sid & ts & t & Hf & Hl & Hs & Hts & Ht & A & B & C & _).
  exists s. split; [reflexivity|].
  injection Hf as <-. injection Hl as <-.
  injection Hs as <-. injection Hts as <-.
  run_lhs Ht. injection Ht as <-.
  repeat split; assumption.
Defined.

(** X18.  For a valid date [d] with a next day and a table whose rows
    are stamped as the provider stamps them, the summary
    [GET /historical] returns for the ISO form of [d] is labelled with
    the date asked for: the date of the answer, the date of the
    summary and its friendly date are those of [d]. *)
Theorem historical_summary_is_of_the_day d next tbl w date_str s w' :
  disk w = DbFile (Some tbl) ->
  valid_date d = true ->
  next_day d = Ok next ->
  Forall (fun v => exists t, stamped v t)
    (map weather_data.cols (weather_data.rows tbl)) ->
  api.historical (strftime_iso d) w = (api.Returned (date_str, s), w') ->
  date_str = strftime_iso d
  /\ obs_time_local s = date_str
  /\ friendly_date s = strftime_friendly d.
Proof.
  intros D Vd N St. unfold api.historical.
  rewrite (strptime_date_strftime_iso _ Vd). unfold api.hbind, api.call.
  rewrite (query_by_date_runs (strftime_iso d) (midnight d) next _ w D
             (strptime_date_strftime_iso _ Vd) N).
  cbn [dt_date midnight].
  set (sel := select_between (strftime_midnight d) (strftime_midnight next)
                tbl).
  assert (Pm : Permutation sel
                 (filter (in_range (strftime_midnight d)
                            (strftime_midnight next))
                    (map weather_data.cols (weather_data.rows tbl))))
    by apply order_by_perm.
  destruct (map WeatherDB.observation_of_row sel) as [|o rest] eqn:L;
    [discriminate|].
  unfold lift.
  destruct (ClimeCapsule.compile_daily_data (o :: rest)) as [s0|e] eqn:C;
    [|discriminate].
  unfold api.returned. intro H. injection H as <- <- _.
  split; [reflexivity|].
  destruct (compile_daily_data_labelled _ _ C)
    as (head_obs & last_obs & sid & ts & t & _ & Hl & _ & Hts & Ht & _ & Ho & Hfr).
  assert (Same : dt_date t = d).
  { apply last_item_In in Hl. rewrite <- L in Hl.
    apply in_map_iff in Hl. destruct Hl as (v & <- & I).
    apply (Permutation_in _ Pm) in I. apply filter_In in I.
    destruct I as (I & R).
    rewrite Forall_forall in St. destruct (St v I) as (t0 & V0 & S0).
    cbn in Hts. rewrite S0 in Hts. cbn [py_of_sql] in Hts.
    injection Hts as <-.
    rewrite (strptime_datetime_strftime_stamp t0 V0) in Ht.
    injection Ht as <-.
    apply (between_same_date t0 d next V0 Vd N).
    apply (in_range_between _ _ v t0 Vd (next_day_valid _ _ Vd N)
             (conj V0 S0)).
    exact R. }
  rewrite Ho, Hfr, Same. split; reflexivity.
Qed.

(** The stocked table holds one hour of 4 March 2024: the answer for
    that day is labelled with it. *)
Lemma historical_2024_03_04 :
  exists s w',
    api.historical "2024-03-04" stocked_store
    = (api.Returned ("2024-03-04", s), w')
    /\ obs_time_local s = "2024-03-04"
    /\ friendly_date s = "March 04, 2024".
Proof.
  destruct (api.historical "2024-03-04" stocked_store)
    as [[[ds s]|c|e] w'] eqn:H;
    [|vm_compute in H; discriminate H|vm_compute in H; discriminate H].
  assert (St : Forall (fun v => exists t, stamped v t)
                 (map weather_data.cols (weather_data.rows stocked_table))).
  { constructor; [|constructor].
    exists (mkdatetime (mkdate 2024 3 4) 10 0 0). split; reflexivity. }
  destruct (historical_summary_is_of_the_day (mkdate 2024 3 4)
              (mkdate 2024 3 5) stocked_table stocked_store ds s w'
              eq_refl eq_refl eq_refl St H) as (-> & A & B).
  exists s, w'. repeat split; assumption.
Defined.

(* ------------------------------------------------------------------ *)
(** ** The order of the hours *)

Lemma is_maximum_same m m' l l' :
  is_maximum m l -> is_maximum m' l' -> Permutation l l' -> (m == m')%Q.
Proof.
  intros (I & F) (I' & F') P. rewrite Forall_forall in F, F'.
  apply Qle_antisym.
  - apply F'. apply (Permutation_in _ P). exact I.
  - apply F. apply (Permutation_in _ (Permutation_sym P)). exact I'.
Qed.

Lemma is_minimum_same m m' l l' :
  is_minimum m l -> is_minimum m' l' -> Permutation l l' -> (m == m')%Q.
Proof.
  intros (I & F) (I' & F') P. rewrite Forall_forall in F, F'.
  apply Qle_antisym.
  - apply F. apply (Permutation_in _ (Permutation_sym P)). exact I'.
  - apply F'. apply (Permutation_in _ P). exact I.
Qed.

Lemma running_high_perm f hs hs' init :
  Permutation hs hs' ->
  (running_high f hs init == running_high f hs' init)%Q.
Proof.
  intro P.
  apply (is_maximum_same _ _ _ _ (running_high_max f hs init)
           (running_high_max f hs' init)).
  apply perm_skip. apply Permutation_map. exact P.
Qed.

Lemma running_low_perm f hs hs' init :
  Permutation hs hs' ->
  (running_low f hs init == running_low f hs' init)%Q.
Proof.
  intro P.
  apply (is_minimum_same _ _ _ _ (running_low_min f hs init)
           (running_low_min f hs' init)).
  apply perm_skip. apply Permutation_map. exact P.
Qed.

(** X19.  The highs, the lows and the precipitation rate of the
    summary do not depend on the order of the observations: two days
    [compile_daily_data] can summarise whose hours carry the same
    numbers in another order agree in them.  The averages do depend on
    it, since the float sum does: the averages 58.0, 38.7, 64.6 and 60.4
    give 55.43 in this order and 55.42 in the reverse order. *)
Theorem compile_daily_data_order_of_the_hours :
  (forall l l' hs hs',
      full_day l hs ->
      full_day l' hs' ->
      Permutation hs hs' ->
      exists s s',
        ClimeCapsule.compile_daily_data l = Ok s
        /\ ClimeCapsule.compile_daily_data l' = Ok s'
        /\ (temp_high s == temp_high s')%Q
        /\ (temp_low s == temp_low s')%Q
        /\ (windspeed_high s == windspeed_high s')%Q
        /\ (windspeed_low s == windspeed_low s')%Q
        /\ (wind_chill_high s == wind_chill_high s')%Q
        /\ (wind_chill_low s == wind_chill_low s')%Q
        /\ (precip_rate s == precip_rate s')%Q)
  /\ (exists s s',
         full_day uneven_day uneven_hours
         /\ full_day (rev uneven_day) (rev uneven_hours)
         /\ Permutation uneven_hours (rev uneven_hours)
         /\ ClimeCapsule.compile_daily_data uneven_day = Ok s
         /\ ClimeCapsule.compile_daily_data (rev uneven_day) = Ok s'
         /\ temp_avg s = (5543 # 100)%Q
         /\ temp_avg s' = (5542 # 100)%Q).
Proof.
  split.
  - intros l l' hs hs' D D' P.
    destruct (compile_daily_data_full_day _ _ D) as (sid & t & E).
    destruct (compile_daily_data_full_day _ _ D') as (sid' & t' & E').
    eexists. eexists. split; [exact E|]. split; [exact E'|].
    cbn [temp_high temp_low windspeed_high windspeed_low
         wind_chill_high wind_chill_low precip_rate].
    repeat split;
      first [ apply running_high_perm; exact P
            | apply running_low_perm; exact P ].
  - eexists. eexists.
    split.
    { split; [discriminate|]. split; [repeat constructor|]. split.
      - eexists. eexists. split; reflexivity.
      - eexists. eexists. eexists. repeat split; reflexivity. }
    split.
    { split; [discriminate|]. split; [repeat constructor|]. split.
      - eexists. eexists. split; reflexivity.
      - eexists. eexists. eexists. repeat split; reflexivity. }
    split; [apply Permutation_rev|].
    split; [vm_compute; reflexivity|].
    split; [vm_compute; reflexivity|].
    split; reflexivity.
Qed.

(** Two hours of a morning, in both orders: the high is 55 and the low
    44 either way. *)
Lemma compile_daily_data_morning :
  exists s s',
    ClimeCapsule.compile_daily_data morning = Ok s
    /\ ClimeCapsule.compile_daily_data morning_reversed = Ok s'
    /\ (temp_high s == 55)%Q /\ (temp_high s' == 55)%Q
    /\ (temp_low s == 44)%Q /\ (temp_low s' == 44)%Q.
Proof.
  assert (D : full_day morning
                [mkhourly 52 44 48 9 0 4 52 44 48 0 0;
                 mkhourly 55 47 51 6 1 3 55 47 51 1 2]).
  { split; [discriminate|]. split; [repeat constructor|]. split.
    - eexists. eexists. split; reflexivity.
    - eexists. eexists. eexists. repeat split; reflexivity. }
  assert (D' : full_day morning_reversed
                 [mkhourly 55 47 51 6 1 3 55 47 51 1 2;
                  mkhourly 52 44 48 9 0 4 52 44 48 0 0]).
  { split; [discriminate|]. split; [repeat constructor|]. split.
    - eexists. eexists. split; reflexivity.
    - eexists. eexists. eexists. repeat split; reflexivity. }
  destruct (proj1 compile_daily_data_order_of_the_hours _ _ _ _ D D'
              (perm_swap _ _ _))
    as (s & s' & E & E' & _).
  exists s, s'. split; [exact E|]. split; [exact E'|].
  run_lhs E. injection E as <-. run_lhs E'. injection E' as <-.
  repeat split.
Defined.

(* ================================================================== *)
(** * A walk that fails, a station that is silent *)

Lemma walk_stops me (done : list date) :
  forall fuel start stop after acc w payloads failing rest e,
  valid_date start = true -> valid_date stop = true ->
  next_day stop = Ok after ->
  days_between start stop = done ++ failing :: rest ->
  answered (provider w) (requests_of (trace w))
    (map (hourly_request me) done) payloads ->
  fails_with
    (provider w (requests_of (trace w) ++ map (hourly_request me) done)
       (hourly_request me failing)) e ->
  (List.length done + 1 < fuel)%nat ->
  exists w' ev,
    ClimeCapsule.walk me fuel start stop acc w = (Raise e, w')
    /\ trace w' = trace w ++ ev
    /\ requests_of ev = map (hourly_request me) (done ++ [failing])
    /\ Forall (fun x => is_db_event x = false) ev
    /\ disk w' = disk w.
Proof.
  induction done as [|d done IH];
    intros fuel start stop after acc w payloads failing rest e
      V Vs A Days Ans Fail Len;
    (destruct fuel as [|fuel]; [lia|]);
    (destruct (date_leb start stop) eqn:E;
     [|rewrite (days_between_past _ _ E) in Days; discriminate Days]);
    pose proof (proj1 (date_leb_key _ _ V Vs) E) as L;
    destruct (next_day_before_last _ _ _ V Vs L A) as (next & N);
    pose proof (next_day_valid _ _ V N) as Vn;
    rewrite (days_between_step _ _ _ V Vs E N) in Days;
    cbn [app] in Days; injection Days as <- Days;
    destruct (make_api_call_once (S fuel) (ClimeCapsule.hourly_url me)
                (ClimeCapsule.hourly_params me start) w)
      as (w1 & sleeps & R & W & _); try lia;
    set (w2 := log (EvHttpGet (hourly_request me start)) w1);
    assert (T2 : trace w2
                 = trace w ++ map EvSleep sleeps
                   ++ [EvHttpGet (hourly_request me start)])
      by (destruct W as (_ & _ & _ & T); unfold w2; cbn;
          rewrite T, <- app_assoc; reflexivity);
    assert (D2 : disk w2 = disk w) by (destruct W as (D & _); exact D).
  - cbn [map] in Fail. rewrite app_nil_r in Fail.
    exists w2, (map EvSleep sleeps ++ [EvHttpGet (hourly_request me start)]).
    split.
    { cbn [ClimeCapsule.walk]. rewrite E. unfold bind at 1.
      rewrite R. fold (hourly_request me start). fold w2.
      destruct Fail as [Hd|(data & Hd & Hi)]; rewrite Hd; [reflexivity|].
      unfold bind at 1, lift at 1. rewrite Hi. reflexivity. }
    split; [exact T2|]. split.
    { rewrite requests_of_app, requests_of_sleeps. reflexivity. }
    split; [|exact D2].
    apply Forall_app. split; [apply no_db_event_sleeps|].
    constructor; [reflexivity|constructor].
  - cbn [map] in Ans, Fail. unfold answered in Ans. cbn [replay] in Ans.
    inversion Ans as [|out items outs payloads' (data & Hd & Hi) Ans' Eo Ep].
    subst.
    assert (H2 : requests_of (trace w2)
                 = requests_of (trace w) ++ [hourly_request me start]).
    { rewrite T2, !requests_of_app, requests_of_sleeps. reflexivity. }
    assert (P2 : provider w2 = provider w)
      by (destruct W as (_ & P & _); exact P).
    destruct (IH fuel next stop after (acc ++ items) w2 payloads' failing
                rest e Vn Vs A Days)
      as (w' & ev & Rw & Tw & Qw & Fw & Dw).
    { unfold answered. rewrite P2, H2. exact Ans'. }
    { rewrite P2, H2, <- app_assoc. exact Fail. }
    { cbn [List.length] in Len. lia. }
    exists w',
      (map EvSleep sleeps ++ [EvHttpGet (hourly_request me start)] ++ ev).
    split.
    { cbn [ClimeCapsule.walk]. rewrite E. unfold bind at 1.
      rewrite R. fold (hourly_request me start). fold w2.
      rewrite Hd. unfold bind at 1, lift at 1. rewrite Hi.
      unfold bind at 1, lift at 1. rewrite N. exact Rw. }
    split; [rewrite Tw, T2, <- !app_assoc; reflexivity|].
    split.
    { rewrite !requests_of_app, requests_of_sleeps. cbn. rewrite Qw.
      reflexivity. }
    split; [|rewrite Dw; exact D2].
    apply Forall_app. split; [apply no_db_event_sleeps|].
    constructor; [reflexivity|exact Fw].
Qed.

(** X20.  The walk over a range of days stops at the first day whose
    answer fails.  When the days before it were answered, the fetch
    raises the exception of the failing day; the requests made are
    those of the days before and of the failing day, no day after it
    is asked for, what the days before returned is not returned, and
    the database is not touched. *)
Theorem fetch_stops_at_the_first_failure
  me fuel w start_str end_str start_dt stop_dt after done failing rest
  payloads e :
  strptime_date start_str = Ok start_dt ->
  strptime_date end_str = Ok stop_dt ->
  next_day (dt_date stop_dt) = Ok after ->
  days_between (dt_date start_dt) (dt_date stop_dt)
  = done ++ failing :: rest ->
  answered (provider w) (requests_of (trace w))
    (map (hourly_request me) done) payloads ->
  fails_with
    (provider w (requests_of (trace w) ++ map (hourly_request me) done)
       (hourly_request me failing)) e ->
  (List.length done + 1 < fuel)%nat ->
  exists w' ev,
    ClimeCapsule.fetch_historical_hourly_data me fuel
      (ClimeCapsule.ArgStr start_str) (Some (ClimeCapsule.ArgStr end_str)) w
    = (Raise e, w')
    /\ trace w' = trace w ++ ev
    /\ requests_of ev = map (hourly_request me) (done ++ [failing])
    /\ Forall (fun x => is_db_event x = false) ev
    /\ disk w' = disk w.
Proof.
  intros Ps Pe A Days Ans Fail Len.
  destruct (strptime_date_ok _ _ Ps) as (_ & V).
  destruct (strptime_date_ok _ _ Pe) as (_ & Vs).
  destruct (walk_stops me done fuel _ _ after [] w payloads failing rest e
              V Vs A Days Ans Fail Len) as (w' & ev & R & H).
  exists w', ev. split; [|exact H].
  unfold ClimeCapsule.fetch_historical_hourly_data, bind, lift.
  rewrite Ps, Pe. cbn [rbind]. exact R.
Qed.

(** The first three days of 2024 from a provider that fails after the
    first request: the second day raises, the third is not asked for. *)
Lemma fetch_fails_on_2_january :
  exists w',
    ClimeCapsule.fetch_historical_hourly_data kcodenve1 4
      (ClimeCapsule.ArgStr "2024-01-01")
      (Some (ClimeCapsule.ArgStr "2024-01-03")) (first_run flaky_provider)
    = (Raise (HTTPError 500), w')
    /\ map (fun q => assoc "date" (snd q)) (requests_of (trace w'))
       = [Some "20240101"; Some "20240102"].
Proof.
  destruct (fetch_stops_at_the_first_failure kcodenve1 4
              (first_run flaky_provider) "2024-01-01" "2024-01-03"
              (midnight (mkdate 2024 1 1)) (midnight (mkdate 2024 1 3))
              (mkdate 2024 1 4) [mkdate 2024 1 1] (mkdate 2024 1 2)
              [mkdate 2024 1 3]
              [[hour_of "20240101" "00" 40; hour_of "20240101" "01" 39]]
              (HTTPError 500) eq_refl eq_refl eq_refl eq_refl)
    as (w' & ev & R & T & Q & _).
  - constructor; [|constructor]. eexists. split; reflexivity.
  - left. reflexivity.
  - cbn. lia.
  - exists w'. split; [exact R|].
    rewrite T. cbn [trace first_run app]. rewrite Q. reflexivity.
Defined.

(** X21.  When the provider answers without observations, with an empty
    list or without the key, [GET /today_plus_history] answers 404
    after its one request and does not open the database, and
    [GET /current] returns the empty list of today after a
    transaction that inserted nothing. *)
Theorem routes_when_the_station_is_silent me fuel years_back w :
  (1 <= fuel)%nat ->
  num_calls w < 30 ->
  decode (provider w (requests_of (trace w))
            (ClimeCapsule.current_url me, ClimeCapsule.current_params me))
  = Ok (PyList []) ->
  let get := EvHttpGet (ClimeCapsule.current_url me,
                        ClimeCapsule.current_params me) in
  (exists w',
      api.today_plus_history me fuel years_back w
      = (api.HTTPException 404, w')
      /\ trace w' = trace w ++ [get]
      /\ disk w' = disk w)
  /\ (exists w',
         api.current me fuel w
         = (api.Returned (strftime_iso (dt_date (now w)), []), w')
         /\ trace w' = trace w ++ [get; EvConnect; EvCommit; EvClose]
         /\ table_of (disk w') = table_of (disk w)).
Proof.
  intros F C P get.
  destruct (make_api_call_at_once fuel (ClimeCapsule.current_url me)
              (ClimeCapsule.current_params me) w F (or_introl C))
    as (w0 & R & T & _ & _ & _ & D0 & _).
  rewrite P in R.
  split.
  - exists w0. split; [|split; assumption].
    unfold api.today_plus_history, api.hbind, api.call, ClimeCapsule.today,
      ClimeCapsule.fetch_current_data, bind, lift, ret.
    rewrite R. reflexivity.
  - unfold api.current, api.hbind, api.call, ClimeCapsule.today,
      ClimeCapsule.fetch_current_data, bind, lift, ret.
    rewrite R. cbn [iter_items app].
    unfold WeatherDB.insert_observations, bind, connect, commit, close.
    destruct (disk w0) as [|tbl]; cbn; eexists;
      (split; [reflexivity|]); cbn; rewrite T, <- !app_assoc, <- D0;
      (split; [reflexivity|]); reflexivity.
Qed.

(** A station with nothing to report: 404 from the one route, the
    empty list from the other. *)
Lemma routes_of_a_quiet_station :
  (exists w',
      api.today_plus_history kcodenve1 1 2 (first_run quiet_provider)
      = (api.HTTPException 404, w')
      /\ disk w' = NoFile)
  /\ (exists w',
         api.current kcodenve1 1 (first_run quiet_provider)
         = (api.Returned ("2024-01-03", []), w')).
Proof.
  destruct (routes_when_the_station_is_silent kcodenve1 1 2
              (first_run quiet_provider) (le_n 1) eq_refl eq_refl)
    as ((w1 & R1 & _ & D1) & (w2 & R2 & _)).
  split; [exists w1; split; assumption|exists w2; exact R2].
Defined.

(* ================================================================== *)
(** * What every summary satisfies *)

Lemma reads_exist obs :
  (forall k, In k read_keys ->
             exists q, ClimeCapsule.imperial obs k = Ok (PyNum q)) ->
  exists h, reads obs h.
Proof.
  intro H.
  assert (K : Forall (fun k => exists q,
                        ClimeCapsule.imperial obs k = Ok (PyNum q))
                read_keys)
    by (apply Forall_forall; exact H).
  unfold read_keys in K.
  repeat match goal with
         | F : Forall _ (_ :: _) |- _ =>
             let q := fresh "q" in
             let E := fresh "E" in
             let F' := fresh "F" in
             apply Forall_cons_iff in F; destruct F as ((q & E) & F')
         end.
  exists (mkhourly q q0 q1 q2 q3 q4 q5 q6 q7 q8 q9).
  repeat split; assumption.
Qed.

Lemma all_read l :
  (forall obs k, In obs l -> In k read_keys ->
                 exists q, ClimeCapsule.imperial obs k = Ok (PyNum q)) ->
  exists hs, Forall2 reads l hs.
Proof.
  induction l as [|obs l IH]; intro H.
  - exists []. constructor.
  - destruct (reads_exist obs) as (h & R).
    { intros k K. apply (H obs k); [left; reflexivity|exact K]. }
    destruct IH as (hs & F).
    { intros o k I K. apply (H o k); [right; exact I|exact K]. }
    exists (h :: hs). constructor; assumption.
Qed.

(** A list [compile_daily_data] summarises is a full day. *)
Lemma compile_daily_data_full l s :
  ClimeCapsule.compile_daily_data l = Ok s -> exists hs, full_day l hs.
Proof.
  intro H.
  destruct (compile_daily_data_labelled _ _ H)
    as (head_obs & last_obs & sid & ts & t & Hf & Hl & Hs & Hts & Ht & _).
  destruct (all_read l (compile_daily_data_ok l s H)) as (hs & F).
  exists hs. split; [intro E; subst; discriminate Hf|].
  split; [exact F|]. split.
  - exists head_obs, sid. split; assumption.
  - exists last_obs, ts, t. repeat split; assumption.
Qed.

Lemma running_high_ge f hs init : (init <= running_high f hs init)%Q.
Proof.
  destruct (running_high_max f hs init) as (_ & F).
  inversion F; subst. assumption.
Qed.

Lemma running_low_le f hs init : (running_low f hs init <= init)%Q.
Proof.
  destruct (running_low_min f hs init) as (_ & F).
  inversion F; subst. assumption.
Qed.

(** X22.  Whatever the observations, a summary [compile_daily_data]
    returns has no high and no precipitation rate below 0 and no low
    above 150, the starting values of the loop, and each of its four
    averages is a number of hundredths. *)
Theorem compile_daily_data_ranges observations s :
  ClimeCapsule.compile_daily_data observations = Ok s ->
  (0 <= temp_high s)%Q /\ (temp_low s <= 150)%Q
  /\ (0 <= windspeed_high s)%Q /\ (windspeed_low s <= 150)%Q
  /\ (0 <= wind_chill_high s)%Q /\ (wind_chill_low s <= 150)%Q
  /\ (0 <= precip_rate s)%Q
  /\ Qden (temp_avg s) = 100%positive
  /\ Qden (windspeed_avg s) = 100%positive
  /\ Qden (wind_chill_avg s) = 100%positive
  /\ Qden (precip_avg s) = 100%positive.
Proof.
  intro H. destruct (compile_daily_data_full _ _ H) as (hs & D).
  destruct (compile_daily_data_full_day _ _ D) as (sid & t & E).
  rewrite H in E. injection E as ->.
  cbn [temp_high temp_low temp_avg windspeed_high windspeed_low
       windspeed_avg wind_chill_high wind_chill_low wind_chill_avg
       precip_rate precip_avg].
  repeat split;
    first [ apply running_high_ge | apply running_low_le | reflexivity ].
Qed.

(** The two hours of the morning: the bounds hold, and the average of
    48 and 51 is 4950 hundredths. *)
Lemma compile_daily_data_morning_ranges :
  exists s,
    ClimeCapsule.compile_daily_data morning = Ok s
    /\ (0 <= temp_high s)%Q /\ (temp_low s <= 150)%Q
    /\ temp_avg s = (4950 # 100)%Q.
Proof.
  destruct (ClimeCapsule.compile_daily_data morning) as [s|e] eqn:H;
    [|vm_compute in H; discriminate H].
  destruct (compile_daily_data_ranges _ _ H) as (A & B & _).
  exists s. split; [reflexivity|]. split; [exact A|]. split; [exact B|].
  run_lhs H. injection H as <-. reflexivity.
Defined.

(* ================================================================== *)
(** * [GET /current], twice *)

Lemma same_but_db_refl w : same_but_db w w.
Proof. repeat split. Qed.

Lemma same_but_db_trans w1 w2 w3 :
  same_but_db w1 w2 -> same_but_db w2 w3 -> same_but_db w1 w3.
Proof.
  intros (A1 & A2 & A3 & A4 & A5 & A6) (B1 & B2 & B3 & B4 & B5 & B6).
  repeat split; congruence.
Qed.

Lemma same_but_db_log e w :
  is_db_event e = true -> same_but_db w (log e w).
Proof.
  intro E. repeat split. cbn. rewrite requests_of_app.
  destruct e; try discriminate E; cbn; apply app_nil_r.
Qed.

Lemma same_but_db_set_disk d w : same_but_db w (set_disk d w).
Proof. repeat split. Qed.

Lemma same_but_db_connect w : same_but_db w (snd (connect w)).
Proof.
  unfold connect. destruct (disk w); cbn [snd].
  - eapply same_but_db_trans; [apply same_but_db_set_disk|].
    apply same_but_db_log. reflexivity.
  - apply same_but_db_log. reflexivity.
Qed.

Lemma same_but_db_execute conn s w :
  same_but_db w (snd (execute conn s w)).
Proof.
  assert (L : same_but_db w (log (EvExecute s) w))
    by (apply same_but_db_log; reflexivity).
  unfold execute. destruct s as [|params|a b]; destruct conn as [t|];
    cbn [snd];
    first [ exact L
          | eapply same_but_db_trans; [exact L|apply same_but_db_set_disk]
          | destruct (v <- bind_values params ;; insert_row v t)%py;
            exact L ].
Qed.

Lemma same_but_db_insert_each batch : forall conn w,
  same_but_db w (snd (WeatherDB.insert_each conn batch w)).
Proof.
  induction batch as [|obs batch IH]; intros conn w.
  - apply same_but_db_refl.
  - cbn [WeatherDB.insert_each]. unfold bind, lift.
    destruct (WeatherDB.insert_tuple obs) as [params|e].
    + pose proof (same_but_db_execute conn (InsertInto params) w) as X.
      destruct (execute conn (InsertInto params) w) as [[[c' rows]|e] w1];
        cbn [snd] in X.
      * eapply same_but_db_trans; [exact X|apply IH].
      * destruct e; try exact X;
          eapply same_but_db_trans; [exact X|apply IH].
    + destruct e; try apply same_but_db_refl. apply IH.
Qed.

Lemma same_but_db_insert_observations batch w :
  same_but_db w (snd (WeatherDB.insert_observations batch w)).
Proof.
  unfold WeatherDB.insert_observations, bind.
  pose proof (same_but_db_connect w) as C.
  destruct (connect w) as [[conn|e] w0]; cbn [snd] in C; [|exact C].
  pose proof (same_but_db_insert_each batch conn w0) as I.
  destruct (WeatherDB.insert_each conn batch w0) as [[conn'|e] w1];
    cbn [snd] in I; [|eapply same_but_db_trans; eassumption].
  unfold commit, close. cbn [snd].
  apply (same_but_db_trans _ w0 _ C). apply (same_but_db_trans _ w1 _ I).
  apply (same_but_db_trans _ (set_disk (DbFile conn') w1) _
           (same_but_db_set_disk _ _)).
  apply (same_but_db_trans _ (log EvCommit (set_disk (DbFile conn') w1)) _
           (same_but_db_log EvCommit _ eq_refl)).
  apply (same_but_db_log EvClose _ eq_refl).
Qed.

(** One run of the route on a store that holds the table. *)
Lemma current_route_stores me fuel obs v tbl w :
  (1 <= fuel)%nat ->
  num_calls w < 30 ->
  disk w = DbFile (Some tbl) ->
  decode (provider w (requests_of (trace w))
            (ClimeCapsule.current_url me, ClimeCapsule.current_params me))
  = Ok (PyList [obs]) ->
  row_of obs = Ok v ->
  exists w1,
    api.current me fuel w
    = (api.Returned (strftime_iso (dt_date (now w)), [obs]), w1)
    /\ disk w1 = DbFile (Some (store_each tbl [v]))
    /\ provider w1 = provider w
    /\ now w1 = now w
    /\ requests_of (trace w1)
       = requests_of (trace w)
         ++ [(ClimeCapsule.current_url me, ClimeCapsule.current_params me)]
    /\ num_calls w1
       = (if Qle_bool (period_remaining w) 0 then 1 else num_calls w + 1).
Proof.
  intros F C D P Rv.
  destruct (make_api_call_at_once fuel (ClimeCapsule.current_url me)
              (ClimeCapsule.current_params me) w F (or_introl C))
    as (w0 & R & T & _ & Cn & _ & D0 & P0 & N0).
  rewrite P in R. rewrite D in D0.
  destruct (insert_observations_rows [obs] [v] tbl w0 D0) as (w1 & I & D1).
  { repeat constructor. exact Rv. }
  pose proof (same_but_db_insert_observations [obs] w0) as S.
  rewrite I in S. cbn [snd] in S.
  destruct S as (S1 & S2 & _ & S4 & _ & S6).
  exists w1. split.
  { unfold api.current, api.hbind, api.call, ClimeCapsule.today,
      ClimeCapsule.fetch_current_data, bind, lift, ret.
    rewrite R. cbn [iter_items app]. rewrite I. reflexivity. }
  split; [exact D1|]. split; [congruence|]. split; [congruence|].
  split; [|congruence].
  rewrite S6, T, requests_of_app. reflexivity.
Qed.

(** X23.  [GET /current] twice with the same answer of the provider
    stores the observation once.  The second run meets the stored
    timestamp, the [IntegrityError] is consumed, the route returns the
    observation as the first time, and the table is the table the
    first run left. *)
Theorem current_route_twice me fuel obs tbl w :
  (1 <= fuel)%nat ->
  num_calls w < 29 ->
  disk w = DbFile (Some tbl) ->
  let get := (ClimeCapsule.current_url me, ClimeCapsule.current_params me) in
  decode (provider w (requests_of (trace w)) get) = Ok (PyList [obs]) ->
  decode (provider w (requests_of (trace w) ++ [get]) get)
  = Ok (PyList [obs]) ->
  valid_raw obs ->
  exists w1 w2 tbl1,
    api.current me fuel w
    = (api.Returned (strftime_iso (dt_date (now w)), [obs]), w1)
    /\ disk w1 = DbFile (Some tbl1)
    /\ api.current me fuel w1
       = (api.Returned (strftime_iso (dt_date (now w)), [obs]), w2)
    /\ disk w2 = DbFile (Some tbl1)
    /\ (exists ts,
          getitem obs "obsTimeLocal" = Ok (PyStr ts) /\ has_stamp ts tbl1).
Proof.
  intros F C D get P1 P2 Vr.
  destruct (valid_raw_row obs Vr) as (v & ts & Rv & G & S).
  destruct (current_route_stores me fuel obs v tbl w F ltac:(lia) D P1 Rv)
    as (w1 & R1 & D1 & Pr & Nw & Rq & Cn).
  assert (C1 : num_calls w1 < 30).
  { rewrite Cn. destruct (Qle_bool (period_remaining w) 0); lia. }
  destruct (current_route_stores me fuel obs v _ w1 F C1 D1) as
    (w2 & R2 & D2 & _); [rewrite Pr, Rq; exact P2|exact Rv|].
  rewrite Nw in R2.
  exists w1, w2, (store_each tbl [v]).
  split; [exact R1|]. split; [exact D1|]. split; [exact R2|].
  split.
  - rewrite D2. do 2 f_equal. apply store_each_idempotent.
    constructor; [eauto|constructor].
  - exists ts. split; [exact G|].
    apply (store_each_has_stamps [v] tbl v ts); [left; reflexivity|exact S].
Qed.

(** Noon of 4 March 2024, asked twice: one row. *)
Lemma current_route_twice_at_noon :
  exists w1 w2 tbl1,
    api.current kcodenve1 1 noon_store
    = (api.Returned ("2024-03-04", [current_conditions]), w1)
    /\ api.current kcodenve1 1 w1
       = (api.Returned ("2024-03-04", [current_conditions]), w2)
    /\ disk w2 = DbFile (Some tbl1)
    /\ List.length (weather_data.rows tbl1) = 1%nat.
Proof.
  assert (Vr : valid_raw current_conditions).
  { split; [eexists; reflexivity|]. split; [eexists; reflexivity|].
    split; [eexists; split; [reflexivity|left; reflexivity]|].
    repeat constructor;
      (eexists; split;
       [reflexivity
       |first [left; reflexivity|right; eexists; reflexivity]]). }
  destruct (current_route_twice kcodenve1 1 current_conditions
              weather_data.empty noon_store (le_n 1)
              ltac:(cbn; lia) eq_refl eq_refl eq_refl Vr)
    as (w1 & w2 & tbl1 & R1 & D1 & R2 & D2 & _).
  exists w1, w2, tbl1. split; [exact R1|]. split; [exact R2|].
  split; [exact D2|].
  run_lhs R1. injection R1 as <-. cbn in D1. injection D1 as <-.
  reflexivity.
Defined.
